(** * Kumon attendance backend: scan flow, SMS rendering, QR tokens, phone
    normalisation and guardian links.

    A shallow embedding of the parts of the Express/PostgreSQL backend (and of
    the scanner page's [parseToken]) that the specification talks about.

    Conventions of the embedding.
    - A JavaScript string is a [string]; every character stands for one code
      unit below 256.  [trim] strips the white space of that range and
      [toUpperCase] maps its letters.
    - A timestamp is a [Z]: milliseconds since the epoch, as [Date.getTime()]
      gives them.
    - A table is the list of its rows; a statement is a function on tables.
      A statement fails where the database refuses a parameter: a text that
      holds code unit 0, a time zone it does not know, a number its integer
      columns do not hold.  The handlers pass the failure on and the server
      answers 500.
    - What the program obtains from outside (clocks, the time-zone databases
      of PostgreSQL and of [Intl], formatting, the ids that the sequences of
      the tables give, the SMS gateway, [crypto.randomUUID]) is a field of an
      explicit environment record.  The schema is not among the sources: the
      range of its id columns is a parameter. *)

From Stdlib Require Import ZArith Lia Bool Ascii String List DecimalString.
From stdpp Require Import base option list strings gmap fin_maps sorting.

Local Open Scope Z_scope.

(** ** JavaScript string primitives *)

Module Js.

(** The double quote character (code 34). *)
Abbreviation DQ := (Ascii false true false false false true false false).

(** Code unit of a character. *)
Definition code (c : ascii) : nat := nat_of_ascii c.

(** [\d] of a JavaScript regular expression: the ASCII digits only. *)
Definition isDigit (c : ascii) : bool :=
  (48 <=? code c)%nat && (code c <=? 57)%nat.

(** White space and line terminators removed by [String.prototype.trim],
    restricted to code units below 256: TAB, LF, VT, FF, CR, SPACE, NBSP. *)
Definition isSpace (c : ascii) : bool :=
  ((9 <=? code c)%nat && (code c <=? 13)%nat)
  || (code c =? 32)%nat || (code c =? 160)%nat.

Fixpoint filterS (keep : ascii -> bool) (s : string) : string :=
  match s with
  | EmptyString => EmptyString
  | String c r => if keep c then String c (filterS keep r) else filterS keep r
  end.

Fixpoint allS (p : ascii -> bool) (s : string) : bool :=
  match s with
  | EmptyString => true
  | String c r => p c && allS p r
  end.

Fixpoint trimStart (s : string) : string :=
  match s with
  | EmptyString => EmptyString
  | String c r => if isSpace c then trimStart r else s
  end.

Fixpoint trimEnd (s : string) : string :=
  match s with
  | EmptyString => EmptyString
  | String c r =>
      match trimEnd r with
      | EmptyString => if isSpace c then EmptyString else String c EmptyString
      | r' => String c r'
      end
  end.

(** [s.trim()] *)
Definition trim (s : string) : string := trimStart (trimEnd s).

(** [s.startsWith(p)] *)
Fixpoint startsWith (p s : string) : bool :=
  match p, s with
  | EmptyString, _ => true
  | String a p', String b s' => Ascii.eqb a b && startsWith p' s'
  | String _ _, EmptyString => false
  end.

(** [s.slice(n)] for [0 <= n]. *)
Fixpoint slice (n : nat) (s : string) : string :=
  match n, s with
  | O, _ => s
  | S n', String _ r => slice n' r
  | S _, EmptyString => EmptyString
  end.

(** The letters of the range whose upper case lies 32 below: a-z, and the
    accented letters 224-246 and 248-254. *)
Definition shiftsDown (c : ascii) : bool :=
  ((97 <=? code c)%nat && (code c <=? 122)%nat)
  || ((224 <=? code c)%nat && (code c <=? 246)%nat)
  || ((248 <=? code c)%nat && (code c <=? 254)%nat).

(** Upper case of one code unit, in code units, as [String.prototype.toUpperCase]
    gives it: the sharp s (223) becomes SS, the micro sign (181) becomes
    U+039C and y with diaeresis (255) becomes U+0178. *)
Definition upperUnits (c : ascii) : list N :=
  if shiftsDown c then [N.of_nat (code c - 32)]
  else if (code c =? 223)%nat then [83%N; 83%N]
  else if (code c =? 181)%nat then [924%N]
  else if (code c =? 255)%nat then [376%N]
  else [N.of_nat (code c)].

(** [s.toUpperCase()], in code units. *)
Fixpoint upperCaseUnits (s : string) : list N :=
  match s with
  | EmptyString => []
  | String c r => upperUnits c ++ upperCaseUnits r
  end.

(** The code units of a string. *)
Fixpoint codeUnits (s : string) : list N :=
  match s with
  | EmptyString => []
  | String c r => N.of_nat (code c) :: codeUnits r
  end.

(** The two code units whose upper case lies above 255. *)
Definition leavesRange (c : ascii) : bool :=
  (code c =? 181)%nat || (code c =? 255)%nat.

(** The strings whose upper case stays below 256. *)
Definition upperInRange (s : string) : bool := allS (fun c => negb (leavesRange c)) s.

Definition upperChar (c : ascii) : string :=
  if shiftsDown c then String (ascii_of_nat (code c - 32)) EmptyString
  else if (code c =? 223)%nat then "SS"
  else String c EmptyString.

(** [s.toUpperCase()] as a string.  It is [upperCaseUnits] on the strings of
    [upperInRange]; the two code units that leave the range are kept as they
    are, which no comparison with a text of ASCII characters notices
    ([JsFacts.toUpperCase_units] and [JsFacts.toUpperCase_ascii]). *)
Fixpoint toUpperCase (s : string) : string :=
  match s with
  | EmptyString => EmptyString
  | String c r => upperChar c +:+ toUpperCase r
  end.

(** ASCII characters. *)
Definition isAscii (c : ascii) : bool := (code c <? 128)%nat.

(** What a call that may throw gives: its value, or the exception (a rejected
    promise of the database driver, a [RangeError] of [Intl]).  The exception
    itself is not kept: the handlers pass it on and the server answers 500. *)
Inductive Completion (A : Type) :=
| Normal (a : A)
| Throw.

Arguments Normal {A} a.
Arguments Throw {A}.

(** The text holds code unit 0, which PostgreSQL refuses in a text
    parameter. *)
Definition hasNul (s : string) : bool :=
  negb (allS (fun c => negb (code c =? 0)%nat) s).

(** Truthiness of a string: [!!s]. *)
Definition truthy (s : string) : bool :=
  match s with EmptyString => false | _ => true end.

(** Strings without a given character. *)
Definition lacks (c : ascii) (s : string) : bool :=
  allS (fun x => negb (Ascii.eqb x c)) s.

Definition startsWithSpace (s : string) : bool :=
  match s with String c _ => isSpace c | EmptyString => false end.

Fixpoint endsWithSpace (s : string) : bool :=
  match s with
  | EmptyString => false
  | String c EmptyString => isSpace c
  | String _ r => endsWithSpace r
  end.

End Js.

(** Facts about the string primitives. *)

Module JsFacts.
Import Js.

Lemma append_nil (b : string) : "" +:+ b = b.
Proof. reflexivity. Qed.

Lemma append_cons (x : ascii) (a b : string) :
  String x a +:+ b = String x (a +:+ b).
Proof. reflexivity. Qed.

Lemma append_assoc (a b c : string) : (a +:+ b) +:+ c = a +:+ (b +:+ c).
Proof.
  induction a as [|x a' IH]; [reflexivity|].
  rewrite !append_cons. f_equal. exact IH.
Qed.

Lemma append_empty_r (a : string) : a +:+ "" = a.
Proof.
  induction a as [|x a' IH]; [reflexivity|].
  rewrite append_cons. f_equal. exact IH.
Qed.

Lemma append_snoc (a : string) (c : ascii) (r : string) :
  (a +:+ String c "") +:+ r = a +:+ String c r.
Proof. rewrite append_assoc. reflexivity. Qed.

Lemma trimStart_id s : startsWithSpace s = false -> trimStart s = s.
Proof. destruct s as [|c r]; simpl; [reflexivity|]. intros ->. reflexivity. Qed.

Lemma trimEnd_id s : endsWithSpace s = false -> trimEnd s = s.
Proof.
  induction s as [|c r IH]; [reflexivity|].
  destruct r as [|c' r'].
  - simpl. intros ->. reflexivity.
  - intros H. change (endsWithSpace (String c (String c' r')))
      with (endsWithSpace (String c' r')) in H.
    change (trimEnd (String c (String c' r')))
      with (match trimEnd (String c' r') with
            | EmptyString => if isSpace c then EmptyString else String c EmptyString
            | x => String c x end).
    rewrite (IH H). reflexivity.
Qed.

Lemma endsWithSpace_append a b :
  b <> "" -> endsWithSpace (a +:+ b) = endsWithSpace b.
Proof.
  intros Hb. induction a as [|c r IH]; [reflexivity|].
  rewrite append_cons.
  destruct (r +:+ b) as [|c' r'] eqn:E.
  - destruct r; [rewrite append_nil in E; congruence|discriminate].
  - exact IH.
Qed.

Lemma trim_id s :
  startsWithSpace s = false -> endsWithSpace s = false -> trim s = s.
Proof. intros Hs He. unfold trim. rewrite (trimEnd_id _ He). apply trimStart_id, Hs. Qed.

Lemma codeUnits_app a b : codeUnits (a +:+ b) = codeUnits a ++ codeUnits b.
Proof.
  induction a as [|x a' IH]; [reflexivity|].
  rewrite append_cons. cbn [codeUnits app]. f_equal. exact IH.
Qed.

Lemma code_inj x y : N.of_nat (code x) = N.of_nat (code y) -> x = y.
Proof.
  intros H. apply Nat2N.inj in H. unfold code in H.
  rewrite <- (ascii_nat_embedding x), <- (ascii_nat_embedding y), H. reflexivity.
Qed.

(** One code unit: the string of the model is the upper case, unless the
    upper case leaves the range. *)
Lemma upperChar_units c :
  leavesRange c = false -> codeUnits (upperChar c) = upperUnits c.
Proof. destruct c as [[] [] [] [] [] [] [] []]; vm_compute; congruence. Qed.

Lemma upperChar_leaves c :
  leavesRange c = true ->
  upperChar c = String c "" /\ isAscii c = false
  /\ (upperUnits c = [924%N] \/ upperUnits c = [376%N]).
Proof.
  destruct c as [[] [] [] [] [] [] [] []]; vm_compute; intros H;
    try discriminate H; auto.
Qed.

(** On the strings whose upper case stays in the range [toUpperCase] is the
    upper case of JavaScript. *)
Lemma toUpperCase_units s :
  upperInRange s = true -> codeUnits (toUpperCase s) = upperCaseUnits s.
Proof.
  induction s as [|c r IH]; [reflexivity|].
  intros [Hc Hr]%andb_prop. apply negb_true_iff in Hc.
  cbn [toUpperCase upperCaseUnits].
  rewrite codeUnits_app, (upperChar_units c Hc), IH by exact Hr. reflexivity.
Qed.

Lemma append_prefix p x t :
  p +:+ x = t <-> exists t', t = p +:+ t' /\ x = t'.
Proof.
  split; [intros <-; eauto | intros (t' & -> & ->); reflexivity].
Qed.

Lemma codeUnits_prefix p y t :
  codeUnits p ++ y = codeUnits t <-> exists t', t = p +:+ t' /\ y = codeUnits t'.
Proof.
  revert t. induction p as [|c p IH]; intros t.
  - cbn [codeUnits app]. split; [intros ->; exists t; split; reflexivity|].
    intros (t' & -> & ->). reflexivity.
  - cbn [codeUnits app]. split.
    + destruct t as [|d t]; [discriminate|]. cbn [codeUnits]. intros [= Hc Hr].
      apply code_inj in Hc. subst d. apply IH in Hr as (t' & -> & ->).
      exists t'. split; reflexivity.
    + intros (t' & -> & ->). rewrite append_cons. cbn [codeUnits].
      rewrite codeUnits_app. reflexivity.
Qed.

Lemma allS_app p a b : allS p (a +:+ b) = true -> allS p b = true.
Proof.
  induction a as [|c a IH]; [trivial|]. rewrite append_cons. cbn [allS].
  intros [_ H]%andb_prop. exact (IH H).
Qed.

(** Whatever the string, a comparison of its upper case with a text of ASCII
    characters comes out as in JavaScript. *)
Lemma toUpperCase_ascii s : forall t,
  allS isAscii t = true ->
  (toUpperCase s = t <-> upperCaseUnits s = codeUnits t).
Proof.
  induction s as [|c r IH]; intros t Ht.
  - cbn [toUpperCase upperCaseUnits]. destruct t; cbn [codeUnits];
      split; first [reflexivity | discriminate].
  - cbn [toUpperCase upperCaseUnits]. destruct (leavesRange c) eqn:Hc.
    + destruct (upperChar_leaves c Hc) as (Hu & Hna & Hunits). rewrite Hu.
      split.
      * intros <-. rewrite append_cons in Ht. cbn [allS] in Ht.
        rewrite Hna in Ht. discriminate Ht.
      * intros H. exfalso.
        destruct t as [|d t]; [destruct Hunits as [Hx | Hx]; rewrite Hx in H; discriminate H|].
        cbn [codeUnits allS] in *. apply andb_prop in Ht as [Hd _].
        unfold isAscii in Hd. apply Nat.ltb_lt in Hd.
        destruct Hunits as [Hx | Hx]; rewrite Hx in H; injection H as H _; lia.
    + rewrite <- (upperChar_units c Hc), append_prefix, codeUnits_prefix.
      split; intros (t' & -> & H); exists t'; (split; [reflexivity|]);
        apply (IH t' (allS_app _ _ _ Ht)); exact H.
Qed.

End JsFacts.

(** ** Australian phone normaliser (guardianController.js, importController.js) *)

Module Phone.
Import Js JsFacts.

(** Character class [[\d+]]: what [replace(/[^\d+]/g, '')] keeps. *)
Definition keepDigitPlus (c : ascii) : bool :=
  isDigit c || Ascii.eqb c "+"%char.

(** [/^4\d{8}$/.test(s)] *)
Definition isBareMobile (s : string) : bool :=
  match s with
  | String c r =>
      Ascii.eqb c "4"%char && (String.length r =? 8)%nat && allS isDigit r
  | EmptyString => false
  end.

(** The tail shared by both copies, from [if (!s) return ''] on. *)
Definition normaliseStripped (s0 : string) : string :=
  if negb (truthy s0) then ""
  else
    let s := if startsWith "+" s0 then slice 1 s0 else s0 in
    if startsWith "61" s then "+61" +:+ slice 2 s
    else if startsWith "0" s then "+61" +:+ slice 1 s
    else if isBareMobile s then "+61" +:+ s
    else "".

Module Guardian.
(** guardianController.js: trims, then strips. *)
Definition toE164AU (input : string) : string :=
  let s := trim input in
  let s := filterS keepDigitPlus s in
  normaliseStripped s.
End Guardian.

Module Import_.
(** importController.js: strips only. *)
Definition toE164AU (input : string) : string :=
  let s := filterS keepDigitPlus input in
  normaliseStripped s.
End Import_.

Example toE164AU_local : Guardian.toE164AU " 0436 536 668 " = "+61436536668".
Proof. reflexivity. Qed.

Example toE164AU_bare : Import_.toE164AU "436536668" = "+61436536668".
Proof. reflexivity. Qed.

Example toE164AU_foreign : Import_.toE164AU "+1 555 0100" = "".
Proof. reflexivity. Qed.

Lemma filterS_trimStart keep s :
  (forall c, isSpace c = true -> keep c = false) ->
  filterS keep (trimStart s) = filterS keep s.
Proof.
  intros Hk. induction s as [|c r IH]; simpl; [reflexivity|].
  destruct (isSpace c) eqn:Hc.
  - rewrite IH, (Hk c Hc). reflexivity.
  - reflexivity.
Qed.

Lemma filterS_trimEnd keep s :
  (forall c, isSpace c = true -> keep c = false) ->
  filterS keep (trimEnd s) = filterS keep s.
Proof.
  intros Hk. induction s as [|c r IH]; simpl; [reflexivity|].
  destruct (trimEnd r) as [|c' r'] eqn:Hr.
  - destruct (isSpace c) eqn:Hc.
    + rewrite (Hk c Hc). rewrite <- IH. reflexivity.
    + simpl. rewrite <- IH. reflexivity.
  - change (filterS keep (String c (String c' r')))
      with (if keep c then String c (filterS keep (String c' r'))
            else filterS keep (String c' r')).
    rewrite IH. reflexivity.
Qed.

Lemma space_not_kept c : isSpace c = true -> keepDigitPlus c = false.
Proof.
  unfold isSpace, keepDigitPlus, isDigit, code.
  destruct c as [[] [] [] [] [] [] [] []]; vm_compute; congruence.
Qed.

Lemma filterS_trim s : filterS keepDigitPlus (trim s) = filterS keepDigitPlus s.
Proof.
  unfold trim.
  rewrite filterS_trimStart by apply space_not_kept.
  apply filterS_trimEnd, space_not_kept.
Qed.

Lemma filterS_all keep s : allS keep s = true -> filterS keep s = s.
Proof.
  induction s as [|c r IH]; simpl; [reflexivity|].
  intros [Hc Hr]%andb_prop. rewrite Hc, IH by exact Hr. reflexivity.
Qed.

Lemma allS_filterS keep s : allS keep (filterS keep s) = true.
Proof.
  induction s as [|c r IH]; simpl; [reflexivity|].
  destruct (keep c) eqn:Hc; simpl; [rewrite Hc|]; exact IH.
Qed.

Lemma allS_slice p n s : allS p s = true -> allS p (slice n s) = true.
Proof.
  revert s. induction n as [|n IH]; intros [|c r]; simpl; auto.
  intros [_ Hr]%andb_prop. auto.
Qed.

Lemma allS_weaken (p q : ascii -> bool) s :
  (forall c, p c = true -> q c = true) -> allS p s = true -> allS q s = true.
Proof.
  intros Hpq. induction s as [|c r IH]; simpl; [reflexivity|].
  intros [Hc Hr]%andb_prop. rewrite (Hpq c Hc), IH by exact Hr. reflexivity.
Qed.

(** Shape of every result of the shared tail on stripped input. *)
Lemma normaliseStripped_shape s :
  allS keepDigitPlus s = true ->
  normaliseStripped s = ""
  \/ exists r, normaliseStripped s = "+61" +:+ r /\ allS keepDigitPlus r = true.
Proof.
  intros Hs. unfold normaliseStripped.
  destruct (truthy s); cbn [negb]; cbv iota; [|left; reflexivity].
  set (s1 := if startsWith "+" s then slice 1 s else s).
  assert (H1 : allS keepDigitPlus s1 = true).
  { subst s1. destruct (startsWith "+" s); [apply allS_slice|]; exact Hs. }
  destruct (startsWith "61" s1).
  { right. eexists. split; [reflexivity|]. apply allS_slice, H1. }
  destruct (startsWith "0" s1).
  { right. eexists. split; [reflexivity|]. apply allS_slice, H1. }
  destruct (isBareMobile s1).
  { right. eexists. split; [reflexivity|]. exact H1. }
  left. reflexivity.
Qed.

Lemma normaliseStripped_fix r :
  normaliseStripped ("+61" +:+ r) = "+61" +:+ r.
Proof. reflexivity. Qed.

Lemma guardian_eq_import x : Guardian.toE164AU x = Import_.toE164AU x.
Proof.
  unfold Guardian.toE164AU, Import_.toE164AU. rewrite filterS_trim. reflexivity.
Qed.

Lemma import_shape x :
  Import_.toE164AU x = ""
  \/ exists r, Import_.toE164AU x = "+61" +:+ r /\ allS keepDigitPlus r = true.
Proof. apply normaliseStripped_shape, allS_filterS. Qed.

Lemma import_idempotent x :
  Import_.toE164AU (Import_.toE164AU x) = Import_.toE164AU x.
Proof.
  destruct (import_shape x) as [-> | (r & -> & Hr)]; [reflexivity|].
  unfold Import_.toE164AU.
  assert (Hall : allS keepDigitPlus ("+61" +:+ r) = true) by exact Hr.
  rewrite (filterS_all _ _ Hall). apply normaliseStripped_fix.
Qed.

(** C9. The normaliser of guardianController and the one of importController
    are the same function; every result is either empty or starts with +61;
    and normalising a result again gives it back (so each copy is idempotent,
    in particular on its non-empty results). *)
Theorem toE164AU_copies_agree_and_idempotent (x : string) :
  Guardian.toE164AU x = Import_.toE164AU x
  /\ (Guardian.toE164AU x = "" \/ startsWith "+61" (Guardian.toE164AU x) = true)
  /\ Guardian.toE164AU (Guardian.toE164AU x) = Guardian.toE164AU x
  /\ Import_.toE164AU (Import_.toE164AU x) = Import_.toE164AU x.
Proof.
  split; [apply guardian_eq_import|].
  rewrite !guardian_eq_import.
  split; [|split; apply import_idempotent].
  destruct (import_shape x) as [-> | (r & -> & _)]; [left|right]; reflexivity.
Qed.

End Phone.

(** ** SMS template renderer (utils/smsRenderer.js) *)

Module SmsRenderer.
Import Js JsFacts.

(** [a ?? b] *)
Definition nullish {A} (a : option A) (b : A) : A :=
  match a with Some x => x | None => b end.

(** [a || b] where [a] is a string or undefined. *)
Definition orElse (a : option string) (b : string) : string :=
  match a with
  | Some x => if truthy x then x else b
  | None => b
  end.

(** [String(n)] for an integer. *)
Definition stringOfZ (n : Z) : string :=
  DecimalString.NilEmpty.string_of_int (Z.to_int n).

(** The [student] object handed to the renderer (either naming style). *)
Record StudentArg := {
  student_id : option Z;
  student_first_name : option string;
  student_firstName : option string;
  student_last_name : option string;
  student_lastName : option string;
}.

(** The second argument of [renderSmsTemplate]; [None] is an absent field. *)
Record RenderArg := {
  arg_student : StudentArg;
  arg_type : option string;
  arg_now : option Z;
  arg_centerName : option string;
  arg_centreName : option string;
  arg_tz : option string;
  arg_timezone : option string;
}.

(** Process environment and [Intl] formatting, as the renderer sees them. *)
Record RenderEnv := {
  env_APP_TZ : option string;
  env_CENTER_NAME : option string;
  clockNow : Z;                          (* new Date() *)
  (** whether [Intl] knows the time zone: for another one
      [new Intl.DateTimeFormat("en-AU", { ..., timeZone })] throws a
      [RangeError], and so do [toLocaleDateString] and [toLocaleTimeString] *)
  intlZone : string -> bool;
  formatDate : string -> Z -> string;    (* dateFmt.format(d) in a known zone *)
  formatTime : string -> Z -> string;    (* timeFmt.format(d) in a known zone *)
}.

Definition firstOf (s : StudentArg) : string :=
  nullish (student_first_name s) (nullish (student_firstName s) "").

Definition lastOf (s : StudentArg) : string :=
  nullish (student_last_name s) (nullish (student_lastName s) "").

(** [[first, last].filter(Boolean).join(" ")] *)
Definition joinNames (first last : string) : string :=
  match truthy first, truthy last with
  | true, true => first +:+ " " +:+ last
  | true, false => first
  | false, true => last
  | false, false => ""
  end.

(** [[first, last].filter(Boolean).join(" ").trim() || "Student"] *)
Definition fullName (first last : string) : string :=
  orElse (Some (trim (joinNames first last))) "Student".

Definition timeZoneOf (env : RenderEnv) (a : RenderArg) : string :=
  orElse (arg_tz a) (orElse (arg_timezone a) (orElse (env_APP_TZ env) "Australia/Hobart")).

Definition centreOf (env : RenderEnv) (a : RenderArg) : string :=
  orElse (arg_centerName a)
    (orElse (arg_centreName a) (orElse (env_CENTER_NAME env) "Kumon Centre")).

(** The object literal [map]: its own properties, in source order. *)
Definition tokenMap (env : RenderEnv) (a : RenderArg) : list (string * string) :=
  let s := arg_student a in
  let d := nullish (arg_now a) (clockNow env) in
  let first := firstOf s in
  let last := lastOf s in
  let timeZone := timeZoneOf env a in
  let centre := centreOf env a in
  [ ("student.firstName", orElse (Some first) "Student");
    ("student.lastName", last);
    ("student.fullName", fullName first last);
    ("student.id", match student_id s with Some n => stringOfZ n | None => "" end);
    ("type", toUpperCase (orElse (Some (nullish (arg_type a) "CHECK_IN")) ""));
    ("time", formatTime env timeZone d);
    ("date", formatDate env timeZone d);
    ("center.name", centre);
    ("centre.name", centre);
    ("timezone", timeZone) ].

Fixpoint ownProperty (m : list (string * string)) (key : string) : option string :=
  match m with
  | [] => None
  | (k, v) :: m' => if String.eqb k key then Some v else ownProperty m' key
  end.

(** [map] is a plain object, so [map[key]] also finds what it inherits from
    [Object.prototype].  The table gives [String(value)] of each inherited
    member as Node prints it. *)
Definition nativeFunctionText (name : string) : string :=
  "function " +:+ name +:+ "() { [native code] }".

Definition objectPrototypeMember (key : string) : option string :=
  if String.eqb key "constructor" then Some (nativeFunctionText "Object")
  else if String.eqb key "__proto__" then Some "[object Object]"
  else if existsb (String.eqb key)
            [ "toString"; "toLocaleString"; "valueOf"; "hasOwnProperty";
              "isPrototypeOf"; "propertyIsEnumerable"; "__defineGetter__";
              "__defineSetter__"; "__lookupGetter__"; "__lookupSetter__" ]
       then Some (nativeFunctionText key)
  else None.

(** The replacer callback [(m, key) => (map[key] ?? m)], where [m] is the
    whole match [{key}]; the result is converted to a string by [replace]. *)
Definition replacer (map : list (string * string)) (key : string) : string :=
  match ownProperty map key with
  | Some v => v
  | None =>
      match objectPrototypeMember key with
      | Some shown => shown
      | None => "{" +:+ key +:+ "}"
      end
  end.

(** [text.replace(/\{([^}]+)\}/g, f)], as a left-to-right scan.  [pending] is
    [Some key] after an opening brace whose group is still being read: the
    group [[^}]+] runs up to the next closing brace, must not be empty, and
    a brace that never closes matches nothing. *)
Fixpoint replaceTokens (f : string -> string) (pending : option string) (s : string)
  : string :=
  match s, pending with
  | EmptyString, None => ""
  | EmptyString, Some key => "{" +:+ key
  | String c r, None =>
      if Ascii.eqb c "{"%char then replaceTokens f (Some "") r
      else String c (replaceTokens f None r)
  | String c r, Some key =>
      if Ascii.eqb c "}"%char then
        match key with
        | EmptyString => "{}" +:+ replaceTokens f None r
        | _ => f key +:+ replaceTokens f None r
        end
      else replaceTokens f (Some (key +:+ String c "")) r
  end.

(** The last statement of [renderSmsTemplate]: the text returned. *)
Definition renderedText (env : RenderEnv) (text : string) (a : RenderArg) : string :=
  trim (replaceTokens (replacer (tokenMap env a)) None text).

(** [renderSmsTemplate(text, { ... })].  The two formatters are built in the
    [try] block; for a zone that [Intl] does not know the first constructor
    throws, the [catch] block formats with the same zone and throws again, and
    the exception leaves the function before any token is replaced. *)
Definition renderSmsTemplate (env : RenderEnv) (text : string) (a : RenderArg)
  : Completion string :=
  if intlZone env (timeZoneOf env a) then Normal (renderedText env text a) else Throw.

(** A sample environment and argument. *)
Definition sampleEnv : RenderEnv := {|
  env_APP_TZ := None;
  env_CENTER_NAME := None;
  clockNow := 0;
  intlZone := fun tz => String.eqb tz "Australia/Hobart" || String.eqb tz "UTC";
  formatDate := fun _ _ => "Fri, 15 Aug 2025";
  formatTime := fun _ _ => "7:04 pm AEST";
|}.

Definition sampleArg : RenderArg := {|
  arg_student := {| student_id := Some 42%Z;
                    student_first_name := Some "Ada";
                    student_firstName := None;
                    student_last_name := Some "Lovelace";
                    student_lastName := None |};
  arg_type := Some "check_out";
  arg_now := Some 1755248640000%Z;
  arg_centerName := Some "Kumon North Hobart";
  arg_centreName := None;
  arg_tz := None;
  arg_timezone := Some "Australia/Hobart";
|}.

(** The sample argument with a zone that [Intl] does not know. *)
Definition marsArg : RenderArg := {|
  arg_student := arg_student sampleArg;
  arg_type := arg_type sampleArg;
  arg_now := arg_now sampleArg;
  arg_centerName := arg_centerName sampleArg;
  arg_centreName := None;
  arg_tz := Some "Mars/Olympus";
  arg_timezone := None;
|}.

Example render_default :
  renderSmsTemplate sampleEnv
    "{student.fullName} has checked in at {time} on {date}. " sampleArg
  = Normal "Ada Lovelace has checked in at 7:04 pm AEST on Fri, 15 Aug 2025.".
Proof. reflexivity. Qed.

Example render_misc :
  renderSmsTemplate sampleEnv "#{student.id} {type} {nope} {} {centre.name}" sampleArg
  = Normal "#42 CHECK_OUT {nope} {} Kumon North Hobart".
Proof. reflexivity. Qed.

Example render_unknown_zone :
  renderSmsTemplate sampleEnv "Hello" marsArg = Throw.
Proof. reflexivity. Qed.

(** Text before the first opening brace is copied. *)
Lemma replaceTokens_copy f pre s :
  lacks "{" pre = true ->
  replaceTokens f None (pre +:+ s) = pre +:+ replaceTokens f None s.
Proof.
  induction pre as [|c r IH]; [reflexivity|].
  intros [Hc Hr]%andb_prop. apply negb_true_iff in Hc.
  rewrite !append_cons. cbn [replaceTokens].
  rewrite Hc, IH by exact Hr. reflexivity.
Qed.

(** Reading a group up to its closing brace. *)
Lemma replaceTokens_group f acc key rest :
  lacks "}" key = true ->
  replaceTokens f (Some acc) (key +:+ String "}" rest)
  = match acc +:+ key with
    | EmptyString => "{}" +:+ replaceTokens f None rest
    | k => f k +:+ replaceTokens f None rest
    end.
Proof.
  revert acc. induction key as [|c r IH]; intros acc Hk.
  - rewrite append_nil, append_empty_r. destruct acc; reflexivity.
  - apply andb_prop in Hk as [Hc Hr]. apply negb_true_iff in Hc.
    rewrite append_cons. cbn [replaceTokens]. rewrite Hc, IH by exact Hr.
    rewrite (append_snoc acc c r). reflexivity.
Qed.

(** An opening brace that is never closed matches nothing. *)
Lemma replaceTokens_unclosed f acc s :
  lacks "}" s = true -> replaceTokens f (Some acc) s = "{" +:+ acc +:+ s.
Proof.
  revert acc. induction s as [|c r IH]; intros acc Hs.
  - rewrite append_empty_r. reflexivity.
  - apply andb_prop in Hs as [Hc Hr]. apply negb_true_iff in Hc.
    cbn [replaceTokens]. rewrite Hc, IH by exact Hr.
    rewrite (append_snoc acc c r). reflexivity.
Qed.

Lemma replaceTokens_token f pre key post :
  lacks "{" pre = true -> key <> "" -> lacks "}" key = true ->
  replaceTokens f None (pre +:+ "{" +:+ key +:+ "}" +:+ post)
  = pre +:+ f key +:+ replaceTokens f None post.
Proof.
  intros Hpre Hne Hkey. rewrite replaceTokens_copy by exact Hpre.
  f_equal.
  change ("{" +:+ key +:+ "}" +:+ post) with (String "{" (key +:+ String "}" post)).
  cbn [replaceTokens Ascii.eqb Bool.eqb].
  rewrite (replaceTokens_group f "" key post Hkey). rewrite append_nil.
  destruct key; [congruence|reflexivity].
Qed.

(** Both names present and free of outer white space: joined by one space. *)
Lemma fullName_both first last :
  first <> "" -> last <> "" ->
  startsWithSpace first = false -> endsWithSpace last = false ->
  fullName first last = first +:+ " " +:+ last.
Proof.
  intros Hf Hl Hsf Hel. unfold fullName, joinNames.
  destruct first as [|c f]; [congruence|]. destruct last as [|d l]; [congruence|].
  cbn [truthy].
  rewrite trim_id.
  - reflexivity.
  - exact Hsf.
  - rewrite (endsWithSpace_append (String c f) (" " +:+ String d l)) by discriminate.
    exact Hel.
Qed.

Lemma fullName_empty : fullName "" "" = "Student".
Proof. reflexivity. Qed.

(** The text of [type] that the renderer puts in upper case:
    [String(type || "")], with the default of the parameter. *)
Definition typeText (a : RenderArg) : string :=
  orElse (Some (nullish (arg_type a) "CHECK_IN")) "".

(** The claim as worded fails three times.  A known token that follows an
    unmatched opening brace is part of a longer group and stays in the
    output; a token named after a member of [Object.prototype] is not among
    the known tokens, yet it is replaced; and with a time zone that [Intl]
    does not know nothing is replaced: the call throws. *)
Lemma renderSmsTemplate_not_every_occurrence :
  ownProperty (tokenMap sampleEnv sampleArg) "time" = Some "7:04 pm AEST"
  /\ renderSmsTemplate sampleEnv "At {{time}" sampleArg = Normal "At {{time}"
  /\ renderSmsTemplate sampleEnv "At {{time}" sampleArg <> Normal "At {7:04 pm AEST"
  /\ ownProperty (tokenMap sampleEnv sampleArg) "constructor" = None
  /\ renderSmsTemplate sampleEnv "{constructor}" sampleArg <> Normal "{constructor}"
  /\ ownProperty (tokenMap sampleEnv marsArg) "type" = Some "CHECK_OUT"
  /\ renderSmsTemplate sampleEnv "{type}" marsArg = Throw.
Proof. repeat split; try reflexivity; vm_compute; discriminate. Qed.

(** C5 (amended).  The known tokens are the ten names of the map.  With a
    time zone that [Intl] does not know the call throws, whatever the text.
    With a zone it knows, the text is read left to right in groups: an
    opening brace, one or more characters other than a closing brace, a
    closing brace.  Text before a group is copied; a group whose key is a
    known token becomes that token's value; a group whose key is neither a
    known token nor a member inherited from [Object.prototype] is copied as
    it stands; the result is trimmed.  The value of [{type}] is the type in
    upper case (stated for the types whose upper case stays within the code
    units of the model).  [{student.fullName}] stands for [fullName]:
    "Student" when both names are empty, and the two names joined by one
    space when both are present without outer white space. *)
Theorem renderSmsTemplate_groups (env : RenderEnv) (a : RenderArg) :
  let f := replacer (tokenMap env a) in
  map fst (tokenMap env a)
  = [ "student.firstName"; "student.lastName"; "student.fullName"; "student.id";
      "type"; "time"; "date"; "center.name"; "centre.name"; "timezone" ]
  /\ (intlZone env (timeZoneOf env a) = false ->
      forall text, renderSmsTemplate env text a = Throw)
  /\ (intlZone env (timeZoneOf env a) = true ->
      upperInRange (typeText a) = true ->
      (forall pre key post v,
         lacks "{" pre = true -> key <> "" -> lacks "}" key = true ->
         ownProperty (tokenMap env a) key = Some v ->
         renderSmsTemplate env (pre +:+ "{" +:+ key +:+ "}" +:+ post) a
         = Normal (trim (pre +:+ v +:+ replaceTokens f None post)))
      /\ (forall pre key post,
            lacks "{" pre = true -> key <> "" -> lacks "}" key = true ->
            ownProperty (tokenMap env a) key = None ->
            objectPrototypeMember key = None ->
            renderSmsTemplate env (pre +:+ "{" +:+ key +:+ "}" +:+ post) a
            = Normal (trim (pre +:+ ("{" +:+ key +:+ "}") +:+ replaceTokens f None post)))
      /\ (forall text, lacks "{" text = true ->
            renderSmsTemplate env text a = Normal (trim text))
      /\ exists v, ownProperty (tokenMap env a) "type" = Some v
                   /\ codeUnits v = upperCaseUnits (typeText a))
  /\ ownProperty (tokenMap env a) "student.fullName"
     = Some (fullName (firstOf (arg_student a)) (lastOf (arg_student a)))
  /\ fullName "" "" = "Student"
  /\ (forall first last,
        first <> "" -> last <> "" ->
        startsWithSpace first = false -> endsWithSpace last = false ->
        fullName first last = first +:+ " " +:+ last).
Proof.
  intros f. split; [reflexivity|].
  split; [intros Hz text; unfold renderSmsTemplate; rewrite Hz; reflexivity|].
  split; [|split; [reflexivity|split; [reflexivity|apply fullName_both]]].
  intros Hz Hup. unfold renderSmsTemplate, renderedText. rewrite Hz.
  split; [|split; [|split]].
  - intros pre key post v Hpre Hne Hkey Hv.
    rewrite replaceTokens_token by assumption.
    fold f. unfold f at 1. unfold replacer. rewrite Hv. reflexivity.
  - intros pre key post Hpre Hne Hkey Hown Hproto.
    rewrite replaceTokens_token by assumption.
    fold f. unfold f at 1. unfold replacer. rewrite Hown, Hproto. reflexivity.
  - intros text Htext.
    rewrite <- (append_empty_r text) at 1.
    rewrite replaceTokens_copy by exact Htext. cbn [replaceTokens].
    rewrite append_empty_r. reflexivity.
  - exists (toUpperCase (typeText a)). split; [reflexivity|].
    apply toUpperCase_units, Hup.
Qed.

(** The theorem at a concrete template: a known and an unknown group. *)
Lemma renderSmsTemplate_groups_witness :
  renderSmsTemplate sampleEnv ("Hi, " +:+ "{" +:+ "time" +:+ "}" +:+ " {nope}") sampleArg
  = Normal "Hi, 7:04 pm AEST {nope}"
  /\ renderSmsTemplate sampleEnv ("" +:+ "{" +:+ "nope" +:+ "}" +:+ "!") sampleArg
     = Normal "{nope}!"
  /\ fullName "Ada" "Lovelace" = "Ada Lovelace".
Proof.
  destruct (renderSmsTemplate_groups sampleEnv sampleArg)
    as (_ & _ & Hgroups & _ & _ & Hfull).
  destruct (Hgroups eq_refl eq_refl) as (Hknown & Hunknown & _).
  split; [|split].
  - rewrite (Hknown "Hi, " "time" " {nope}" "7:04 pm AEST");
      [reflexivity| reflexivity | discriminate | reflexivity | reflexivity].
  - rewrite (Hunknown "" "nope" "!");
      [reflexivity| reflexivity | discriminate | reflexivity | reflexivity | reflexivity].
  - rewrite (Hfull "Ada" "Lovelace");
      [reflexivity| discriminate | discriminate | reflexivity | reflexivity].
Defined.

End SmsRenderer.

(** ** JSON text, as [JSON.parse] and [JSON.stringify] treat it *)

Module Json.
Import Js.

(** A parsed string is a sequence of UTF-16 code units: [\uXXXX] escapes reach
    beyond the range of the source text's characters. *)
Definition units := list N.

Definition unitsOf (s : string) : units :=
  map (fun c => N.of_nat (code c)) (list_ascii_of_string s).

#[warnings="-register-all"]
Inductive json :=
| JNull
| JBool (b : bool)
| JNumber (lexeme : string)
| JString (u : units)
| JArray (items : list json)
| JObject (members : list (units * json)).

(** JSON white space: space, tab, line feed, carriage return. *)
Definition isJsonSpace (c : ascii) : bool :=
  (code c =? 32)%nat || (code c =? 9)%nat || (code c =? 10)%nat || (code c =? 13)%nat.

Fixpoint skipWs (s : string) : string :=
  match s with
  | String c r => if isJsonSpace c then skipWs r else s
  | EmptyString => EmptyString
  end.

Definition hexValue (c : ascii) : option N :=
  let n := code c in
  if ((48 <=? n) && (n <=? 57))%nat then Some (N.of_nat (n - 48))
  else if ((97 <=? n) && (n <=? 102))%nat then Some (N.of_nat (n - 87))
  else if ((65 <=? n) && (n <=? 70))%nat then Some (N.of_nat (n - 55))
  else None.

Definition hex4 (a b c d : ascii) : option N :=
  match hexValue a, hexValue b, hexValue c, hexValue d with
  | Some x, Some y, Some z, Some w => Some (((x * 16 + y) * 16 + z) * 16 + w)%N
  | _, _, _, _ => None
  end.

(** The character an escape letter stands for. *)
Definition simpleEscape (e : ascii) : option N :=
  if Ascii.eqb e DQ then Some 34%N
  else if Ascii.eqb e "\"%char then Some 92%N
  else if Ascii.eqb e "/"%char then Some 47%N
  else if Ascii.eqb e "b"%char then Some 8%N
  else if Ascii.eqb e "f"%char then Some 12%N
  else if Ascii.eqb e "n"%char then Some 10%N
  else if Ascii.eqb e "r"%char then Some 13%N
  else if Ascii.eqb e "t"%char then Some 9%N
  else None.

(** The characters of a string literal after its opening quote; [acc] holds
    the units read so far, last first. *)
Fixpoint parseStringBody (s : string) (acc : units) : option (units * string) :=
  match s with
  | EmptyString => None
  | String c r =>
      if Ascii.eqb c DQ then Some (rev acc, r)
      else if Ascii.eqb c "\"%char then
        match r with
        | String e r1 =>
            match simpleEscape e with
            | Some u => parseStringBody r1 (u :: acc)
            | None =>
                if Ascii.eqb e "u"%char then
                  match r1 with
                  | String h1 (String h2 (String h3 (String h4 r2))) =>
                      match hex4 h1 h2 h3 h4 with
                      | Some u => parseStringBody r2 (u :: acc)
                      | None => None
                      end
                  | _ => None
                  end
                else None
            end
        | EmptyString => None
        end
      else if (code c <? 32)%nat then None
      else parseStringBody r (N.of_nat (code c) :: acc)
  end.

(** Longest prefix of digits and what follows it. *)
Fixpoint takeDigits (s : string) : string * string :=
  match s with
  | String c r =>
      if isDigit c then let '(d, rest) := takeDigits r in (String c d, rest)
      else (EmptyString, s)
  | EmptyString => (EmptyString, EmptyString)
  end.

(** Integer part: [0], or a non-zero digit followed by digits. *)
Definition takeInt (s : string) : option (string * string) :=
  match s with
  | String c r =>
      if Ascii.eqb c "0"%char then Some ("0", r)
      else if isDigit c then let '(d, rest) := takeDigits r in Some (String c d, rest)
      else None
  | EmptyString => None
  end.

Definition takeFraction (s : string) : option (string * string) :=
  match s with
  | String c r =>
      if Ascii.eqb c "."%char then
        match takeDigits r with
        | (EmptyString, _) => None
        | (d, rest) => Some (String c d, rest)
        end
      else Some (EmptyString, s)
  | EmptyString => Some (EmptyString, s)
  end.

Definition takeExponent (s : string) : option (string * string) :=
  match s with
  | String c r =>
      if Ascii.eqb c "e"%char || Ascii.eqb c "E"%char then
        let '(sign, r1) :=
          match r with
          | String g r' =>
              if Ascii.eqb g "+"%char || Ascii.eqb g "-"%char
              then (String g EmptyString, r') else (EmptyString, r)
          | EmptyString => (EmptyString, r)
          end in
        match takeDigits r1 with
        | (EmptyString, _) => None
        | (d, rest) => Some (String c (sign +:+ d), rest)
        end
      else Some (EmptyString, s)
  | EmptyString => Some (EmptyString, s)
  end.

(** A number literal: its lexeme and the rest of the text. *)
Definition parseNumber (s : string) : option (string * string) :=
  let '(minus, s1) :=
    match s with
    | String c r => if Ascii.eqb c "-"%char then ("-", r) else (EmptyString, s)
    | EmptyString => (EmptyString, s)
    end in
  match takeInt s1 with
  | Some (i, s2) =>
      match takeFraction s2 with
      | Some (f, s3) =>
          match takeExponent s3 with
          | Some (e, s4) => Some (minus +:+ i +:+ f +:+ e, s4)
          | None => None
          end
      | None => None
      end
  | None => None
  end.

Definition parseLiteral (word : string) (v : json) (s : string) : option (json * string) :=
  if startsWith word s then Some (v, slice (String.length word) s) else None.

(** Recursive descent; every call on a nested value spends one unit of
    [fuel] and reads at least one character. *)
Fixpoint parseValue (fuel : nat) (s : string) {struct fuel} : option (json * string) :=
  match fuel with
  | O => None
  | S n =>
      match skipWs s with
      | EmptyString => None
      | String c r =>
          if Ascii.eqb c "{"%char then
            match skipWs r with
            | String d r' =>
                if Ascii.eqb d "}"%char then Some (JObject [], r')
                else parseMembers n (String d r') []
            | EmptyString => None
            end
          else if Ascii.eqb c "["%char then
            match skipWs r with
            | String d r' =>
                if Ascii.eqb d "]"%char then Some (JArray [], r')
                else parseElements n (String d r') []
            | EmptyString => None
            end
          else if Ascii.eqb c DQ then
            match parseStringBody r [] with
            | Some (u, rest) => Some (JString u, rest)
            | None => None
            end
          else if Ascii.eqb c "t"%char then parseLiteral "true" (JBool true) (String c r)
          else if Ascii.eqb c "f"%char then parseLiteral "false" (JBool false) (String c r)
          else if Ascii.eqb c "n"%char then parseLiteral "null" JNull (String c r)
          else
            match parseNumber (String c r) with
            | Some (lexeme, rest) => Some (JNumber lexeme, rest)
            | None => None
            end
      end
  end

with parseMembers (fuel : nat) (s : string) (acc : list (units * json)) {struct fuel}
  : option (json * string) :=
  match fuel with
  | O => None
  | S n =>
      match skipWs s with
      | String q r =>
          if Ascii.eqb q DQ then
            match parseStringBody r [] with
            | Some (key, r1) =>
                match skipWs r1 with
                | String colon r2 =>
                    if Ascii.eqb colon ":"%char then
                      match parseValue n r2 with
                      | Some (v, r3) =>
                          match skipWs r3 with
                          | String sep r4 =>
                              if Ascii.eqb sep ","%char
                              then parseMembers n r4 (acc ++ [(key, v)])
                              else if Ascii.eqb sep "}"%char
                              then Some (JObject (acc ++ [(key, v)]), r4)
                              else None
                          | EmptyString => None
                          end
                      | None => None
                      end
                    else None
                | EmptyString => None
                end
            | None => None
            end
          else None
      | EmptyString => None
      end
  end

with parseElements (fuel : nat) (s : string) (acc : list json) {struct fuel}
  : option (json * string) :=
  match fuel with
  | O => None
  | S n =>
      match parseValue n s with
      | Some (v, r1) =>
          match skipWs r1 with
          | String sep r2 =>
              if Ascii.eqb sep ","%char then parseElements n r2 (acc ++ [v])
              else if Ascii.eqb sep "]"%char then Some (JArray (acc ++ [v]), r2)
              else None
          | EmptyString => None
          end
      | None => None
      end
  end.

(** [JSON.parse(text)]; [None] stands for the SyntaxError it throws. *)
Definition JSON_parse (text : string) : option json :=
  match parseValue (S (String.length text)) text with
  | Some (v, rest) => match skipWs rest with EmptyString => Some v | _ => None end
  | None => None
  end.

Definition hexDigit (n : nat) : ascii :=
  ascii_of_nat (if (n <? 10)%nat then 48 + n else 87 + n).

(** How [JSON.stringify] writes one character of a string. *)
Definition quoteChar (c : ascii) : string :=
  let n := code c in
  if Ascii.eqb c DQ then String "\" (String DQ "")
  else if Ascii.eqb c "\"%char then "\\"
  else if (n =? 8)%nat then "\b"
  else if (n =? 9)%nat then "\t"
  else if (n =? 10)%nat then "\n"
  else if (n =? 12)%nat then "\f"
  else if (n =? 13)%nat then "\r"
  else if (n <? 32)%nat
       then "\u00" +:+ String (hexDigit (n / 16)) (String (hexDigit (n mod 16)) "")
  else String c "".

Fixpoint quoteChars (s : string) : string :=
  match s with
  | EmptyString => EmptyString
  | String c r => quoteChar c +:+ quoteChars r
  end.

(** [JSON.stringify(s)] for a string. *)
Definition quote (s : string) : string := String DQ (quoteChars s +:+ String DQ "").

Example parse_object :
  JSON_parse (" { " +:+ quote "v" +:+ " : 1 , " +:+ quote "token" +:+ " : "
              +:+ String DQ ("aA\n" +:+ String DQ " } "))
  = Some (JObject [ (unitsOf "v", JNumber "1");
                    (unitsOf "token", JString [97; 65; 10]%N) ]).
Proof. reflexivity. Qed.

Example parse_nested :
  JSON_parse ("[1.5e-3,[true,null],{" +:+ quote "a" +:+ ":{}}]")
  = Some (JArray [ JNumber "1.5e-3"; JArray [JBool true; JNull];
                   JObject [(unitsOf "a", JObject [])] ]).
Proof. reflexivity. Qed.

Example parse_rejects :
  JSON_parse ("{" +:+ quote "a" +:+ ":1,}") = None /\ JSON_parse "01" = None
  /\ JSON_parse "[1 2]" = None /\ JSON_parse EmptyString = None.
Proof. repeat split. Qed.

End Json.

(** ** QR tokens: issuing (qrController.js, scripts/generate-qr.js) and
    reading (pages/Scan.jsx) *)

Module QrToken.
Import Js JsFacts Json.

(** A row of [qr_code]. *)
Record QrCodeRow := {
  qr_id : Z;
  qr_student_id : Z;
  qr_token : string;
  qr_active : bool;
  qr_created_by : option Z;
}.

(** [SELECT token FROM qr_code WHERE student_id=$1 AND active=TRUE LIMIT 1] *)
Definition selectActiveToken (qr_code : list QrCodeRow) (studentId : Z) : option string :=
  match List.filter (fun q => (qr_student_id q =? studentId)%Z && qr_active q) qr_code with
  | q :: _ => Some (qr_token q)
  | [] => None
  end.

(** [createdBy || null] *)
Definition orNull (id : option Z) : option Z :=
  match id with
  | Some 0 => None
  | u => u
  end.

(** The row of
    [INSERT INTO qr_code (student_id, token, active, created_by)
     VALUES ($1,$2,TRUE,$3)].  The statement names no id: [newId] is the one
    that the database gives the row. *)
Definition newQrCode (uuid : string) (newId : Z) (studentId : Z)
    (createdBy : option Z) : QrCodeRow :=
  {| qr_id := newId; qr_student_id := studentId; qr_token := uuid;
     qr_active := true; qr_created_by := orNull createdBy |}.

(** [ensureActiveToken(studentId, createdBy)]; [uuid] is what
    [crypto.randomUUID()] returns when it is called, [newId] the id that the
    database gives a row inserted then.  The embedding is of the calls whose
    statements run: [studentId] is a number that the id columns hold, as the
    id of a student that [generateQRCodes] has found is. *)
Definition ensureActiveToken (uuid : string) (newId : Z) (qr_code : list QrCodeRow)
    (studentId : Z) (createdBy : option Z) : string * list QrCodeRow :=
  match selectActiveToken qr_code studentId with
  | Some tok =>
      if truthy tok then (tok, qr_code)
      else (uuid, qr_code ++ [newQrCode uuid newId studentId createdBy])
  | None => (uuid, qr_code ++ [newQrCode uuid newId studentId createdBy])
  end.

(** The text that [generateQRCodes] and [downloadQrPng] hand to
    [QRCode.toBuffer]: the token itself. *)
Definition controllerQrText (token : string) : string := token.

(** The text that scripts/generate-qr.js hands to [QRCode.toFile]:
    [JSON.stringify({ v: 1, token })]. *)
Definition scriptQrText (token : string) : string :=
  "{" +:+ quote "v" +:+ ":1," +:+ quote "token" +:+ ":" +:+ quote token +:+ "}".

(** One round of the loop of [generateQRCodes] for a student that exists:
    the text encoded in the PNG and the table afterwards. *)
Definition generateQRCode (uuid : string) (newId : Z) (qr_code : list QrCodeRow)
    (studentId : Z) (userId : option Z) : string * list QrCodeRow :=
  let '(token, qr_code') := ensureActiveToken uuid newId qr_code studentId userId in
  (controllerQrText token, qr_code').

(** [o.token] of a parsed value: the last member of that name of an object. *)
Fixpoint lastMember (key : units) (members : list (units * json)) : option json :=
  match members with
  | [] => None
  | (k, v) :: rest =>
      match lastMember key rest with
      | Some w => Some w
      | None => if decide (k = key) then Some v else None
      end
  end.

Definition tokenOf (o : json) : option units :=
  match o with
  | JObject members =>
      match lastMember (unitsOf "token") members with
      | Some (JString t) => match t with [] => None | _ => Some t end
      | _ => None
      end
  | _ => None
  end.

(** [parseToken(raw)] of the scanner page. *)
Definition parseToken (raw : string) : option units :=
  let fromJson :=
    match JSON_parse raw with
    | Some o => tokenOf o
    | None => None
    end in
  match fromJson with
  | Some t => Some t
  | None => if truthy raw && truthy (trim raw) then Some (unitsOf (trim raw)) else None
  end.

(** Lower-case hexadecimal digits and the hyphen: the characters of
    [crypto.randomUUID()]. *)
Definition isUuidChar (c : ascii) : bool :=
  isDigit c || ((97 <=? code c)%nat && (code c <=? 102)%nat) || Ascii.eqb c "-"%char.

Definition isHexLower (c : ascii) : bool :=
  isDigit c || ((97 <=? code c)%nat && (code c <=? 102)%nat).

(** The 8-4-4-4-12 layout of a UUID. *)
Definition isUuid (s : string) : bool :=
  match list_ascii_of_string s with
  | [a1;a2;a3;a4;a5;a6;a7;a8; h1; b1;b2;b3;b4; h2; c1;c2;c3;c4; h3;
     d1;d2;d3;d4; h4; e1;e2;e3;e4;e5;e6;e7;e8;e9;e10;e11;e12] =>
      forallb isHexLower
        [a1;a2;a3;a4;a5;a6;a7;a8; b1;b2;b3;b4; c1;c2;c3;c4; d1;d2;d3;d4;
         e1;e2;e3;e4;e5;e6;e7;e8;e9;e10;e11;e12]
      && forallb (Ascii.eqb "-"%char) [h1; h2; h3; h4]
  | _ => false
  end.

Definition sampleUuid : string := "3f2b8c1e-9a4d-4c7e-8f21-6b0d5e9a7c13".

Example sampleUuid_ok : isUuid sampleUuid = true.
Proof. reflexivity. Qed.

Example parseToken_json :
  parseToken (scriptQrText sampleUuid) = Some (unitsOf sampleUuid).
Proof. vm_compute. reflexivity. Qed.

Example parseToken_raw :
  parseToken (" " +:+ sampleUuid +:+ " ") = Some (unitsOf sampleUuid).
Proof. vm_compute. reflexivity. Qed.

Example parseToken_blank : parseToken "   " = None.
Proof. reflexivity. Qed.

Lemma uuidChar_cases c :
  isUuidChar c = true ->
  Ascii.eqb c DQ = false /\ Ascii.eqb c "\"%char = false
  /\ (code c <? 32)%nat = false /\ isSpace c = false /\ isJsonSpace c = false
  /\ Ascii.eqb c "{"%char = false /\ quoteChar c = String c "".
Proof.
  destruct c as [[] [] [] [] [] [] [] []]; vm_compute; intros H;
    try discriminate H; repeat split.
Qed.

Lemma quoteChars_plain t : allS isUuidChar t = true -> quoteChars t = t.
Proof.
  induction t as [|c r IH]; [reflexivity|].
  intros [Hc Hr]%andb_prop. cbn [quoteChars].
  destruct (uuidChar_cases c Hc) as (_ & _ & _ & _ & _ & _ & ->).
  rewrite IH by exact Hr. reflexivity.
Qed.

Lemma unitsOf_cons c r : unitsOf (String c r) = N.of_nat (code c) :: unitsOf r.
Proof. reflexivity. Qed.

Lemma parseStringBody_plain t rest acc :
  allS isUuidChar t = true ->
  parseStringBody (t +:+ String DQ rest) acc = Some (rev acc ++ unitsOf t, rest).
Proof.
  revert acc. induction t as [|c r IH]; intros acc Ht.
  - rewrite append_nil. cbn. rewrite app_nil_r. reflexivity.
  - apply andb_prop in Ht as [Hc Hr].
    destruct (uuidChar_cases c Hc) as (Hq & Hb & Hctl & _).
    rewrite append_cons. cbn [parseStringBody]. rewrite Hq, Hb, Hctl.
    rewrite IH by exact Hr. rewrite unitsOf_cons. cbn [rev].
    rewrite <- app_assoc. reflexivity.
Qed.

Lemma scriptQrText_plain t :
  allS isUuidChar t = true ->
  scriptQrText t
  = String "{" (String DQ (String "v" (String DQ (String ":" (String "1" (String "," (String DQ (String "t" (String "o" (String "k" (String "e" (String "n" (String DQ (String ":" (String DQ (t +:+ String DQ "}")))))))))))))))).
Proof.
  intros Ht. unfold scriptQrText. unfold quote at 3. rewrite (quoteChars_plain t Ht).
  rewrite (append_cons DQ (t +:+ String DQ EmptyString) "}"), append_assoc.
  reflexivity.
Qed.

(** Evaluate character tests on literal characters. *)
Ltac char_tests :=
  repeat match goal with
    | |- context [isJsonSpace ?c] =>
        is_ground c; let v := eval vm_compute in (isJsonSpace c) in
        change (isJsonSpace c) with v
    | |- context [isDigit ?c] =>
        is_ground c; let v := eval vm_compute in (isDigit c) in
        change (isDigit c) with v
    | |- context [(code ?c <? 32)%nat] =>
        is_ground c; let v := eval vm_compute in (code c <? 32)%nat in
        change (code c <? 32)%nat with v
    end.

Ltac parse_steps :=
  repeat (progress (cbn [parseValue parseMembers skipWs parseStringBody parseNumber
                         takeInt takeDigits takeFraction takeExponent simpleEscape
                         Ascii.eqb Bool.eqb andb orb rev app];
                    char_tests)).

(** Parsing the script's payload around the token's literal [body]. *)
Lemma parseValue_script_frame n body u :
  parseStringBody body [] = Some (u, "}") ->
  parseValue (S (S (S (S n))))
    (String "{" (String DQ (String "v" (String DQ (String ":" (String "1" (String "," (String DQ (String "t" (String "o" (String "k" (String "e" (String "n" (String DQ (String ":" (String DQ (body)))))))))))))))))
  = Some (JObject [ (unitsOf "v", JNumber "1"); (unitsOf "token", JString u) ], EmptyString).
Proof.
  intros H. parse_steps. rewrite H. parse_steps. reflexivity.
Qed.

(** The payload of the script parses to the object it was written from. *)
Lemma JSON_parse_script t :
  allS isUuidChar t = true ->
  JSON_parse (scriptQrText t)
  = Some (JObject [ (unitsOf "v", JNumber "1"); (unitsOf "token", JString (unitsOf t)) ]).
Proof.
  intros Ht. rewrite (scriptQrText_plain t Ht). unfold JSON_parse.
  cbn [String.length].
  rewrite (parseValue_script_frame _ _ (unitsOf t));
    [reflexivity | apply (parseStringBody_plain t "}" [] Ht)].
Qed.

Lemma parseElements_array n : forall s acc v r,
  parseElements n s acc = Some (v, r) -> exists items, v = JArray items.
Proof.
  induction n as [|n IH]; intros s acc v r H; [discriminate H|].
  cbn [parseElements] in H.
  destruct (parseValue n s) as [[w r1]|]; [|discriminate H].
  destruct (skipWs r1) as [|sep r2]; [discriminate H|].
  destruct (Ascii.eqb sep ","); [eapply IH; exact H|].
  destruct (Ascii.eqb sep "]"); [|discriminate H].
  injection H as <- _. eauto.
Qed.

(** A text parses to an object only if it opens with a brace. *)
Lemma parseValue_object n s members r :
  parseValue n s = Some (JObject members, r) ->
  exists r', skipWs s = String "{" r'.
Proof.
  destruct n as [|n]; [discriminate|]. cbn [parseValue].
  destruct (skipWs s) as [|c rest]; [discriminate|].
  destruct (Ascii.eqb c "{") eqn:Hc.
  { apply Ascii.eqb_eq in Hc as ->. eauto. }
  intros H. exfalso.
  destruct (Ascii.eqb c "[").
  { destruct (skipWs rest) as [|d r']; [discriminate H|].
    destruct (Ascii.eqb d "]"); [discriminate H|].
    apply parseElements_array in H as [items Hv]. discriminate Hv. }
  destruct (Ascii.eqb c DQ).
  { destruct (parseStringBody rest []) as [[u q]|]; discriminate H. }
  unfold parseLiteral in H.
  repeat match type of H with
         | (if ?b then _ else _) = _ => destruct b
         end; try discriminate H.
  destruct (parseNumber (String c rest)) as [[lx q]|]; discriminate H.
Qed.

Lemma plain_no_outer_space t :
  allS isUuidChar t = true -> startsWithSpace t = false /\ endsWithSpace t = false.
Proof.
  intros Ht. split.
  - destruct t as [|c r]; [reflexivity|]. apply andb_prop in Ht as [Hc _].
    apply (uuidChar_cases c Hc).
  - induction t as [|c r IH]; [reflexivity|].
    apply andb_prop in Ht as [Hc Hr]. destruct r as [|c' r'].
    + apply (uuidChar_cases c Hc).
    + exact (IH Hr).
Qed.

(** A bare token is read back as it stands. *)
Lemma parseToken_plain t :
  t <> "" -> allS isUuidChar t = true -> parseToken t = Some (unitsOf t).
Proof.
  intros Hne Ht. unfold parseToken.
  assert (Hjson : match JSON_parse t with Some o => tokenOf o | None => None end = None).
  { unfold JSON_parse.
    destruct (parseValue (S (String.length t)) t) as [[v rest]|] eqn:Hp; [|reflexivity].
    destruct (skipWs rest); [|reflexivity].
    destruct v; try reflexivity.
    apply parseValue_object in Hp as [r' Hr'].
    destruct t as [|c r]; [congruence|]. apply andb_prop in Ht as [Hc _].
    destruct (uuidChar_cases c Hc) as (_ & _ & _ & _ & Hws & Hbrace & _).
    cbn [skipWs] in Hr'. rewrite Hws in Hr'. injection Hr' as -> _.
    discriminate Hbrace. }
  rewrite Hjson.
  destruct (plain_no_outer_space t Ht) as [Hs He].
  rewrite (trim_id t Hs He).
  destruct t; [congruence|reflexivity].
Qed.

Lemma isUuid_plain t : isUuid t = true -> t <> "" /\ allS isUuidChar t = true.
Proof.
  unfold isUuid. intros H. split; [intros ->; discriminate H|].
  assert (Hw : forall c, isHexLower c = true -> isUuidChar c = true).
  { intros c Hc. unfold isUuidChar. unfold isHexLower in Hc.
    rewrite Hc. reflexivity. }
  assert (Hd : forall c, Ascii.eqb "-" c = true -> isUuidChar c = true).
  { intros c Hc. apply Ascii.eqb_eq in Hc as <-. reflexivity. }
  rewrite <- (string_of_list_ascii_of_string t).
  destruct (list_ascii_of_string t) as [|x l]; [discriminate H|].
  do 35 (destruct l as [|? l]; [discriminate H|]).
  destruct l; [|discriminate H].
  cbn [forallb] in H.
  repeat match type of H with
         | (_ && _)%bool = true => let H1 := fresh in apply andb_prop in H as [H H1]
         end.
  repeat match goal with
         | Hx : (_ && _)%bool = true |- _ =>
             let H1 := fresh in apply andb_prop in Hx as [Hx H1]
         end.
  cbn [string_of_list_ascii allS].
  repeat match goal with
         | Hx : isHexLower _ = true |- _ => apply Hw in Hx; rewrite Hx; clear Hx
         | Hx : Ascii.eqb "-" _ = true |- _ => apply Hd in Hx; rewrite Hx; clear Hx
         end.
  reflexivity.
Qed.

Lemma selectActiveToken_some table sid tok :
  selectActiveToken table sid = Some tok ->
  exists q, In q table /\ qr_token q = tok /\ qr_student_id q = sid /\ qr_active q = true.
Proof.
  unfold selectActiveToken.
  destruct (List.filter _ table) as [|q l] eqn:Hf; [discriminate|].
  intros [= <-]. exists q.
  assert (Hin : In q (List.filter
                        (fun q => (qr_student_id q =? sid)%Z && qr_active q) table)).
  { rewrite Hf. left. reflexivity. }
  apply filter_In in Hin as [Hin [Hs Ha]%andb_prop].
  apply Z.eqb_eq in Hs. auto.
Qed.

Lemma selectActiveToken_append table sid uuid row :
  selectActiveToken table sid = None ->
  qr_student_id row = sid -> qr_active row = true -> qr_token row = uuid ->
  selectActiveToken (table ++ [row]) sid = Some uuid.
Proof.
  unfold selectActiveToken. intros Hnone Hs Ha Ht.
  rewrite List.filter_app.
  destruct (List.filter _ table); [|discriminate Hnone].
  cbn [List.filter app]. rewrite Hs, Ha, Z.eqb_refl. cbn. rewrite Ht. reflexivity.
Qed.

(** The claim as worded fails for the images the server issues: the text in
    the QR code of [generateQRCodes] is the bare token, which is no JSON. *)
Lemma generateQRCode_text_is_not_json :
  let '(text, table) := generateQRCode sampleUuid 1 [] 7 (Some 1) in
  isUuid sampleUuid = true
  /\ selectActiveToken table 7 = Some sampleUuid
  /\ text = sampleUuid
  /\ JSON_parse text = None
  /\ text <> scriptQrText sampleUuid.
Proof. vm_compute. repeat split; discriminate. Qed.

(** C7 (amended).  For every student, the QR code issued by the server
    carries the student's active token itself, an opaque UUID and not the
    database id of any row, as its text; the export script wraps the same
    token in the JSON payload [{"v":1,"token":...}].  The scanner recovers the
    token from either text: from the payload by parsing the JSON, from the
    bare text by trimming it. *)
Theorem qr_text_round_trip (uuid : string) (newId : Z) (qr_code : list QrCodeRow)
    (studentId : Z) (userId : option Z) :
  isUuid uuid = true ->
  Forall (fun q => isUuid (qr_token q) = true) qr_code ->
  let '(text, table) := generateQRCode uuid newId qr_code studentId userId in
  exists token,
    selectActiveToken table studentId = Some token
    /\ isUuid token = true
    /\ text = token
    /\ parseToken text = Some (unitsOf token)
    /\ JSON_parse (scriptQrText token)
       = Some (JObject [ (unitsOf "v", JNumber "1");
                         (unitsOf "token", JString (unitsOf token)) ])
    /\ parseToken (scriptQrText token) = Some (unitsOf token).
Proof.
  intros Huuid Hall. unfold generateQRCode.
  assert (Hread : forall token, isUuid token = true ->
            parseToken (controllerQrText token) = Some (unitsOf token)
            /\ JSON_parse (scriptQrText token)
               = Some (JObject [ (unitsOf "v", JNumber "1");
                                 (unitsOf "token", JString (unitsOf token)) ])
            /\ parseToken (scriptQrText token) = Some (unitsOf token)).
  { intros token Htok. destruct (isUuid_plain token Htok) as [Hne Hplain].
    split; [apply parseToken_plain; assumption|].
    pose proof (JSON_parse_script token Hplain) as Hj. split; [exact Hj|].
    unfold parseToken. rewrite Hj. cbn [tokenOf].
    assert (Hl : lastMember (unitsOf "token")
                   [ (unitsOf "v", JNumber "1");
                     (unitsOf "token", JString (unitsOf token)) ]
                 = Some (JString (unitsOf token))) by reflexivity.
    rewrite Hl. destruct token; [congruence|reflexivity]. }
  destruct (ensureActiveToken uuid newId qr_code studentId userId)
    as [token table] eqn:He.
  unfold ensureActiveToken in He.
  destruct (selectActiveToken qr_code studentId) as [tok|] eqn:Hsel.
  - apply selectActiveToken_some in Hsel as Hrow. destruct Hrow as (q & Hin & Htok & _).
    assert (Hq : isUuid tok = true).
    { rewrite Forall_forall in Hall. rewrite <- Htok.
      apply Hall, list_elem_of_In, Hin. }
    destruct (isUuid_plain tok Hq) as [Hne _].
    destruct tok as [|c r]; [congruence|]. cbn [truthy] in He.
    injection He as <- <-. exists (String c r).
    destruct (Hread (String c r) Hq) as (H1 & H2 & H3). auto 10.
  - injection He as <- <-. exists uuid.
    destruct (Hread uuid Huuid) as (H1 & H2 & H3).
    split; [apply selectActiveToken_append; auto|]. auto 10.
Qed.

(** The theorem on the first code issued for student 7 of a table that
    holds another student's token. *)
Lemma qr_text_round_trip_witness :
  exists token,
    selectActiveToken
      (snd (generateQRCode sampleUuid 2
              [ {| qr_id := 1; qr_student_id := 3;
                   qr_token := "0a1b2c3d-0000-4000-8000-00000000000f";
                   qr_active := true; qr_created_by := None |} ] 7 None)) 7
    = Some token
    /\ parseToken (fst (generateQRCode sampleUuid 2
              [ {| qr_id := 1; qr_student_id := 3;
                   qr_token := "0a1b2c3d-0000-4000-8000-00000000000f";
                   qr_active := true; qr_created_by := None |} ] 7 None))
       = Some (unitsOf token).
Proof.
  pose proof (qr_text_round_trip sampleUuid 2
                [ {| qr_id := 1; qr_student_id := 3;
                     qr_token := "0a1b2c3d-0000-4000-8000-00000000000f";
                     qr_active := true; qr_created_by := None |} ] 7 None) as H.
  destruct (generateQRCode _ _ _ _ _) as [text table].
  destruct H as (token & Hsel & _ & Htext & Hparse & _).
  - reflexivity.
  - repeat constructor.
  - exists token. split; assumption.
Defined.

End QrToken.

(** ** Guardian links (studentController.js, importController.js) *)

Module Schema.

(** The schema of the database is not among the sources.  The handlers that
    take an id from the URL hand it to a statement as it is, and the statement
    fails when no integer column holds the number: the range of the id
    columns is a parameter.  (Foreign keys, if the schema declares them, are
    not part of the embedding.) *)
Class IdColumn := holds : Z -> bool.

(** The range of a four-byte [integer] column. *)
Definition int4 : IdColumn := fun n => (-2147483648 <=? n) && (n <=? 2147483647).

End Schema.

Module Links.
Import Schema.

(** A row of [student_guardian], with the columns the statement writes. *)
Record LinkRow := {
  sg_student_id : Z;
  sg_guardian_id : Z;
  sg_is_primary : bool;
}.

Definition sameLink (s g : Z) (r : LinkRow) : bool :=
  (sg_student_id r =? s) && (sg_guardian_id r =? g).

Definition setPrimary (p : bool) (r : LinkRow) : LinkRow :=
  {| sg_student_id := sg_student_id r; sg_guardian_id := sg_guardian_id r;
     sg_is_primary := p |}.

(** [INSERT INTO student_guardian (student_id, guardian_id, is_primary)
     VALUES ($1,$2,$3)
     ON CONFLICT (student_id, guardian_id) DO UPDATE
       SET is_primary = EXCLUDED.is_primary]:
    the statement of [linkGuardian] and of [maybeInsertGuardianLink]. *)
Definition upsertLink (table : list LinkRow) (s g : Z) (p : bool) : list LinkRow :=
  if existsb (sameLink s g) table
  then map (fun r => if sameLink s g r then setPrimary p r else r) table
  else table ++ [ {| sg_student_id := s; sg_guardian_id := g; sg_is_primary := p |} ].

(** The unique index that [ON CONFLICT (student_id, guardian_id)] names. *)
Definition linkKey (r : LinkRow) : Z * Z := (sg_student_id r, sg_guardian_id r).

Definition uniqueLinks (table : list LinkRow) : Prop := List.NoDup (map linkKey table).




(** The link operation repeated, once for each flag of the list. *)
Definition linkMany (table : list LinkRow) (s g : Z) (flags : list bool) : list LinkRow :=
  fold_left (fun t p => upsertLink t s g p) flags table.

Definition rowsOf (s g : Z) (table : list LinkRow) : list LinkRow :=
  List.filter (sameLink s g) table.

Definition otherRows (s g : Z) (table : list LinkRow) : list LinkRow :=
  List.filter (fun r => negb (sameLink s g r)) table.

Example link_twice :
  linkMany [ {| sg_student_id := 1; sg_guardian_id := 9; sg_is_primary := true |} ]
    1 2 [true; false]
  = [ {| sg_student_id := 1; sg_guardian_id := 9; sg_is_primary := true |};
      {| sg_student_id := 1; sg_guardian_id := 2; sg_is_primary := false |} ].
Proof. reflexivity. Qed.

Lemma sameLink_key s g r : sameLink s g r = true <-> linkKey r = (s, g).
Proof.
  unfold sameLink, linkKey. rewrite andb_true_iff, !Z.eqb_eq.
  split; [intros [-> ->]; reflexivity | intros [= -> ->]; auto].
Qed.


Lemma rowsOf_in_keys s g table :
  rowsOf s g table <> [] -> In (s, g) (map linkKey table).
Proof.
  unfold rowsOf. induction table as [|r t IH]; cbn [List.filter map]; [congruence|].
  destruct (sameLink s g r) eqn:Hr.
  - intros _. left. apply sameLink_key, Hr.
  - intros H. right. exact (IH H).
Qed.

(** Under the unique index at most one row carries a given key. *)
Lemma unique_at_most_one s g table :
  uniqueLinks table -> (length (rowsOf s g table) <= 1)%nat.
Proof.
  unfold uniqueLinks, rowsOf.
  induction table as [|r t IH]; cbn [List.filter map]; intros Hnd; [cbn; lia|].
  inversion Hnd as [|k ks Hnotin Hnd']; subst.
  destruct (sameLink s g r) eqn:Hr.
  - apply sameLink_key in Hr.
    destruct (List.filter (sameLink s g) t) eqn:Hf; [cbn; lia|].
    exfalso. apply Hnotin. rewrite Hr. apply rowsOf_in_keys.
    unfold rowsOf. rewrite Hf. discriminate.
  - exact (IH Hnd').
Qed.











End Links.

(** ** Today's statistics (scanController.js, getTodayStats) *)

Module Stats.
Import Js.

(** A row of the query of [getTodayStats].  [row_type] is [r.type || ""]. *)
Record StatRow := {
  row_student_id : Z;
  row_type : string;
  row_scanned_at : Z;
  row_has_message : bool;
}.

(** The loop's variables; [latestByStudent] maps a student to the time and
    type of the latest row seen. *)
Record Counters := {
  todayIn : nat;
  todayOut : nat;
  nonSmsIn : nat;
  nonSmsOut : nat;
  latestByStudent : gmap Z (Z * string);
}.

Definition initial : Counters :=
  {| todayIn := 0; todayOut := 0; nonSmsIn := 0; nonSmsOut := 0;
     latestByStudent := ∅ |}.

(** One round of [for (const r of rows)]. *)
Definition step (c : Counters) (r : StatRow) : Counters :=
  let type := toUpperCase (row_type r) in
  let ts := row_scanned_at r in
  let hasMsg := row_has_message r in
  let isIn := String.eqb type "CHECK_IN" in
  let isOut := negb isIn && String.eqb type "CHECK_OUT" in
  let prev := latestByStudent c !! row_student_id r in
  let newer :=
    match prev with
    | None => true
    | Some (prevTs, _) => (prevTs <? ts)%Z
    end in
  {| todayIn := if isIn then S (todayIn c) else todayIn c;
     todayOut := if isOut then S (todayOut c) else todayOut c;
     nonSmsIn := if isIn && negb hasMsg then S (nonSmsIn c) else nonSmsIn c;
     nonSmsOut := if isOut && negb hasMsg then S (nonSmsOut c) else nonSmsOut c;
     latestByStudent :=
       if newer then <[row_student_id r := (ts, type)]> (latestByStudent c)
       else latestByStudent c |}.

(** [latestByStudent.forEach(({ type }) => { if (type === 'CHECK_IN') onCampusToday++; })] *)
Definition countOnCampus (m : gmap Z (Z * string)) : nat :=
  map_fold (fun _ (v : Z * string) n => if String.eqb (snd v) "CHECK_IN" then S n else n)
    0%nat m.

(** The JSON body of the response. *)
Record TodayStats := {
  res_todayIn : nat;
  res_todayOut : nat;
  res_onCampusToday : nat;
  res_nonSmsIn : nat;
  res_nonSmsOut : nat;
  res_nonSmsTotal : nat;
}.

(** [getTodayStats] from the rows of its query on. *)
Definition getTodayStats (rows : list StatRow) : TodayStats :=
  let c := fold_left step rows initial in
  {| res_todayIn := todayIn c;
     res_todayOut := todayOut c;
     res_onCampusToday := countOnCampus (latestByStudent c);
     res_nonSmsIn := nonSmsIn c;
     res_nonSmsOut := nonSmsOut c;
     res_nonSmsTotal := nonSmsIn c + nonSmsOut c |}.

Example stats_sample :
  getTodayStats
    [ {| row_student_id := 1; row_type := "CHECK_IN"; row_scanned_at := 10;
         row_has_message := true |};
      {| row_student_id := 2; row_type := "CHECK_IN"; row_scanned_at := 20;
         row_has_message := false |};
      {| row_student_id := 1; row_type := "CHECK_OUT"; row_scanned_at := 30;
         row_has_message := false |};
      {| row_student_id := 2; row_type := "CHECK_IN"; row_scanned_at := 40;
         row_has_message := true |} ]
  = {| res_todayIn := 3; res_todayOut := 1; res_onCampusToday := 1;
       res_nonSmsIn := 1; res_nonSmsOut := 1; res_nonSmsTotal := 2 |}.
Proof. vm_compute. reflexivity. Qed.

Definition isCheckIn (kv : Z * (Z * string)) : Prop := snd (snd kv) = "CHECK_IN".

Local Instance isCheckIn_dec kv : Decision (isCheckIn kv).
Proof. unfold isCheckIn. apply _. Defined.

(** The count of the [forEach] is the number of entries of type CHECK_IN. *)
Lemma countOnCampus_size (m : gmap Z (Z * string)) :
  countOnCampus m = size (filter isCheckIn m).
Proof.
  unfold countOnCampus. induction m as [|k v m Hk IH] using map_ind.
  - rewrite map_fold_empty, map_filter_empty, map_size_empty. reflexivity.
  - rewrite map_fold_insert_L.
    + rewrite IH. destruct (String.eqb (snd v) "CHECK_IN") eqn:Hv.
      * apply String.eqb_eq in Hv.
        rewrite map_filter_insert_True by exact Hv.
        rewrite map_size_insert_None; [reflexivity|].
        rewrite map_lookup_filter_None. left. exact Hk.
      * apply String.eqb_neq in Hv.
        rewrite map_filter_insert_not' ; [reflexivity| exact Hv |].
        intros y Hy. rewrite Hk in Hy. discriminate Hy.
    + intros j1 j2 z1 z2 y _ _ _.
      destruct (String.eqb (snd z1) "CHECK_IN"), (String.eqb (snd z2) "CHECK_IN");
        reflexivity.
    + exact Hk.
Qed.

(** Writing an entry raises the count by at most one, and not at all when
    the entry is not a check-in. *)
Lemma countOnCampus_insert (m : gmap Z (Z * string)) k ts type :
  (countOnCampus (<[k := (ts, type)]> m)
   <= countOnCampus m + (if String.eqb type "CHECK_IN" then 1 else 0))%nat.
Proof.
  rewrite !countOnCampus_size.
  destruct (String.eqb type "CHECK_IN") eqn:Ht.
  - apply String.eqb_eq in Ht.
    rewrite map_filter_insert_True by exact Ht.
    destruct (filter isCheckIn m !! k) eqn:Hl.
    + rewrite map_size_insert_Some by eauto. lia.
    + rewrite map_size_insert_None by exact Hl. lia.
  - apply String.eqb_neq in Ht.
    rewrite map_filter_insert_False by exact Ht.
    rewrite map_filter_delete.
    destruct (filter isCheckIn m !! k) eqn:Hl.
    + rewrite map_size_delete_Some by eauto. lia.
    + rewrite map_size_delete_None by exact Hl. lia.
Qed.

(** The loop keeps the campus count below the number of check-in rows. *)
Lemma step_invariant c r :
  (countOnCampus (latestByStudent c) <= todayIn c)%nat ->
  (countOnCampus (latestByStudent (step c r)) <= todayIn (step c r))%nat.
Proof.
  intros Hinv. unfold step. cbn [latestByStudent todayIn].
  set (type := toUpperCase (row_type r)).
  pose proof (countOnCampus_insert (latestByStudent c) (row_student_id r)
                (row_scanned_at r) type) as Hins.
  destruct (match latestByStudent c !! row_student_id r with
            | Some (prevTs, _) => (prevTs <? row_scanned_at r)%Z
            | None => true
            end);
    destruct (String.eqb type "CHECK_IN"); lia.
Qed.

Lemma loop_invariant rows : forall c,
  (countOnCampus (latestByStudent c) <= todayIn c)%nat ->
  (countOnCampus (latestByStudent (fold_left step rows c))
   <= todayIn (fold_left step rows c))%nat.
Proof.
  induction rows as [|r rows IH]; intros c Hc; [exact Hc|].
  cbn [fold_left]. apply IH, step_invariant, Hc.
Qed.

(** C10.  Whatever rows the query returns, the response of [getTodayStats]
    has [nonSmsTotal = nonSmsIn + nonSmsOut], and [onCampusToday], the number
    of students whose latest row is a check-in, is at most [todayIn], the
    number of check-in rows. *)
Theorem getTodayStats_totals (rows : list StatRow) :
  res_nonSmsTotal (getTodayStats rows)
  = (res_nonSmsIn (getTodayStats rows) + res_nonSmsOut (getTodayStats rows))%nat
  /\ (res_onCampusToday (getTodayStats rows) <= res_todayIn (getTodayStats rows))%nat
  /\ res_todayIn (getTodayStats rows)
     = length (List.filter
                 (fun r => String.eqb (toUpperCase (row_type r)) "CHECK_IN") rows).
Proof.
  split; [reflexivity|]. split.
  - unfold getTodayStats. cbn [res_onCampusToday res_todayIn].
    apply loop_invariant. unfold initial, countOnCampus. cbn [latestByStudent todayIn].
    rewrite map_fold_empty. lia.
  - unfold getTodayStats. cbn [res_todayIn].
    assert (H : forall c, todayIn (fold_left step rows c)
                = (todayIn c + length (List.filter
                     (fun r => String.eqb (toUpperCase (row_type r)) "CHECK_IN")
                     rows))%nat).
    { induction rows as [|r rows IH]; intros c; cbn [fold_left List.filter].
      - cbn. lia.
      - rewrite IH. unfold step at 1. cbn [todayIn].
        destruct (String.eqb (toUpperCase (row_type r)) "CHECK_IN"); cbn [length]; lia. }
    rewrite H. reflexivity.
Qed.

End Stats.

(** ** The scan flow (scanController.js, handleScan) *)

Module Scan.
Import Js.

(** *** Request *)

(** The integers that a JavaScript number holds exactly and prints with all
    their digits: those up to 2^53 in absolute value. *)
Definition safeInteger (n : Z) : bool := Z.abs n <=? 9007199254740992.

(** A value of the JSON body of a request: absent, null, a boolean, an
    integer of the safe range, or a string. *)
Inductive jsval :=
| JUndefined
| JNull
| JBool (b : bool)
| JNum (n : Z) (safe : Is_true (safeInteger n))
| JStr (s : string).

(** [!!v] *)
Definition truthyV (v : jsval) : bool :=
  match v with
  | JBool b => b
  | JNum n _ => negb (n =? 0)
  | JStr s => truthy s
  | JUndefined | JNull => false
  end.

(** [String(v)], also the text the database driver sends for a parameter. *)
Definition toStringV (v : jsval) : string :=
  match v with
  | JUndefined => "undefined"
  | JNull => "null"
  | JBool true => "true"
  | JBool false => "false"
  | JNum n _ => SmsRenderer.stringOfZ n
  | JStr s => s
  end.

(** [v === true] *)
Definition isTrue (v : jsval) : bool :=
  match v with JBool true => true | _ => false end.

(** [req.body] and [req.user?.id]. *)
Record ScanRequest := {
  qrCode : jsval;
  type : jsval;
  messageOverride : jsval;
  recheck : jsval;
  headcountOnly : jsval;
  user_id : option Z;
}.

(** [req.user?.id || null] *)
Definition scannedBy (req : ScanRequest) : option Z :=
  match user_id req with
  | Some 0 => None
  | u => u
  end.

(** *** Tables *)

Record StudentRow := {
  st_id : Z;
  st_first_name : option string;
  st_last_name : option string;
  st_status : string;
}.

(** [meta]: which of the two keys the object holds (always with value true). *)
Record ScanMeta := {
  meta_recheck : bool;
  meta_headcountOnly : bool;
}.

Record ScanEventRow := {
  se_id : Z;
  se_student_id : Z;
  se_qr_code_id : Z;
  se_type : string;
  se_scanned_by : option Z;
  se_scanned_at : Z;
  se_was_duplicate : bool;
  se_meta : ScanMeta;
}.

Record GuardianRow := {
  g_id : Z;
  g_phone_e164 : string;
  g_active : bool;
  g_phone_valid : bool;
}.

Record MessageLogRow := {
  ml_id : Z;
  ml_student_id : Z;
  ml_trigger_type : string;
  ml_scan_event_id : Z;
  ml_template_key : option string;
  ml_body_rendered : string;
  ml_created_by : option Z;
}.

Record MessageRecipientRow := {
  mr_message_log_id : Z;
  mr_guardian_id : Z;
  mr_phone_e164 : string;
  mr_status : string;
  mr_gateway_message_id : option string;
  mr_gateway_status : string;
}.

(** Value of the setting [center.profile]; an absent key is [None]. *)
Record OrgProfile := {
  profile_centreName : option string;
  profile_timezone : option string;
}.

(** Value of the setting [sms.policy]: the truthiness of its two keys. *)
Record SmsPolicy := {
  sendOnCheckIn : bool;
  sendOnCheckOut : bool;
}.

Record Db := {
  qr_code : list QrToken.QrCodeRow;
  student : list StudentRow;
  scan_event : list ScanEventRow;
  guardian : list GuardianRow;
  student_guardian : list Links.LinkRow;
  message_template : list (string * string);
  message_log : list MessageLogRow;
  message_recipient : list MessageRecipientRow;
  setting_center_profile : option OrgProfile;
  setting_sms_policy : option SmsPolicy;
}.

(** *** Outside world *)

(** One entry of the payload of the gateway. *)
Record SmsItem := {
  item_to : string;
  item_body : string;
}.

(** One entry of the gateway's answer; an absent field is [None]. *)
Record GatewayMessage := {
  gm_to : string;
  gm_message_id : option string;
  gm_status : option string;
}.

Record ScanEnv := {
  renderEnv : SmsRenderer.RenderEnv;
  (** whether PostgreSQL knows the time zone: [AT TIME ZONE $3] fails for
      another one *)
  zoneInDb : string -> bool;
  (** [(t AT TIME ZONE tz)::date], as a day number, in a zone it knows *)
  localDate : string -> Z -> Z;
  (** [formatDateTimeTZ(d, tz)]: [Intl.DateTimeFormat('en-AU', { timeZone: tz,
      ... }).format(d)], and the Hobart formatter where that throws *)
  formatInZone : string -> Z -> string;
  (** [now()] of the same-day query *)
  guardNow : Z;
  (** [new Date()] of step 3 *)
  scanNow : Z;
  (** [now()] of the insertion of the scan event *)
  insertNow : Z;
  (** the id that [INSERT INTO scan_event ... RETURNING *] gives the new
      row *)
  scanEventId : Z;
  (** the id that [INSERT INTO message_log ... RETURNING id] gives *)
  messageLogId : Z;
  (** the POST to the gateway: [None] when [sendSmsMany] throws.  The texts
      of the answer are taken to be texts that the database stores (free of
      code unit 0). *)
  clickSend : list SmsItem -> option (list GatewayMessage);
}.

(** *** Response *)

Record RecipientDetail := {
  rd_phone : string;
  rd_status : string;
  rd_gateway_status : string;
  rd_gateway_message_id : option string;
}.

(** The answers of [handleScan].  [ServerError] is the answer of the error
    handler of the server, to which the handler passes what is thrown. *)
Inductive Response :=
| Failure (status : Z) (error : string)
| ServerError
| AlreadyToday (error : string) (lastAt : string)
| DuplicateScan (scan : ScanEventRow) (headcount : bool)
| RecordedOnly (scan : ScanEventRow) (smsAllowed headcount : bool)
| Notified (scan : ScanEventRow) (messageLogId : Z) (recipients : list string)
    (recipientsDetailed : list RecipientDetail) (sent : nat)
    (smsAllowed headcount : bool) (overallGatewayStatus : string)
    (gatewayFailure : bool) (gatewayFailureReason gatewayFailureMessage : option string).

(** HTTP status of a response. *)
Definition statusOf (r : Response) : Z :=
  match r with
  | Failure status _ => status
  | ServerError => 500
  | AlreadyToday _ _ => 409
  | _ => 200
  end.

(** The [sent] and [recipients] fields of a 200 response. *)
Definition sentOf (r : Response) : option nat :=
  match r with
  | DuplicateScan _ _ | RecordedOnly _ _ _ => Some 0%nat
  | Notified _ _ _ _ sent _ _ _ _ _ _ => Some sent
  | _ => None
  end.

Definition recipientsOf (r : Response) : option (list string) :=
  match r with
  | DuplicateScan _ _ | RecordedOnly _ _ _ => Some []
  | Notified _ _ recipients _ _ _ _ _ _ _ _ => Some recipients
  | _ => None
  end.

(** *** Helpers of the controller *)

(** [withinMinutes(d1, d2, mins)] *)
Definition withinMinutes (d1 d2 mins : Z) : bool :=
  Z.abs (d1 - d2) <=? mins * 60 * 1000.

Record OrgSettings := {
  centerName : string;
  timezone : string;
  smsPolicy : SmsPolicy;
}.

(** [getOrgSettings(client)] *)
Definition getOrgSettings (env : ScanEnv) (db : Db) : OrgSettings :=
  let profile :=
    SmsRenderer.nullish (setting_center_profile db)
      {| profile_centreName :=
           Some (SmsRenderer.orElse (SmsRenderer.env_CENTER_NAME (renderEnv env)) "Kumon");
         profile_timezone := Some "Australia/Hobart" |} in
  let policy :=
    SmsRenderer.nullish (setting_sms_policy db)
      {| sendOnCheckIn := true; sendOnCheckOut := true |} in
  {| centerName := SmsRenderer.nullish (profile_centreName profile) "Kumon";
     timezone := SmsRenderer.nullish (profile_timezone profile) "Australia/Hobart";
     smsPolicy := policy |}.

(** [ORDER BY scanned_at DESC LIMIT 1] *)
Fixpoint latestScan (rows : list ScanEventRow) : option ScanEventRow :=
  match rows with
  | [] => None
  | r :: rest =>
      match latestScan rest with
      | Some m => if se_scanned_at r <? se_scanned_at m then Some m else Some r
      | None => Some r
      end
  end.

Definition ofStudentAndType (studentId : Z) (TYPE : string) (e : ScanEventRow) : bool :=
  (se_student_id e =? studentId) && String.eqb (se_type e) TYPE.

(** The rows of the same-day query. *)
Definition scansToday (env : ScanEnv) (db : Db) (studentId : Z) (TYPE tz : string)
  : list ScanEventRow :=
  List.filter
    (fun e => ofStudentAndType studentId TYPE e
              && (localDate env tz (se_scanned_at e) =? localDate env tz (guardNow env)))
    (scan_event db).

(** [getTodayOfType(client, studentId, type, tz)]; the query fails for a zone
    that PostgreSQL does not know. *)
Definition getTodayOfType (env : ScanEnv) (db : Db) (studentId : Z) (TYPE tz : string)
  : Completion (option ScanEventRow) :=
  if zoneInDb env tz then Normal (latestScan (scansToday env db studentId TYPE tz))
  else Throw.

(** The query of step 3: the last scan of the student of that type. *)
Definition lastScanOfType (db : Db) (studentId : Z) (TYPE : string) : option ScanEventRow :=
  latestScan (List.filter (ofStudentAndType studentId TYPE) (scan_event db)).

(** A row of the join of [qr_code] with [student]. *)
Record QrMatch := {
  m_qr_id : Z;
  m_student_id : Z;
  m_first_name : option string;
  m_last_name : option string;
  m_status : string;
}.

(** The rows of [qr_code q JOIN student s ON s.id = q.student_id
    WHERE q.token = $1 AND q.active = TRUE]. *)
Definition qrRows (db : Db) (token : string) : list QrMatch :=
    flat_map
      (fun q =>
         if String.eqb (QrToken.qr_token q) token && QrToken.qr_active q then
           map (fun s => {| m_qr_id := QrToken.qr_id q;
                            m_student_id := QrToken.qr_student_id q;
                            m_first_name := st_first_name s;
                            m_last_name := st_last_name s;
                            m_status := st_status s |})
             (List.filter (fun s => st_id s =? QrToken.qr_student_id q) (student db))
         else [])
      (qr_code db).

(** Step 1: the query with [LIMIT 1].  PostgreSQL refuses a parameter that
    holds code unit 0: the query fails for such a token. *)
Definition resolveQr (db : Db) (token : string) : Completion (option QrMatch) :=
  if hasNul token then Throw
  else
    Normal (match qrRows db token with
            | m :: _ => Some m
            | [] => None
            end).

(** Step 5: [guardian g JOIN student_guardian sg ON sg.guardian_id = g.id
    WHERE sg.student_id = $1 AND g.active = TRUE AND g.phone_valid = TRUE]. *)
Definition guardiansOf (db : Db) (studentId : Z) : list GuardianRow :=
  flat_map
    (fun g =>
       if g_active g && g_phone_valid g then
         map (fun _ => g) (Links.rowsOf studentId (g_id g) (student_guardian db))
       else [])
    (guardian db).

(** [sendSmsMany(items)] with the calls made to the gateway. *)
Definition sendSmsMany (env : ScanEnv) (items : list SmsItem)
  : option (list GatewayMessage) * list (list SmsItem) :=
  match items with
  | [] => (Some [], [])
  | _ => (clickSend env items, [items])
  end.

Definition isScanType (TYPE : string) : bool :=
  String.eqb TYPE "CHECK_IN" || String.eqb TYPE "CHECK_OUT".

(** [[...new Set(l)]] *)
Fixpoint distinct (l : list string) : list string :=
  match l with
  | [] => []
  | x :: r => x :: List.filter (fun y => negb (String.eqb x y)) (distinct r)
  end.

(** [l.join(', ')] *)
Fixpoint joinComma (l : list string) : string :=
  match l with
  | [] => ""
  | [x] => x
  | x :: r => x +:+ ", " +:+ joinComma r
  end.

Definition withScanEvent (db : Db) (rows : list ScanEventRow) : Db :=
  {| qr_code := qr_code db; student := student db; scan_event := rows;
     guardian := guardian db; student_guardian := student_guardian db;
     message_template := message_template db; message_log := message_log db;
     message_recipient := message_recipient db;
     setting_center_profile := setting_center_profile db;
     setting_sms_policy := setting_sms_policy db |}.

Definition withMessages (db : Db) (logs : list MessageLogRow)
    (recipients : list MessageRecipientRow) : Db :=
  {| qr_code := qr_code db; student := student db; scan_event := scan_event db;
     guardian := guardian db; student_guardian := student_guardian db;
     message_template := message_template db; message_log := logs;
     message_recipient := recipients;
     setting_center_profile := setting_center_profile db;
     setting_sms_policy := setting_sms_policy db |}.

(** [typeof messageOverride === 'string' && messageOverride.trim().length > 0],
    with the trimmed text when it holds. *)
Definition overrideOf (req : ScanRequest) : option string :=
  match messageOverride req with
  | JStr s => if truthy (trim s) then Some (trim s) else None
  | _ => None
  end.

(** [SELECT text FROM message_template WHERE key = $1], then
    [tRows[0]?.text || '...']. *)
Definition templateText (db : Db) (TYPE : string) : string :=
  SmsRenderer.orElse
    (match List.filter (fun kv => String.eqb (fst kv) TYPE) (message_template db) with
     | kv :: _ => Some (snd kv)
     | [] => None
     end)
    "{student.fullName} has an update at {time} on {date}.".

(** Step 6: the body of the message. *)
Definition composeBody (env : ScanEnv) (req : ScanRequest) (db : Db) (qr : QrMatch)
    (TYPE : string) (settings : OrgSettings) (now : Z) : Completion string :=
  match overrideOf req with
  | Some body => Normal body
  | None =>
      SmsRenderer.renderSmsTemplate (renderEnv env) (templateText db TYPE)
        {| SmsRenderer.arg_student :=
             {| SmsRenderer.student_id := Some (m_student_id qr);
                SmsRenderer.student_first_name := m_first_name qr;
                SmsRenderer.student_firstName := None;
                SmsRenderer.student_last_name := m_last_name qr;
                SmsRenderer.student_lastName := None |};
           SmsRenderer.arg_type := Some TYPE;
           SmsRenderer.arg_now := Some now;
           SmsRenderer.arg_centerName := Some (centerName settings);
           SmsRenderer.arg_centreName := None;
           SmsRenderer.arg_tz := None;
           SmsRenderer.arg_timezone := Some (timezone settings) |}
  end.

(** Step 9, one round of [for (const g of gRows)]: what is stored and
    reported for a guardian, given the gateway's messages. *)
Definition recipientDetail (messages : list GatewayMessage) (g : GuardianRow)
  : RecipientDetail :=
  let found := List.find (fun m => String.eqb (gm_to m) (g_phone_e164 g)) messages in
  let gatewayId :=
    match found with
    | Some m =>
        match gm_message_id m with
        | Some i => if truthy i then Some i else None
        | None => None
        end
    | None => None
    end in
  let gatewayStatus :=
    SmsRenderer.orElse
      (match found with Some m => gm_status m | None => None end)
      (match messages with [] => "FAILED" | _ => "UNKNOWN" end) in
  let statusNorm := if String.eqb gatewayStatus "SUCCESS" then "SENT" else "FAILED" in
  {| rd_phone := g_phone_e164 g; rd_status := statusNorm;
     rd_gateway_status := gatewayStatus; rd_gateway_message_id := gatewayId |}.

Definition recipientRow (messageLogId : Z) (messages : list GatewayMessage)
    (g : GuardianRow) : MessageRecipientRow :=
  let d := recipientDetail messages g in
  {| mr_message_log_id := messageLogId; mr_guardian_id := g_id g;
     mr_phone_e164 := g_phone_e164 g; mr_status := rd_status d;
     mr_gateway_message_id := rd_gateway_message_id d;
     mr_gateway_status := rd_gateway_status d |}.

Definition nonSuccess (d : RecipientDetail) : bool :=
  negb (String.eqb (rd_gateway_status d) "SUCCESS").

(** Steps 7 to 9 of [handleScan], once the body is composed. *)
Definition sendAndLog (env : ScanEnv) (req : ScanRequest) (db : Db) (qr : QrMatch)
    (TYPE : string) (scan : ScanEventRow) (smsAllowed suppressByHeadcount : bool)
    (gRows : list GuardianRow) (body : string)
  : Response * Db * list (list SmsItem) :=
    let templateKey := match overrideOf req with Some _ => None | None => Some TYPE end in
    let messageLogId := messageLogId env in
    let logs :=
      message_log db
      ++ [ {| ml_id := messageLogId; ml_student_id := m_student_id qr;
              ml_trigger_type := "SCAN"; ml_scan_event_id := se_id scan;
              ml_template_key := templateKey; ml_body_rendered := body;
              ml_created_by := scannedBy req |} ] in
    let '(results, calls) :=
      sendSmsMany env
        (map (fun g => {| item_to := g_phone_e164 g; item_body := body |}) gRows) in
    let messages := match results with Some ms => ms | None => [] end in
    let recipientsDetailed := map (recipientDetail messages) gRows in
    let recipients :=
      message_recipient db ++ map (recipientRow messageLogId messages) gRows in
    let anyNonSuccess := existsb nonSuccess recipientsDetailed in
    let insufficientCredit :=
      existsb (fun d => String.eqb (rd_gateway_status d) "INSUFFICIENT_CREDIT")
        recipientsDetailed in
    let failingStatuses :=
      distinct (map rd_gateway_status (List.filter nonSuccess recipientsDetailed)) in
    let reason :=
      if anyNonSuccess then
        Some (if insufficientCredit then "INSUFFICIENT_CREDIT"
              else SmsRenderer.orElse (head failingStatuses) "UNKNOWN")
      else None in
    let hint :=
      if anyNonSuccess then
        Some (if insufficientCredit
              then "SMS gateway reports insufficient credit. No messages were delivered. Please top up your ClickSend balance and retry."
              else "SMS gateway returned non-success statuses ("
                   +:+ joinComma failingStatuses
                   +:+ "). Check your SMS gateway account and retry.")
      else None in
    (Notified scan messageLogId (map g_phone_e164 gRows) recipientsDetailed
       (length messages) smsAllowed suppressByHeadcount
       (if anyNonSuccess then "FAILURE" else "SUCCESS") anyNonSuccess reason hint,
     withMessages db logs recipients, calls).

(** Steps 5 to 9 of [handleScan], for a scan that is no duplicate.  When the
    renderer throws, or when the body holds code unit 0 and the insertion of
    the message log fails, the request ends with the scan event recorded and
    nothing else. *)
Definition notifyGuardians (env : ScanEnv) (req : ScanRequest) (db : Db) (qr : QrMatch)
    (TYPE : string) (settings : OrgSettings) (now : Z) (scan : ScanEventRow)
    (smsAllowed suppressByHeadcount : bool)
  : Response * Db * list (list SmsItem) :=
  let gRows := guardiansOf db (m_student_id qr) in
  if negb smsAllowed || (length gRows =? 0)%nat then
    (RecordedOnly scan smsAllowed suppressByHeadcount, db, [])
  else
    match composeBody env req db qr TYPE settings now with
    | Throw => (ServerError, db, [])
    | Normal body =>
        if hasNul body then (ServerError, db, [])
        else sendAndLog env req db qr TYPE scan smsAllowed suppressByHeadcount gRows body
    end.

(** [const TYPE = String(type).toUpperCase()] *)
Definition typeOf (req : ScanRequest) : string := toUpperCase (toStringV (type req)).

(** [const wantRecheck = recheck === true] *)
Definition wantRecheck (req : ScanRequest) : bool := isTrue (recheck req).

(** [const suppressByHeadcount = headcountOnly === true] *)
Definition suppressByHeadcount (req : ScanRequest) : bool := isTrue (headcountOnly req).

Definition smsAllowedPolicy (settings : OrgSettings) (TYPE : string) : bool :=
  if String.eqb TYPE "CHECK_IN" then sendOnCheckIn (smsPolicy settings)
  else sendOnCheckOut (smsPolicy settings).

(** [const smsAllowed = smsAllowedPolicy && !suppressByHeadcount] *)
Definition smsAllowed (env : ScanEnv) (db : Db) (req : ScanRequest) : bool :=
  smsAllowedPolicy (getOrgSettings env db) (typeOf req) && negb (suppressByHeadcount req).

(** Step 2, the same-day guard: the scan that blocks the request, if any;
    the guard throws when its query fails. *)
Definition sameDayGuard (env : ScanEnv) (db : Db) (req : ScanRequest) (qr : QrMatch)
  : Completion (option ScanEventRow) :=
  if wantRecheck req then Normal None
  else getTodayOfType env db (m_student_id qr) (typeOf req)
         (timezone (getOrgSettings env db)).

(** Step 3, the duplicate check: the value of [isDuplicate]. *)
Definition isDuplicate (env : ScanEnv) (db : Db) (req : ScanRequest) (qr : QrMatch)
  : bool :=
  if wantRecheck req then false
  else
    match lastScanOfType db (m_student_id qr) (typeOf req) with
    | Some last => withinMinutes (scanNow env) (se_scanned_at last) 2
    | None => false
    end.

(** Step 4: the row inserted into [scan_event]. *)
Definition newScanEvent (env : ScanEnv) (db : Db) (req : ScanRequest) (qr : QrMatch)
  : ScanEventRow :=
  {| se_id := scanEventId env;
     se_student_id := m_student_id qr;
     se_qr_code_id := m_qr_id qr;
     se_type := typeOf req;
     se_scanned_by := scannedBy req;
     se_scanned_at := insertNow env;
     se_was_duplicate := isDuplicate env db req qr;
     se_meta := {| meta_recheck := wantRecheck req;
                   meta_headcountOnly := suppressByHeadcount req |} |}.

(** [handleScan(req, res, next)]: the response, the database afterwards and
    the calls made to the SMS gateway. *)
Definition handleScan (env : ScanEnv) (req : ScanRequest) (db : Db)
  : Response * Db * list (list SmsItem) :=
  if negb (truthyV (qrCode req)) || negb (truthyV (type req)) then
    (Failure 400 "qrCode and type are required", db, [])
  else if negb (isScanType (typeOf req)) then
    (Failure 400 "type must be CHECK_IN or CHECK_OUT", db, [])
  else
    (* 1) Resolve QR -> student *)
    match resolveQr db (toStringV (qrCode req)) with
    | Throw => (ServerError, db, [])
    | Normal None => (Failure 404 "QR code not found or inactive", db, [])
    | Normal (Some qr) =>
        if negb (String.eqb (m_status qr) "ACTIVE") then
          (Failure 400 "Student is inactive", db, [])
        else
          (* 2) Same-day guard unless explicitly rechecking *)
          match sameDayGuard env db req qr with
          | Throw => (ServerError, db, [])
          | Normal (Some lastToday) =>
              (AlreadyToday
                 (if String.eqb (typeOf req) "CHECK_IN" then "already_checked_in_today"
                  else "already_checked_out_today")
                 (formatInZone env (timezone (getOrgSettings env db))
                    (se_scanned_at lastToday)),
               db, [])
          | Normal None =>
              (* 3) Duplicate check, 4) Insert scan_event *)
              let scan := newScanEvent env db req qr in
              let db1 := withScanEvent db (scan_event db ++ [scan]) in
              if isDuplicate env db req qr then
                (DuplicateScan scan (suppressByHeadcount req), db1, [])
              else
                (* 5) to 9) *)
                notifyGuardians env req db1 qr (typeOf req) (getOrgSettings env db)
                  (scanNow env) scan (smsAllowed env db req) (suppressByHeadcount req)
          end
    end.

(** The check of the type comes out as in JavaScript: the upper case of
    [String(type)] is one of the two names, code unit by code unit. *)
Lemma isScanType_exact req :
  isScanType (typeOf req) = true
  <-> upperCaseUnits (toStringV (type req)) = codeUnits "CHECK_IN"
      \/ upperCaseUnits (toStringV (type req)) = codeUnits "CHECK_OUT".
Proof.
  unfold isScanType, typeOf.
  rewrite orb_true_iff, !String.eqb_eq, !JsFacts.toUpperCase_ascii by reflexivity.
  reflexivity.
Qed.

(** *** A sample centre *)

Definition day : Z := 86400000.

(** The zones of the sample centre: Hobart and UTC. *)
Definition sampleZone (tz : string) : bool :=
  String.eqb tz "Australia/Hobart" || String.eqb tz "UTC".

(** A zone at offset zero, a formatter that prints the instant, and a
    gateway that accepts everything. *)
Definition sampleEnv : ScanEnv := {|
  renderEnv := SmsRenderer.sampleEnv;
  zoneInDb := sampleZone;
  localDate := fun _ t => t / day;
  formatInZone := fun _ t => SmsRenderer.stringOfZ t;
  guardNow := 20000 * day + 36000000;
  scanNow := 20000 * day + 36000100;
  insertNow := 20000 * day + 36000200;
  scanEventId := 101;
  messageLogId := 201;
  clickSend := fun items =>
    Some (map (fun i => {| gm_to := item_to i; gm_message_id := Some "M-1";
                           gm_status := Some "SUCCESS" |}) items);
|}.

Definition adaToken : string := "3f2b8c1e-9a4d-4c7e-8f21-6b0d5e9a7c13".
Definition bobToken : string := "0a1b2c3d-0000-4000-8000-00000000000f".

Definition sampleDb : Db := {|
  qr_code :=
    [ {| QrToken.qr_id := 11; QrToken.qr_student_id := 1; QrToken.qr_token := adaToken;
         QrToken.qr_active := true; QrToken.qr_created_by := None |};
      {| QrToken.qr_id := 12; QrToken.qr_student_id := 2; QrToken.qr_token := bobToken;
         QrToken.qr_active := true; QrToken.qr_created_by := None |} ];
  student :=
    [ {| st_id := 1; st_first_name := Some "Ada"; st_last_name := Some "Lovelace";
         st_status := "ACTIVE" |};
      {| st_id := 2; st_first_name := Some "Bob"; st_last_name := Some "Stone";
         st_status := "INACTIVE" |} ];
  scan_event := [];
  guardian :=
    [ {| g_id := 5; g_phone_e164 := "+61400000005"; g_active := true;
         g_phone_valid := true |};
      {| g_id := 6; g_phone_e164 := "+61400000006"; g_active := true;
         g_phone_valid := false |};
      {| g_id := 7; g_phone_e164 := "+61400000007"; g_active := false;
         g_phone_valid := true |};
      {| g_id := 8; g_phone_e164 := "+61400000008"; g_active := true;
         g_phone_valid := true |} ];
  student_guardian :=
    [ {| Links.sg_student_id := 1; Links.sg_guardian_id := 5; Links.sg_is_primary := true |};
      {| Links.sg_student_id := 1; Links.sg_guardian_id := 6; Links.sg_is_primary := false |};
      {| Links.sg_student_id := 1; Links.sg_guardian_id := 7; Links.sg_is_primary := false |};
      {| Links.sg_student_id := 2; Links.sg_guardian_id := 8; Links.sg_is_primary := true |} ];
  message_template := [];
  message_log := [];
  message_recipient := [];
  setting_center_profile := None;
  setting_sms_policy := None;
|}.

(** A scan of [studentId] recorded at [at_]. *)
Definition earlierScan (studentId : Z) (TYPE : string) (at_ : Z) : ScanEventRow :=
  {| se_id := 1; se_student_id := studentId; se_qr_code_id := 11; se_type := TYPE;
     se_scanned_by := None; se_scanned_at := at_; se_was_duplicate := false;
     se_meta := {| meta_recheck := false; meta_headcountOnly := false |} |}.

Definition scanOf (token TYPE : string) : ScanRequest :=
  {| qrCode := JStr token; type := JStr TYPE; messageOverride := JUndefined;
     recheck := JUndefined; headcountOnly := JUndefined; user_id := Some 3 |}.

(** *** Notions used in the statements *)

(** The input checks of [handleScan]: both fields present and a known type. *)
Definition wellFormed (req : ScanRequest) : Prop :=
  truthyV (qrCode req) = true /\ truthyV (type req) = true
  /\ isScanType (typeOf req) = true.

(** What [handleScan] does once the input checks have passed and the token
    has resolved to an active student. *)
Definition afterResolve (env : ScanEnv) (req : ScanRequest) (db : Db) (qr : QrMatch)
  : Response * Db * list (list SmsItem) :=
  match sameDayGuard env db req qr with
  | Throw => (ServerError, db, [])
  | Normal (Some lastToday) =>
      (AlreadyToday
         (if String.eqb (typeOf req) "CHECK_IN" then "already_checked_in_today"
          else "already_checked_out_today")
         (formatInZone env (timezone (getOrgSettings env db)) (se_scanned_at lastToday)),
       db, [])
  | Normal None =>
      let scan := newScanEvent env db req qr in
      let db1 := withScanEvent db (scan_event db ++ [scan]) in
      if isDuplicate env db req qr then
        (DuplicateScan scan (suppressByHeadcount req), db1, [])
      else
        notifyGuardians env req db1 qr (typeOf req) (getOrgSettings env db)
          (scanNow env) scan (smsAllowed env db req) (suppressByHeadcount req)
  end.

(** A scan of the same student and type on today's date of the zone. *)
Definition sameKindToday (env : ScanEnv) (db : Db) (req : ScanRequest) (qr : QrMatch)
    (e : ScanEventRow) : Prop :=
  In e (scan_event db)
  /\ se_student_id e = m_student_id qr
  /\ se_type e = typeOf req
  /\ localDate env (timezone (getOrgSettings env db)) (se_scanned_at e)
     = localDate env (timezone (getOrgSettings env db)) (guardNow env).

(** [last] is the student's most recent scan of the request's type. *)
Definition mostRecentOfType (db : Db) (req : ScanRequest) (qr : QrMatch)
    (last : ScanEventRow) : Prop :=
  In last (scan_event db)
  /\ se_student_id last = m_student_id qr
  /\ se_type last = typeOf req
  /\ forall e, In e (scan_event db) -> se_student_id e = m_student_id qr ->
               se_type e = typeOf req -> se_scanned_at e <= se_scanned_at last.

(** A clock just after midnight: the earlier scan is a minute old and lies on
    the day before. *)
Definition midnightEnv : ScanEnv := {|
  renderEnv := SmsRenderer.sampleEnv;
  zoneInDb := sampleZone;
  localDate := fun _ t => t / day;
  formatInZone := fun _ t => SmsRenderer.stringOfZ t;
  guardNow := 20001 * day + 30000;
  scanNow := 20001 * day + 30100;
  insertNow := 20001 * day + 30200;
  scanEventId := 102;
  messageLogId := 202;
  clickSend := fun _ => None;
|}.

(** The guardians are to be notified and the message cannot be composed (the
    renderer throws) or logged (its body holds code unit 0). *)
Definition messageFails (env : ScanEnv) (req : ScanRequest) (db : Db) (qr : QrMatch)
  : bool :=
  smsAllowed env db req
  && negb (length (guardiansOf db (m_student_id qr)) =? 0)%nat
  && match composeBody env req db qr (typeOf req) (getOrgSettings env db)
             (scanNow env) with
     | Throw => true
     | Normal body => hasNul body
     end.

(** The sample centre with a time zone that neither PostgreSQL nor [Intl]
    knows in its settings. *)
Definition marsDb : Db := {|
  qr_code := qr_code sampleDb; student := student sampleDb;
  scan_event := []; guardian := guardian sampleDb;
  student_guardian := student_guardian sampleDb;
  message_template := []; message_log := []; message_recipient := [];
  setting_center_profile :=
    Some {| profile_centreName := None; profile_timezone := Some "Mars/Olympus" |};
  setting_sms_policy := None;
|}.

(** A request that acknowledges the recheck. *)
Definition recheckOf (token TYPE : string) : ScanRequest :=
  {| qrCode := JStr token; type := JStr TYPE; messageOverride := JUndefined;
     recheck := JBool true; headcountOnly := JUndefined; user_id := Some 3 |}.

(** A token that holds code unit 0. *)
Definition nulToken : string := String Ascii.zero "token".

(** The sample centre with a second guardian of Ada on the phone of the
    first. *)
Definition sharedPhoneDb : Db := {|
  qr_code := qr_code sampleDb; student := student sampleDb; scan_event := [];
  guardian :=
    [ {| g_id := 5; g_phone_e164 := "+61400000005"; g_active := true;
         g_phone_valid := true |};
      {| g_id := 9; g_phone_e164 := "+61400000005"; g_active := true;
         g_phone_valid := true |} ];
  student_guardian :=
    [ {| Links.sg_student_id := 1; Links.sg_guardian_id := 5; Links.sg_is_primary := true |};
      {| Links.sg_student_id := 1; Links.sg_guardian_id := 9; Links.sg_is_primary := false |} ];
  message_template := []; message_log := []; message_recipient := [];
  setting_center_profile := None; setting_sms_policy := None;
|}.

(** A gateway that accepts the first message of a call and refuses the
    others. *)
Definition firstOnlyEnv : ScanEnv := {|
  renderEnv := SmsRenderer.sampleEnv;
  zoneInDb := sampleZone;
  localDate := fun _ t => t / day;
  formatInZone := fun _ t => SmsRenderer.stringOfZ t;
  guardNow := 20000 * day + 36000000;
  scanNow := 20000 * day + 36000100;
  insertNow := 20000 * day + 36000200;
  scanEventId := 101;
  messageLogId := 201;
  clickSend := fun items =>
    Some (match items with
          | [] => []
          | i :: rest =>
              {| gm_to := item_to i; gm_message_id := Some "M-1";
                 gm_status := Some "SUCCESS" |}
              :: map (fun j => {| gm_to := item_to j; gm_message_id := None;
                                  gm_status := Some "FAILED" |}) rest
          end);
|}.

(** The student's guardians that may be notified. *)
Definition notifiable (db : Db) (studentId : Z) (g : GuardianRow) : Prop :=
  In g (guardian db) /\ g_active g = true /\ g_phone_valid g = true
  /\ exists sg, In sg (student_guardian db)
                /\ Links.sg_student_id sg = studentId
                /\ Links.sg_guardian_id sg = g_id g.

(** The messages the gateway answered with; none when the call failed. *)
Definition gatewayAnswer (env : ScanEnv) (items : list SmsItem) : list GatewayMessage :=
  match clickSend env items with Some ms => ms | None => [] end.

Example scan_notifies :
  let '(res, db', calls) := handleScan sampleEnv (scanOf adaToken "check_in") sampleDb in
  statusOf res = 200 /\ sentOf res = Some 1%nat
  /\ recipientsOf res = Some ["+61400000005"]
  /\ map mr_status (message_recipient db') = ["SENT"]
  /\ map ml_body_rendered (message_log db')
     = ["Ada Lovelace has an update at 7:04 pm AEST on Fri, 15 Aug 2025."]
  /\ length calls = 1%nat.
Proof. vm_compute. repeat split. Qed.

(** *** Facts about the steps *)

Lemma handleScan_resolved env req db qr :
  wellFormed req ->
  resolveQr db (toStringV (qrCode req)) = Normal (Some qr) ->
  m_status qr = "ACTIVE" ->
  handleScan env req db = afterResolve env req db qr.
Proof.
  intros (Hq & Ht & Hty) Hres Hact. unfold handleScan, afterResolve.
  rewrite Hq, Ht, Hty, Hres, Hact. reflexivity.
Qed.

Lemma latestScan_none rows : latestScan rows = None <-> rows = [].
Proof.
  destruct rows as [|r rest]; [split; reflexivity|].
  split; [|discriminate]. cbn [latestScan].
  destruct (latestScan rest) as [m|]; [|discriminate].
  destruct (se_scanned_at r <? se_scanned_at m); discriminate.
Qed.

(** [latestScan] picks a row of the list that no row of the list is later
    than. *)
Lemma latestScan_some rows m :
  latestScan rows = Some m ->
  In m rows /\ forall e, In e rows -> se_scanned_at e <= se_scanned_at m.
Proof.
  revert m. induction rows as [|r rest IH]; intros m; [discriminate|].
  cbn [latestScan]. destruct (latestScan rest) as [m'|] eqn:Hrest.
  - destruct (IH m' eq_refl) as [Hin Hmax].
    destruct (se_scanned_at r <? se_scanned_at m') eqn:Hlt; intros [= <-].
    + apply Z.ltb_lt in Hlt. split; [right; exact Hin|].
      intros e [<- | He]; [lia | apply Hmax, He].
    + apply Z.ltb_ge in Hlt. split; [left; reflexivity|].
      intros e [<- | He]; [lia | specialize (Hmax e He); lia].
  - intros [= <-]. apply latestScan_none in Hrest. subst rest.
    split; [left; reflexivity|]. intros e [<- | []]. lia.
Qed.

Lemma latestScan_exists rows e :
  In e rows -> exists m, latestScan rows = Some m.
Proof.
  intros He. destruct (latestScan rows) as [m|] eqn:Hl; [eauto|].
  apply latestScan_none in Hl. subst rows. destruct He.
Qed.

(** Steps 5 to 9 answer 200, or fail before anything is written, and leave
    every table but the two message tables as it was. *)
Lemma notifyGuardians_frame env req db qr TYPE settings now scan allowed headcount :
  let '(res, db', calls) :=
    notifyGuardians env req db qr TYPE settings now scan allowed headcount in
  (statusOf res = 200 \/ (res = ServerError /\ db' = db /\ calls = []))
  /\ scan_event db' = scan_event db /\ qr_code db' = qr_code db
  /\ student db' = student db /\ guardian db' = guardian db
  /\ student_guardian db' = student_guardian db.
Proof.
  unfold notifyGuardians.
  destruct (negb allowed || (length (guardiansOf db (m_student_id qr)) =? 0)%nat);
    [split; [left; reflexivity|repeat split]|].
  destruct (composeBody env req db qr TYPE settings now) as [body|];
    [|split; [right; repeat split|repeat split]].
  destruct (hasNul body); [split; [right; repeat split|repeat split]|].
  unfold sendAndLog. destruct (sendSmsMany env _) as [results calls].
  split; [left; reflexivity|repeat split].
Qed.

(** With SMS not allowed, steps 5 to 9 do nothing. *)
Lemma notifyGuardians_suppressed env req db qr TYPE settings now scan headcount :
  notifyGuardians env req db qr TYPE settings now scan false headcount
  = (RecordedOnly scan false headcount, db, []).
Proof. reflexivity. Qed.

(** The status of steps 5 to 9 after the insertion of the scan event. *)
Lemma notifyGuardians_status env req db qr rows scan :
  statusOf (fst (fst (notifyGuardians env req (withScanEvent db rows) qr (typeOf req)
                        (getOrgSettings env db) (scanNow env) scan
                        (smsAllowed env db req) (suppressByHeadcount req))))
  = if messageFails env req db qr then 500 else 200.
Proof.
  unfold notifyGuardians, messageFails.
  change (guardiansOf (withScanEvent db rows) (m_student_id qr))
    with (guardiansOf db (m_student_id qr)).
  change (composeBody env req (withScanEvent db rows) qr (typeOf req)
            (getOrgSettings env db) (scanNow env))
    with (composeBody env req db qr (typeOf req) (getOrgSettings env db) (scanNow env)).
  destruct (smsAllowed env db req); cbn [negb orb andb]; [|reflexivity].
  destruct (length (guardiansOf db (m_student_id qr)) =? 0)%nat; cbn [negb];
    [reflexivity|].
  destruct (composeBody env req db qr (typeOf req) (getOrgSettings env db) (scanNow env))
    as [body|]; [|reflexivity].
  destruct (hasNul body); [reflexivity|].
  unfold sendAndLog. destruct (sendSmsMany env _) as [results calls]. reflexivity.
Qed.

(** *** C3: the QR resolver *)

(** The claim as worded fails for a request that the input checks reject:
    no row matches its token, and the answer is 400, not 404.  It also fails
    for a token with code unit 0: the request passes the input checks, no
    row matches, and the query itself fails, so the answer is 500. *)
Lemma handleScan_unknown_token_bad_type :
  resolveQr sampleDb (toStringV (qrCode (scanOf "no-such-token" "LUNCH"))) = Normal None
  /\ handleScan sampleEnv (scanOf "no-such-token" "LUNCH") sampleDb
     = (Failure 400 "type must be CHECK_IN or CHECK_OUT", sampleDb, [])
  /\ statusOf (fst (fst (handleScan sampleEnv (scanOf "no-such-token" "LUNCH") sampleDb)))
     <> 404
  /\ wellFormed (scanOf nulToken "CHECK_IN")
  /\ qrRows sampleDb nulToken = []
  /\ handleScan sampleEnv (scanOf nulToken "CHECK_IN") sampleDb
     = (ServerError, sampleDb, []).
Proof. vm_compute. repeat split. discriminate. Qed.

Lemma qrRows_in db token qr :
  In qr (qrRows db token) ->
  exists q s,
    In q (qr_code db) /\ In s (student db)
    /\ QrToken.qr_token q = token /\ QrToken.qr_active q = true
    /\ st_id s = QrToken.qr_student_id q
    /\ m_qr_id qr = QrToken.qr_id q /\ m_student_id qr = st_id s
    /\ m_status qr = st_status s.
Proof.
  unfold qrRows. intros (q & Hq & Hm)%in_flat_map.
  destruct (String.eqb (QrToken.qr_token q) token && QrToken.qr_active q) eqn:Hc;
    [|destruct Hm].
  apply andb_prop in Hc as [Htok Hact]. apply String.eqb_eq in Htok.
  apply in_map_iff in Hm as (st & <- & Hst).
  apply filter_In in Hst as [Hst Hid]. apply Z.eqb_eq in Hid.
  exists q, st. cbn. auto 10.
Qed.

Lemma resolveQr_some db token qr :
  resolveQr db token = Normal (Some qr) ->
  hasNul token = false
  /\ exists q s,
       In q (qr_code db) /\ In s (student db)
       /\ QrToken.qr_token q = token /\ QrToken.qr_active q = true
       /\ st_id s = QrToken.qr_student_id q
       /\ m_qr_id qr = QrToken.qr_id q /\ m_student_id qr = st_id s
       /\ m_status qr = st_status s.
Proof.
  unfold resolveQr. destruct (hasNul token); [discriminate|].
  destruct (qrRows db token) as [|m rest] eqn:Hf; [discriminate|].
  intros [= <-]. split; [reflexivity|].
  apply (qrRows_in db token). rewrite Hf. left. reflexivity.
Qed.

Lemma resolveQr_inactive db token :
  hasNul token = false ->
  (forall q, In q (qr_code db) -> QrToken.qr_token q = token ->
             QrToken.qr_active q = false) ->
  resolveQr db token = Normal None.
Proof.
  intros Hnul H. unfold resolveQr. rewrite Hnul.
  destruct (qrRows db token) as [|m rest] eqn:Hf; [reflexivity|]. exfalso.
  destruct (qrRows_in db token m) as (q & s & Hq & _ & Htok & Hact & _);
    [rewrite Hf; left; reflexivity|].
  rewrite (H q Hq Htok) in Hact. discriminate Hact.
Qed.

(** C3 (amended).  For every scan request that passes the input checks
    (qrCode and type present, type CHECK_IN or CHECK_OUT up to case): a token
    that holds code unit 0 makes the query fail, and the answer is 500;
    otherwise the token resolves to a student only through a row of
    [qr_code] with that token and [active = TRUE]; when no such row with a
    student matches the answer is 404, when the matched student's status is
    not ACTIVE the answer is 400.  In all three cases the database is
    unchanged and no SMS is sent. *)
Theorem handleScan_qr_resolver (env : ScanEnv) (req : ScanRequest) (db : Db) :
  wellFormed req ->
  let token := toStringV (qrCode req) in
  (hasNul token = true ->
     resolveQr db token = Throw /\ handleScan env req db = (ServerError, db, []))
  /\ (hasNul token = false ->
      exists found, resolveQr db token = Normal found)
  /\ (resolveQr db token = Normal None ->
     handleScan env req db = (Failure 404 "QR code not found or inactive", db, []))
  /\ (forall qr, resolveQr db token = Normal (Some qr) -> m_status qr <> "ACTIVE" ->
        handleScan env req db = (Failure 400 "Student is inactive", db, []))
  /\ (forall qr, resolveQr db token = Normal (Some qr) ->
        exists q s,
          In q (qr_code db) /\ In s (student db)
          /\ QrToken.qr_token q = token /\ QrToken.qr_active q = true
          /\ st_id s = QrToken.qr_student_id q
          /\ m_qr_id qr = QrToken.qr_id q /\ m_student_id qr = st_id s
          /\ m_status qr = st_status s)
  /\ (hasNul token = false ->
      (forall q, In q (qr_code db) -> QrToken.qr_token q = token ->
                 QrToken.qr_active q = false) ->
      resolveQr db token = Normal None).
Proof.
  intros (Hq & Ht & Hty) token. split; [|split; [|split; [|split; [|split]]]].
  - intros Hnul. assert (Hres : resolveQr db token = Throw)
      by (unfold resolveQr; rewrite Hnul; reflexivity).
    split; [exact Hres|]. unfold handleScan. fold token.
    rewrite Hq, Ht, Hty, Hres. reflexivity.
  - intros Hnul. unfold resolveQr. rewrite Hnul. eauto.
  - intros Hres. unfold handleScan. fold token. rewrite Hq, Ht, Hty, Hres. reflexivity.
  - intros qr Hres Hst. unfold handleScan. fold token. rewrite Hq, Ht, Hty, Hres.
    apply String.eqb_neq in Hst. rewrite Hst. reflexivity.
  - intros qr Hres. apply resolveQr_some, Hres.
  - apply resolveQr_inactive.
Qed.

(** The theorem on an unknown token and on the token of an inactive student. *)
Lemma handleScan_qr_resolver_witness :
  handleScan sampleEnv (scanOf "no-such-token" "CHECK_IN") sampleDb
  = (Failure 404 "QR code not found or inactive", sampleDb, [])
  /\ handleScan sampleEnv (scanOf bobToken "check_out") sampleDb
     = (Failure 400 "Student is inactive", sampleDb, []).
Proof.
  split.
  - destruct (handleScan_qr_resolver sampleEnv (scanOf "no-such-token" "CHECK_IN") sampleDb)
      as (_ & _ & Hnone & _); [repeat split|].
    apply Hnone. reflexivity.
  - destruct (handleScan_qr_resolver sampleEnv (scanOf bobToken "check_out") sampleDb)
      as (_ & _ & _ & Hinactive & _); [repeat split|].
    eapply Hinactive; [reflexivity | discriminate].
Defined.

(** *** C2: the same-day guard *)

Lemma getTodayOfType_filter env db req qr e :
  In e (scansToday env db (m_student_id qr) (typeOf req) (timezone (getOrgSettings env db)))
  <-> sameKindToday env db req qr e.
Proof.
  unfold scansToday, sameKindToday, ofStudentAndType.
  rewrite filter_In, !andb_true_iff, !Z.eqb_eq, String.eqb_eq. tauto.
Qed.

(** The claim as worded fails when the token belongs to an inactive student:
    a check-in of today exists, and the answer is 400, not 409.  With a zone
    in the settings that neither the database nor [Intl] knows, a second
    check-in of the day is answered 500, not 409, and a recheck is recorded
    and answered 500, not 200. *)
Lemma handleScan_inactive_student_same_day :
  let db := withScanEvent sampleDb [earlierScan 2 "CHECK_IN" (20000 * day + 1000)] in
  let req := scanOf bobToken "CHECK_IN" in
  wantRecheck req = false
  /\ (exists qr e, resolveQr db (toStringV (qrCode req)) = Normal (Some qr)
                   /\ sameKindToday sampleEnv db req qr e)
  /\ handleScan sampleEnv req db = (Failure 400 "Student is inactive", db, [])
  /\ statusOf (fst (fst (handleScan sampleEnv req db))) <> 409
  /\ handleScan sampleEnv (scanOf adaToken "CHECK_IN")
       (withScanEvent marsDb [earlierScan 1 "CHECK_IN" (20000 * day + 1000)])
     = (ServerError,
        withScanEvent marsDb [earlierScan 1 "CHECK_IN" (20000 * day + 1000)], [])
  /\ statusOf (fst (fst (handleScan sampleEnv (recheckOf adaToken "CHECK_IN") marsDb)))
     = 500
  /\ length (scan_event
               (snd (fst (handleScan sampleEnv (recheckOf adaToken "CHECK_IN") marsDb))))
     = 1%nat.
Proof.
  cbv zeta. split; [reflexivity|].
  split; [|split; [reflexivity|split; [discriminate|repeat split]]].
  eexists. eexists. split; [reflexivity|].
  unfold sameKindToday. split; [left; reflexivity|]. repeat split.
Qed.

(** C2 (amended).  For every scan request that passes the input checks and
    whose token resolves to a student with status ACTIVE.  When recheck is
    not true the same-day query runs: for a configured zone that the database
    does not know it fails and the answer is 500; otherwise, when a scan of
    the same type exists for the student on today's date in the zone, the
    answer is 409 with the error of the type and the formatted time of the
    latest such scan.  Either way the database is unchanged and no SMS is
    sent.  When recheck is true the guard is skipped and one scan event,
    marked as a recheck and not as a duplicate, is appended; the answer is
    200, unless guardians are to be notified and the message cannot be
    composed or logged: then it is 500, with the scan event recorded. *)
Theorem handleScan_same_day_guard (env : ScanEnv) (req : ScanRequest) (db : Db)
    (qr : QrMatch) :
  wellFormed req ->
  resolveQr db (toStringV (qrCode req)) = Normal (Some qr) ->
  m_status qr = "ACTIVE" ->
  (wantRecheck req = false ->
   zoneInDb env (timezone (getOrgSettings env db)) = false ->
   handleScan env req db = (ServerError, db, []))
  /\ (wantRecheck req = false ->
      zoneInDb env (timezone (getOrgSettings env db)) = true ->
      forall e, sameKindToday env db req qr e ->
      exists last,
        sameKindToday env db req qr last
        /\ (forall e', sameKindToday env db req qr e' ->
                       se_scanned_at e' <= se_scanned_at last)
        /\ handleScan env req db
           = (AlreadyToday
                (if String.eqb (typeOf req) "CHECK_IN" then "already_checked_in_today"
                 else "already_checked_out_today")
                (formatInZone env (timezone (getOrgSettings env db))
                   (se_scanned_at last)),
              db, [])
        /\ statusOf (fst (fst (handleScan env req db))) = 409)
  /\ (wantRecheck req = true ->
      exists res db' calls,
        handleScan env req db = (res, db', calls)
        /\ statusOf res = (if messageFails env req db qr then 500 else 200)
        /\ scan_event db' = scan_event db ++ [newScanEvent env db req qr]
        /\ meta_recheck (se_meta (newScanEvent env db req qr)) = true
        /\ se_was_duplicate (newScanEvent env db req qr) = false).
Proof.
  intros Hwf Hres Hact. rewrite (handleScan_resolved env req db qr Hwf Hres Hact).
  unfold afterResolve. split; [|split].
  - intros Hre Hzone. unfold sameDayGuard, getTodayOfType. rewrite Hre, Hzone.
    reflexivity.
  - intros Hre Hzone e He. unfold sameDayGuard, getTodayOfType. rewrite Hre, Hzone.
    apply getTodayOfType_filter in He.
    destruct (latestScan_exists _ _ He) as [last Hlast].
    rewrite Hlast. apply latestScan_some in Hlast as [Hin Hmax].
    exists last. split; [apply getTodayOfType_filter, Hin|].
    split; [intros e' He'; apply Hmax, getTodayOfType_filter, He'|].
    split; reflexivity.
  - intros Hre. unfold sameDayGuard, isDuplicate. rewrite Hre. cbv zeta.
    pose proof (notifyGuardians_frame env req
                  (withScanEvent db (scan_event db ++ [newScanEvent env db req qr]))
                  qr (typeOf req) (getOrgSettings env db) (scanNow env)
                  (newScanEvent env db req qr) (smsAllowed env db req)
                  (suppressByHeadcount req)) as Hframe.
    pose proof (notifyGuardians_status env req db qr
                  (scan_event db ++ [newScanEvent env db req qr])
                  (newScanEvent env db req qr)) as Hstatus.
    destruct (notifyGuardians _ _ _ _ _ _ _ _ _ _) as [[res db'] calls].
    destruct Hframe as (_ & Hse & _). cbn [fst] in Hstatus.
    exists res, db', calls. split; [reflexivity|]. split; [exact Hstatus|].
    split; [exact Hse|]. unfold newScanEvent, isDuplicate. cbn. rewrite Hre. auto.
Qed.

(** The theorem on a second check-in of the day. *)
Lemma handleScan_same_day_guard_witness :
  let db := withScanEvent sampleDb [earlierScan 1 "CHECK_IN" (20000 * day + 1000)] in
  let req := scanOf adaToken "CHECK_IN" in
  exists last,
    In last (scan_event db)
    /\ handleScan sampleEnv req db
       = (AlreadyToday "already_checked_in_today"
            (formatInZone sampleEnv "Australia/Hobart" (se_scanned_at last)), db, []).
Proof.
  cbv zeta.
  destruct (handleScan_same_day_guard sampleEnv (scanOf adaToken "CHECK_IN")
              (withScanEvent sampleDb [earlierScan 1 "CHECK_IN" (20000 * day + 1000)])
              {| m_qr_id := 11; m_student_id := 1; m_first_name := Some "Ada";
                 m_last_name := Some "Lovelace"; m_status := "ACTIVE" |})
    as (_ & Hguard & _); [repeat split | reflexivity | reflexivity |].
  destruct (Hguard eq_refl eq_refl (earlierScan 1 "CHECK_IN" (20000 * day + 1000)))
    as (last & Hlast & _ & Hrun & _).
  - unfold sameKindToday. split; [left; reflexivity|]. repeat split.
  - exists last. split; [apply Hlast | exact Hrun].
Defined.

(** *** C1: the duplicate suppressor *)

Lemma ofStudentAndType_filter db req qr e :
  In e (List.filter (ofStudentAndType (m_student_id qr) (typeOf req)) (scan_event db))
  <-> In e (scan_event db) /\ se_student_id e = m_student_id qr
      /\ se_type e = typeOf req.
Proof.
  unfold ofStudentAndType.
  rewrite filter_In, andb_true_iff, Z.eqb_eq, String.eqb_eq. tauto.
Qed.

(** The query of step 3 returns a scan made at the time of the most recent
    one. *)
Lemma lastScanOfType_mostRecent db req qr last :
  mostRecentOfType db req qr last ->
  exists m, lastScanOfType db (m_student_id qr) (typeOf req) = Some m
            /\ se_scanned_at m = se_scanned_at last.
Proof.
  intros (Hin & Hs & Ht & Hmax). unfold lastScanOfType.
  assert (Hf : In last (List.filter (ofStudentAndType (m_student_id qr) (typeOf req))
                          (scan_event db))).
  { apply ofStudentAndType_filter. auto. }
  destruct (latestScan_exists _ _ Hf) as [m Hm]. exists m. split; [exact Hm|].
  apply latestScan_some in Hm as [Hmin Hmmax].
  apply ofStudentAndType_filter in Hmin as (Hmin & Hms & Hmt).
  specialize (Hmmax last Hf). specialize (Hmax m Hmin Hms Hmt). lia.
Qed.

(** With a zone that the database knows and no scan of the kind today, the
    guard lets the request pass. *)
Lemma sameDayGuard_passes env db req qr :
  zoneInDb env (timezone (getOrgSettings env db)) = true ->
  (forall e, ~ sameKindToday env db req qr e) ->
  sameDayGuard env db req qr = Normal None.
Proof.
  intros Hzone Hnone. unfold sameDayGuard, getTodayOfType.
  destruct (wantRecheck req); [reflexivity|]. rewrite Hzone. f_equal.
  apply latestScan_none.
  destruct (scansToday env db _ _ _) as [|e l] eqn:Hf; [reflexivity|].
  exfalso. apply (Hnone e). apply getTodayOfType_filter. rewrite Hf. left. reflexivity.
Qed.

(** The claim as worded fails for the usual repeat scan: the earlier scan lies
    one minute back, on the same day, and the same-day guard answers 409
    without recording anything.  With a zone in the settings that the
    database does not know, the same-day query fails: the repeat scan is
    answered 500, and nothing is recorded either. *)
Lemma handleScan_repeat_within_two_minutes :
  let earlier := earlierScan 1 "CHECK_IN" (scanNow sampleEnv - 60000) in
  let db := withScanEvent sampleDb [earlier] in
  let req := scanOf adaToken "CHECK_IN" in
  wantRecheck req = false
  /\ (exists qr, resolveQr db (toStringV (qrCode req)) = Normal (Some qr)
                 /\ m_status qr = "ACTIVE"
                 /\ mostRecentOfType db req qr earlier)
  /\ withinMinutes (scanNow sampleEnv) (se_scanned_at earlier) 2 = true
  /\ handleScan sampleEnv req db
     = (AlreadyToday "already_checked_in_today" "1728035940100", db, [])
  /\ ~ (exists scan,
          In scan (scan_event (snd (fst (handleScan sampleEnv req db))))
          /\ se_was_duplicate scan = true)
  /\ zoneInDb sampleEnv (timezone (getOrgSettings sampleEnv marsDb)) = false
  /\ handleScan sampleEnv req (withScanEvent marsDb [earlier])
     = (ServerError, withScanEvent marsDb [earlier], []).
Proof.
  cbv zeta. split; [reflexivity|].
  split; [|split; [|split; [|split; [|split]]]; try reflexivity].
  - eexists. split; [reflexivity|]. split; [reflexivity|].
    unfold mostRecentOfType. split; [left; reflexivity|]. split; [reflexivity|].
    split; [reflexivity|]. intros e [<- | []] _ _. lia.
  - intros (scan & [<- | []] & Hdup). discriminate Hdup.
Qed.

(** C1 (amended).  For every scan request that passes the input checks,
    resolves to an ACTIVE student, is no recheck and passes the same-day
    guard (the configured zone is one that the database knows, and no scan of
    the same type lies on today's date in it): when the student's most recent
    scan of that type is within two minutes of the current time, a scan event
    with [was_duplicate = true] is appended, the answer has [sent = 0] and no
    recipients, the message tables are unchanged and the SMS gateway is not
    called. *)
Theorem handleScan_duplicate (env : ScanEnv) (req : ScanRequest) (db : Db)
    (qr : QrMatch) (last : ScanEventRow) :
  wellFormed req ->
  resolveQr db (toStringV (qrCode req)) = Normal (Some qr) ->
  m_status qr = "ACTIVE" ->
  wantRecheck req = false ->
  zoneInDb env (timezone (getOrgSettings env db)) = true ->
  (forall e, ~ sameKindToday env db req qr e) ->
  mostRecentOfType db req qr last ->
  withinMinutes (scanNow env) (se_scanned_at last) 2 = true ->
  exists scan db',
    handleScan env req db = (DuplicateScan scan (suppressByHeadcount req), db', [])
    /\ scan_event db' = scan_event db ++ [scan]
    /\ se_was_duplicate scan = true
    /\ se_student_id scan = m_student_id qr /\ se_type scan = typeOf req
    /\ sentOf (DuplicateScan scan (suppressByHeadcount req)) = Some 0%nat
    /\ recipientsOf (DuplicateScan scan (suppressByHeadcount req)) = Some []
    /\ message_log db' = message_log db
    /\ message_recipient db' = message_recipient db.
Proof.
  intros Hwf Hres Hact Hre Hzone Hnone Hlast Hwithin.
  rewrite (handleScan_resolved env req db qr Hwf Hres Hact). unfold afterResolve.
  pose proof (sameDayGuard_passes env db req qr Hzone Hnone) as Hguard.
  assert (Hdup : isDuplicate env db req qr = true).
  { unfold isDuplicate. rewrite Hre.
    destruct (lastScanOfType_mostRecent db req qr last Hlast) as (m & -> & ->).
    exact Hwithin. }
  rewrite Hguard. cbv zeta. rewrite Hdup.
  eexists. eexists. split; [reflexivity|].
  cbn [scan_event withScanEvent message_log message_recipient newScanEvent
       se_was_duplicate se_student_id se_type sentOf recipientsOf].
  rewrite Hdup. repeat split.
Qed.

(** The theorem on a repeat scan across midnight. *)
Lemma handleScan_duplicate_witness :
  exists scan db',
    handleScan midnightEnv (scanOf adaToken "CHECK_IN")
      (withScanEvent sampleDb [earlierScan 1 "CHECK_IN" (20001 * day - 30000)])
    = (DuplicateScan scan false, db', [])
    /\ se_was_duplicate scan = true.
Proof.
  destruct (handleScan_duplicate midnightEnv (scanOf adaToken "CHECK_IN")
              (withScanEvent sampleDb [earlierScan 1 "CHECK_IN" (20001 * day - 30000)])
              {| m_qr_id := 11; m_student_id := 1; m_first_name := Some "Ada";
                 m_last_name := Some "Lovelace"; m_status := "ACTIVE" |}
              (earlierScan 1 "CHECK_IN" (20001 * day - 30000)))
    as (scan & db' & Hrun & _ & Hdup & _).
  - repeat split.
  - reflexivity.
  - reflexivity.
  - reflexivity.
  - reflexivity.
  - intros e ([<- | []] & _ & _ & Hday). vm_compute in Hday. discriminate Hday.
  - unfold mostRecentOfType. split; [left; reflexivity|]. split; [reflexivity|].
    split; [reflexivity|]. intros e [<- | []] _ _. lia.
  - reflexivity.
  - exists scan, db'. split; [exact Hrun | exact Hdup].
Defined.

(** *** C6: headcount-only scans *)

(** C6.  For every scan request with [headcountOnly = true] that passes the
    input checks, the QR resolver and the same-day guard: exactly one scan
    event is appended, its meta holds [headcountOnly = true], the message
    tables and all other tables are unchanged and the SMS gateway is not
    called, whatever the SMS policy says; when the scan is no duplicate the
    answer reports [smsAllowed = false], no message log and nothing sent. *)
Theorem handleScan_headcount_only (env : ScanEnv) (req : ScanRequest) (db : Db)
    (qr : QrMatch) :
  wellFormed req ->
  resolveQr db (toStringV (qrCode req)) = Normal (Some qr) ->
  m_status qr = "ACTIVE" ->
  sameDayGuard env db req qr = Normal None ->
  headcountOnly req = JBool true ->
  let scan := newScanEvent env db req qr in
  exists res,
    handleScan env req db = (res, withScanEvent db (scan_event db ++ [scan]), [])
    /\ meta_headcountOnly (se_meta scan) = true
    /\ length (scan_event (withScanEvent db (scan_event db ++ [scan])))
       = S (length (scan_event db))
    /\ message_log (withScanEvent db (scan_event db ++ [scan])) = message_log db
    /\ message_recipient (withScanEvent db (scan_event db ++ [scan]))
       = message_recipient db
    /\ statusOf res = 200 /\ sentOf res = Some 0%nat /\ recipientsOf res = Some []
    /\ (isDuplicate env db req qr = false -> res = RecordedOnly scan false true).
Proof.
  intros Hwf Hres Hact Hguard Hhc scan.
  rewrite (handleScan_resolved env req db qr Hwf Hres Hact). unfold afterResolve.
  rewrite Hguard. cbv zeta. fold scan.
  assert (Hsup : suppressByHeadcount req = true).
  { unfold suppressByHeadcount. rewrite Hhc. reflexivity. }
  assert (Hallowed : smsAllowed env db req = false).
  { unfold smsAllowed. rewrite Hsup. apply andb_false_r. }
  rewrite Hallowed, Hsup, notifyGuardians_suppressed.
  exists (if isDuplicate env db req qr then DuplicateScan scan true
          else RecordedOnly scan false true).
  split; [destruct (isDuplicate env db req qr); reflexivity|].
  split; [subst scan; cbn; exact Hsup|].
  split; [cbn [scan_event withScanEvent]; rewrite length_app; cbn; lia|].
  split; [reflexivity|]. split; [reflexivity|].
  destruct (isDuplicate env db req qr); repeat split; intros; congruence.
Qed.

(** The theorem on a headcount-only check-in while the policy allows SMS. *)
Lemma handleScan_headcount_only_witness :
  let req := {| qrCode := JStr adaToken; type := JStr "CHECK_IN";
                messageOverride := JUndefined; recheck := JUndefined;
                headcountOnly := JBool true; user_id := Some 3 |} in
  smsAllowedPolicy (getOrgSettings sampleEnv sampleDb) (typeOf req) = true
  /\ exists res db',
       handleScan sampleEnv req sampleDb = (res, db', [])
       /\ message_log db' = [] /\ message_recipient db' = []
       /\ length (scan_event db') = 1%nat.
Proof.
  cbv zeta. split; [reflexivity|].
  destruct (handleScan_headcount_only sampleEnv
              {| qrCode := JStr adaToken; type := JStr "CHECK_IN";
                 messageOverride := JUndefined; recheck := JUndefined;
                 headcountOnly := JBool true; user_id := Some 3 |}
              sampleDb
              {| m_qr_id := 11; m_student_id := 1; m_first_name := Some "Ada";
                 m_last_name := Some "Lovelace"; m_status := "ACTIVE" |})
    as (res & Hrun & _ & Hlen & Hlog & Hrec & _);
    [repeat split | reflexivity | reflexivity | reflexivity | reflexivity |].
  eexists. eexists. split; [exact Hrun|].
  split; [exact Hlog|]. split; [exact Hrec | exact Hlen].
Defined.

(** *** C4: recipients *)

Lemma guardiansOf_spec db studentId g :
  In g (guardiansOf db studentId) <-> notifiable db studentId g.
Proof.
  unfold guardiansOf, notifiable. rewrite in_flat_map. split.
  - intros (g' & Hg' & Hin).
    destruct (g_active g' && g_phone_valid g') eqn:Hok; [|destruct Hin].
    apply andb_prop in Hok as [Ha Hv].
    apply in_map_iff in Hin as (sg & <- & Hsg).
    apply filter_In in Hsg as [Hsg [Hs Hgid]%andb_prop].
    apply Z.eqb_eq in Hs, Hgid. eauto 10.
  - intros (Hg & Ha & Hv & sg & Hsg & Hs & Hgid). exists g. split; [exact Hg|].
    rewrite Ha, Hv. cbn [andb]. apply in_map_iff. exists sg. split; [reflexivity|].
    apply filter_In. split; [exact Hsg|].
    unfold Links.sameLink. rewrite Hs, Hgid, !Z.eqb_refl. reflexivity.
Qed.

(** Under the primary key of [guardian] and the unique index of
    [student_guardian], no guardian is selected twice. *)
Lemma guardiansOf_NoDup db studentId :
  List.NoDup (map g_id (guardian db)) ->
  Links.uniqueLinks (student_guardian db) ->
  List.NoDup (map g_id (guardiansOf db studentId)).
Proof.
  intros Hg Hl. unfold guardiansOf.
  induction (guardian db) as [|g rest IH]; [constructor|].
  cbn [flat_map map] in *. inversion Hg as [|x xs Hnotin Hrest]; subst.
  rewrite map_app. apply NoDup_ListNoDup, NoDup_app.
  split; [|split; [|apply NoDup_ListNoDup, IH, Hrest]].
  - destruct (g_active g && g_phone_valid g); [|apply NoDup_nil_2].
    pose proof (Links.unique_at_most_one studentId (g_id g) _ Hl) as Hle.
    destruct (Links.rowsOf studentId (g_id g) (student_guardian db)) as [|a [|b l]];
      cbn [map length] in *; [apply NoDup_nil_2 | apply NoDup_singleton | lia].
  - intros y Hy Hy'. apply Hnotin.
    assert (y = g_id g) as ->.
    { destruct (g_active g && g_phone_valid g); [|inversion Hy].
      apply list_elem_of_In, in_map_iff in Hy as (g' & <- & Hg').
      apply in_map_iff in Hg' as (sg & <- & _). reflexivity. }
    apply list_elem_of_In, in_map_iff in Hy' as (g' & Hid & Hg').
    apply in_flat_map in Hg' as (g'' & Hin'' & Hg').
    destruct (g_active g'' && g_phone_valid g''); [|destruct Hg'].
    apply in_map_iff in Hg' as (sg & <- & _).
    apply in_map_iff. exists g''. auto.
Qed.

(** The stored status is SENT exactly for the gateway status SUCCESS, and
    FAILED otherwise. *)
Lemma recipientRow_status logId messages g :
  let r := recipientRow logId messages g in
  (mr_status r = "SENT" <-> mr_gateway_status r = "SUCCESS")
  /\ (mr_gateway_status r <> "SUCCESS" -> mr_status r = "FAILED").
Proof.
  cbv zeta. unfold recipientRow, recipientDetail.
  cbn [mr_status mr_gateway_status rd_status rd_gateway_status].
  set (st := SmsRenderer.orElse _ _).
  destruct (String.eqb st "SUCCESS") eqn:Hs.
  - apply String.eqb_eq in Hs. split; [tauto | congruence].
  - apply String.eqb_neq in Hs. split; [split; [discriminate | tauto] | reflexivity].
Qed.

(** The stored gateway status is the one of the first message of the answer
    that is addressed to the guardian's phone. *)
Lemma recipientRow_gateway_status logId messages g m st :
  List.find (fun m => String.eqb (gm_to m) (g_phone_e164 g)) messages = Some m ->
  gm_status m = Some st -> st <> "" ->
  mr_gateway_status (recipientRow logId messages g) = st.
Proof.
  intros Hfind Hst Hne. unfold recipientRow, recipientDetail.
  cbn [mr_gateway_status rd_gateway_status]. rewrite Hfind, Hst.
  destruct st; [congruence|reflexivity].
Qed.

(** The message found for a phone is the one addressed to it, when the answer
    holds a single one. *)
Lemma find_single_message messages phone m :
  In m messages -> gm_to m = phone ->
  (forall m', In m' messages -> gm_to m' = gm_to m -> m' = m) ->
  List.find (fun m => String.eqb (gm_to m) phone) messages = Some m.
Proof.
  intros Hin Hto Hone.
  destruct (List.find (fun m => String.eqb (gm_to m) phone) messages) as [m0|] eqn:Hf.
  - apply find_some in Hf as [Hin0 Hto0]. apply String.eqb_eq in Hto0.
    f_equal. apply Hone; [exact Hin0 | congruence].
  - pose proof (find_none _ _ Hf m Hin) as Hno. cbn in Hno.
    apply String.eqb_neq in Hno. contradiction.
Qed.

Lemma NoDup_map_inj_in {A B} (f : A -> B) (l : list A) a b :
  List.NoDup (map f l) -> In a l -> In b l -> f a = f b -> a = b.
Proof.
  induction l as [|x l IH]; cbn [map]; intros Hnd Ha Hb Hf; [destruct Ha|].
  inversion Hnd as [|y ys Hnotin Hnd']; subst.
  destruct Ha as [<- | Ha], Hb as [<- | Hb]; [reflexivity | | |auto].
  - exfalso. apply Hnotin. rewrite Hf. apply in_map, Hb.
  - exfalso. apply Hnotin. rewrite <- Hf. apply in_map, Ha.
Qed.

Lemma sendSmsMany_nonempty env {A} (f : A -> SmsItem) (l : list A) :
  l <> [] -> sendSmsMany env (map f l) = (clickSend env (map f l), [map f l]).
Proof. destruct l; [congruence|reflexivity]. Qed.

(** The claim as worded fails in two ways.  Two guardians of a student on one
    phone number: the gateway accepts the first message and refuses the
    second, and both rows hold the status of the first.  A zone in the
    settings that [Intl] does not know: the scan is recorded, it is no
    duplicate and SMS is allowed, the student has a guardian to notify, and
    no row is inserted. *)
Lemma handleScan_recipients_shared_phone_unknown_zone :
  map gm_status (gatewayAnswer firstOnlyEnv
                   (map (fun g => {| item_to := g_phone_e164 g; item_body := "x" |})
                      (guardiansOf sharedPhoneDb 1)))
  = [Some "SUCCESS"; Some "FAILED"]
  /\ map (fun r => (mr_guardian_id r, mr_status r, mr_gateway_status r))
       (message_recipient
          (snd (fst (handleScan firstOnlyEnv (scanOf adaToken "CHECK_IN") sharedPhoneDb))))
     = [(5, "SENT", "SUCCESS"); (9, "SENT", "SUCCESS")]
  /\ smsAllowed sampleEnv marsDb (recheckOf adaToken "CHECK_IN") = true
  /\ map g_id (guardiansOf marsDb 1) = [5]
  /\ fst (fst (handleScan sampleEnv (recheckOf adaToken "CHECK_IN") marsDb)) = ServerError
  /\ map se_was_duplicate
       (scan_event (snd (fst (handleScan sampleEnv (recheckOf adaToken "CHECK_IN") marsDb))))
     = [false]
  /\ message_recipient
       (snd (fst (handleScan sampleEnv (recheckOf adaToken "CHECK_IN") marsDb))) = [].
Proof. vm_compute. repeat split. Qed.

(** C4 (amended).  For every scan that is recorded, is no duplicate and for
    which SMS is allowed, when the message is composed (for a template, the
    configured zone is one that [Intl] knows) and can be logged, and the
    recipients' phone numbers are distinct: the recipients are exactly the
    guardians linked to the student through [student_guardian] that have
    [active = TRUE] and [phone_valid = TRUE]; one row of [message_recipient]
    is appended for each of them (each guardian once, under the keys of the
    two tables), holding the status of the gateway's message for the
    guardian's phone, a message that belongs to no other recipient; and the
    stored status is SENT if and only if the gateway status is SUCCESS,
    FAILED otherwise. *)
Theorem handleScan_recipients (env : ScanEnv) (req : ScanRequest) (db : Db)
    (qr : QrMatch) (body : string) :
  wellFormed req ->
  resolveQr db (toStringV (qrCode req)) = Normal (Some qr) ->
  m_status qr = "ACTIVE" ->
  sameDayGuard env db req qr = Normal None ->
  isDuplicate env db req qr = false ->
  smsAllowed env db req = true ->
  composeBody env req db qr (typeOf req) (getOrgSettings env db) (scanNow env)
  = Normal body ->
  hasNul body = false ->
  List.NoDup (map g_phone_e164 (guardiansOf db (m_student_id qr))) ->
  let gs := guardiansOf db (m_student_id qr) in
  (forall g, In g gs <-> notifiable db (m_student_id qr) g)
  /\ (List.NoDup (map g_id (guardian db)) ->
      Links.uniqueLinks (student_guardian db) ->
      List.NoDup (map g_id gs))
  /\ exists res db' calls rows,
       let items := map (fun g => {| item_to := g_phone_e164 g; item_body := body |}) gs in
       let messages := gatewayAnswer env items in
       handleScan env req db = (res, db', calls)
       /\ message_recipient db' = message_recipient db ++ rows
       /\ rows = map (recipientRow (messageLogId env) messages) gs
       /\ map mr_guardian_id rows = map g_id gs
       /\ map mr_phone_e164 rows = map g_phone_e164 gs
       /\ recipientsOf res = Some (map g_phone_e164 gs)
       /\ (gs <> [] -> calls = [items])
       /\ (forall r, In r rows ->
             (mr_status r = "SENT" <-> mr_gateway_status r = "SUCCESS")
             /\ (mr_gateway_status r <> "SUCCESS" -> mr_status r = "FAILED"))
       /\ (forall g m st, In g gs ->
             In m messages -> gm_to m = g_phone_e164 g ->
             (forall m', In m' messages -> gm_to m' = gm_to m -> m' = m) ->
             gm_status m = Some st -> st <> "" ->
             mr_gateway_status (recipientRow (messageLogId env) messages g) = st
             /\ forall g', In g' gs -> g_phone_e164 g' = gm_to m -> g' = g).
Proof.
  intros Hwf Hres Hact Hguard Hdup Hallowed Hbody Hnul Hphones gs.
  split; [intros g; apply guardiansOf_spec|].
  split; [apply guardiansOf_NoDup|].
  rewrite (handleScan_resolved env req db qr Hwf Hres Hact). unfold afterResolve.
  rewrite Hguard, Hdup, Hallowed. cbv zeta. unfold notifyGuardians.
  set (db1 := withScanEvent db (scan_event db ++ [newScanEvent env db req qr])).
  change (guardiansOf db1 (m_student_id qr)) with gs.
  change (composeBody env req db1 qr (typeOf req) (getOrgSettings env db) (scanNow env))
    with (composeBody env req db qr (typeOf req) (getOrgSettings env db) (scanNow env)).
  rewrite Hbody, Hnul. cbn [negb orb].
  set (logId := messageLogId env).
  assert (Hrows : forall messages r,
            In r (map (recipientRow logId messages) gs) ->
            (mr_status r = "SENT" <-> mr_gateway_status r = "SUCCESS")
            /\ (mr_gateway_status r <> "SUCCESS" -> mr_status r = "FAILED")).
  { intros messages r (g & <- & _)%in_map_iff. apply recipientRow_status. }
  assert (Hper : forall messages g m st, In g gs ->
            In m messages -> gm_to m = g_phone_e164 g ->
            (forall m', In m' messages -> gm_to m' = gm_to m -> m' = m) ->
            gm_status m = Some st -> st <> "" ->
            mr_gateway_status (recipientRow logId messages g) = st
            /\ forall g', In g' gs -> g_phone_e164 g' = gm_to m -> g' = g).
  { intros messages g m st Hg Hm Hto Hone Hst Hne. split.
    - apply (recipientRow_gateway_status logId messages g m st); [|exact Hst|exact Hne].
      apply find_single_message; assumption.
    - intros g' Hg' Hto'. apply (NoDup_map_inj_in g_phone_e164 gs); [exact Hphones|..];
        try assumption. congruence. }
  clearbody gs. destruct gs as [|g0 gs'].
  - cbn [length Nat.eqb]. eexists _, _, _, []. cbv zeta.
    split; [reflexivity|]. cbn [message_recipient map recipientsOf].
    split; [rewrite app_nil_r; reflexivity|].
    repeat split; try congruence; intros; contradiction.
  - cbn [length Nat.eqb]. unfold sendAndLog.
    rewrite sendSmsMany_nonempty by discriminate.
    eexists _, _, _, _. cbv zeta.
    split; [reflexivity|]. cbn [message_recipient withMessages recipientsOf].
    split; [reflexivity|]. split; [reflexivity|].
    split; [rewrite map_map; reflexivity|].
    split; [rewrite map_map; reflexivity|].
    split; [reflexivity|]. split; [reflexivity|].
    split; [apply Hrows|]. apply Hper.
Qed.

(** The theorem on Ada's check-in: of her three linked guardians only the
    one that is active with a valid phone receives the message. *)
Lemma handleScan_recipients_witness :
  exists res db' calls,
    handleScan sampleEnv (scanOf adaToken "check_in") sampleDb = (res, db', calls)
    /\ map mr_guardian_id (message_recipient db') = [5]
    /\ recipientsOf res = Some ["+61400000005"].
Proof.
  destruct (handleScan_recipients sampleEnv (scanOf adaToken "check_in") sampleDb
              {| m_qr_id := 11; m_student_id := 1; m_first_name := Some "Ada";
                 m_last_name := Some "Lovelace"; m_status := "ACTIVE" |}
              "Ada Lovelace has an update at 7:04 pm AEST on Fri, 15 Aug 2025.")
    as (_ & _ & res & db' & calls & rows
        & Hrun & Hrec & _ & Hids & _ & Hto & _);
    [repeat split | reflexivity | reflexivity | reflexivity | reflexivity
     | reflexivity | vm_compute; reflexivity | reflexivity
     | apply List.NoDup_cons; [intros []|apply List.NoDup_nil] |].
  exists res, db', calls. split; [exact Hrun|]. split; [|exact Hto].
  rewrite Hrec. cbn [message_recipient sampleDb app]. exact Hids.
Defined.

End Scan.

(** ** The scan flow as a whole: what a request can and cannot change *)

Module ScanFlow.
Import Js Scan.

(** The request passed the input checks and its token resolved to [qr], a
    student with status ACTIVE. *)
Definition resolved (req : ScanRequest) (db : Db) (qr : QrMatch) : Prop :=
  wellFormed req
  /\ resolveQr db (toStringV (qrCode req)) = Normal (Some qr)
  /\ m_status qr = "ACTIVE".

(** The database after step 4. *)
Definition recorded (env : ScanEnv) (req : ScanRequest) (db : Db) (qr : QrMatch) : Db :=
  withScanEvent db (scan_event db ++ [newScanEvent env db req qr]).

(** The payload of step 8. *)
Definition smsItems (body : string) (gs : list GuardianRow) : list SmsItem :=
  map (fun g => {| item_to := g_phone_e164 g; item_body := body |}) gs.

(** Step 6 for a request. *)
Definition composed (env : ScanEnv) (req : ScanRequest) (db : Db) (qr : QrMatch)
  : Completion string :=
  composeBody env req db qr (typeOf req) (getOrgSettings env db) (scanNow env).

(** The body of step 6, when it is composed. *)
Definition bodyOf (env : ScanEnv) (req : ScanRequest) (db : Db) (qr : QrMatch) : string :=
  match composed env req db qr with
  | Normal body => body
  | Throw => ""
  end.

(** The row of step 7. *)
Definition logRow (env : ScanEnv) (req : ScanRequest) (db : Db) (qr : QrMatch)
  : MessageLogRow :=
  {| ml_id := messageLogId env;
     ml_student_id := m_student_id qr;
     ml_trigger_type := "SCAN";
     ml_scan_event_id := se_id (newScanEvent env db req qr);
     ml_template_key := match overrideOf req with
                        | Some _ => None
                        | None => Some (typeOf req)
                        end;
     ml_body_rendered := bodyOf env req db qr;
     ml_created_by := scannedBy req |}.

(** The gateway's messages for a request. *)
Definition answerOf (env : ScanEnv) (req : ScanRequest) (db : Db) (qr : QrMatch)
  : list GatewayMessage :=
  gatewayAnswer env (smsItems (bodyOf env req db qr) (guardiansOf db (m_student_id qr))).

(** The rows of step 9. *)
Definition recipientRows (env : ScanEnv) (req : ScanRequest) (db : Db) (qr : QrMatch)
  : list MessageRecipientRow :=
  map (recipientRow (messageLogId env) (answerOf env req db qr))
    (guardiansOf db (m_student_id qr)).

Definition recipientDetails (env : ScanEnv) (req : ScanRequest) (db : Db) (qr : QrMatch)
  : list RecipientDetail :=
  map (recipientDetail (answerOf env req db qr)) (guardiansOf db (m_student_id qr)).

(** The database after step 9. *)
Definition notified (env : ScanEnv) (req : ScanRequest) (db : Db) (qr : QrMatch) : Db :=
  withMessages (recorded env req db qr)
    (message_log db ++ [logRow env req db qr])
    (message_recipient db ++ recipientRows env req db qr).

(** The aggregate of the gateway's statuses in the response. *)
Definition anyFailure (details : list RecipientDetail) : bool :=
  existsb nonSuccess details.

Definition insufficientCredit (details : list RecipientDetail) : bool :=
  existsb (fun d => String.eqb (rd_gateway_status d) "INSUFFICIENT_CREDIT") details.

Definition failingStatuses (details : list RecipientDetail) : list string :=
  distinct (map rd_gateway_status (List.filter nonSuccess details)).

Definition failureReason (details : list RecipientDetail) : option string :=
  if anyFailure details then
    Some (if insufficientCredit details then "INSUFFICIENT_CREDIT"
          else SmsRenderer.orElse (head (failingStatuses details)) "UNKNOWN")
  else None.

Definition failureHint (details : list RecipientDetail) : option string :=
  if anyFailure details then
    Some (if insufficientCredit details
          then "SMS gateway reports insufficient credit. No messages were delivered. Please top up your ClickSend balance and retry."
          else "SMS gateway returned non-success statuses ("
               +:+ joinComma (failingStatuses details)
               +:+ "). Check your SMS gateway account and retry.")
  else None.

(** The ways a request can end. *)
Inductive Outcome (env : ScanEnv) (req : ScanRequest) (db : Db)
  : Response -> Db -> list (list SmsItem) -> Prop :=
| Rejected status error :
    Outcome env req db (Failure status error) db []
| Refused :
    Outcome env req db ServerError db []
| Blocked qr last error :
    resolved req db qr ->
    sameDayGuard env db req qr = Normal (Some last) ->
    Outcome env req db
      (AlreadyToday error
         (formatInZone env (timezone (getOrgSettings env db)) (se_scanned_at last)))
      db []
| Suppressed qr :
    resolved req db qr ->
    sameDayGuard env db req qr = Normal None ->
    isDuplicate env db req qr = true ->
    Outcome env req db
      (DuplicateScan (newScanEvent env db req qr) (suppressByHeadcount req))
      (recorded env req db qr) []
| Silent qr :
    resolved req db qr ->
    sameDayGuard env db req qr = Normal None ->
    isDuplicate env db req qr = false ->
    smsAllowed env db req = false \/ guardiansOf db (m_student_id qr) = [] ->
    Outcome env req db
      (RecordedOnly (newScanEvent env db req qr) (smsAllowed env db req)
         (suppressByHeadcount req))
      (recorded env req db qr) []
| Unsent qr :
    resolved req db qr ->
    sameDayGuard env db req qr = Normal None ->
    isDuplicate env db req qr = false ->
    smsAllowed env db req = true ->
    guardiansOf db (m_student_id qr) <> [] ->
    composed env req db qr = Throw \/ hasNul (bodyOf env req db qr) = true ->
    Outcome env req db ServerError (recorded env req db qr) []
| Sent qr :
    resolved req db qr ->
    sameDayGuard env db req qr = Normal None ->
    isDuplicate env db req qr = false ->
    smsAllowed env db req = true ->
    guardiansOf db (m_student_id qr) <> [] ->
    composed env req db qr = Normal (bodyOf env req db qr) ->
    hasNul (bodyOf env req db qr) = false ->
    Outcome env req db
      (Notified (newScanEvent env db req qr) (messageLogId env)
         (map g_phone_e164 (guardiansOf db (m_student_id qr)))
         (recipientDetails env req db qr)
         (length (answerOf env req db qr))
         true (suppressByHeadcount req)
         (if anyFailure (recipientDetails env req db qr) then "FAILURE" else "SUCCESS")
         (anyFailure (recipientDetails env req db qr))
         (failureReason (recipientDetails env req db qr))
         (failureHint (recipientDetails env req db qr)))
      (notified env req db qr)
      [smsItems (bodyOf env req db qr) (guardiansOf db (m_student_id qr))].

(** Every run of [handleScan] ends in one of these ways. *)
Lemma handleScan_outcome env req db :
  Outcome env req db (fst (fst (handleScan env req db)))
    (snd (fst (handleScan env req db))) (snd (handleScan env req db)).
Proof.
  unfold handleScan.
  destruct (negb (truthyV (qrCode req)) || negb (truthyV (type req))) eqn:Hfields;
    [apply Rejected|].
  destruct (negb (isScanType (typeOf req))) eqn:Htype; [apply Rejected|].
  destruct (resolveQr db (toStringV (qrCode req))) as [[qr|]|] eqn:Hres;
    [|apply Rejected|apply Refused].
  destruct (negb (String.eqb (m_status qr) "ACTIVE")) eqn:Hact; [apply Rejected|].
  assert (Hresolved : resolved req db qr).
  { apply orb_false_elim in Hfields as [Hq Ht].
    apply negb_false_iff in Hq, Ht, Htype, Hact. apply String.eqb_eq in Hact.
    repeat split; assumption. }
  destruct (sameDayGuard env db req qr) as [[last|]|] eqn:Hguard;
    [cbn [fst snd]; eapply Blocked; eassumption| |apply Refused].
  cbv zeta. fold (recorded env req db qr).
  destruct (isDuplicate env db req qr) eqn:Hdup.
  { cbn [fst snd]. apply Suppressed; assumption. }
  unfold notifyGuardians.
  change (guardiansOf (recorded env req db qr) (m_student_id qr))
    with (guardiansOf db (m_student_id qr)).
  change (composeBody env req (recorded env req db qr) qr (typeOf req)
            (getOrgSettings env db) (scanNow env))
    with (composed env req db qr).
  destruct (smsAllowed env db req) eqn:Hallowed.
  2:{ cbn [negb orb fst snd].
      pose proof (Silent env req db qr Hresolved Hguard Hdup (or_introl Hallowed)) as H.
      rewrite Hallowed in H. exact H. }
  cbn [negb orb].
  destruct (guardiansOf db (m_student_id qr)) as [|g gs] eqn:Hgs.
  { cbn [length Nat.eqb fst snd].
    pose proof (Silent env req db qr Hresolved Hguard Hdup (or_intror Hgs)) as H.
    rewrite Hallowed in H. exact H. }
  cbn [length Nat.eqb].
  assert (Hne : guardiansOf db (m_student_id qr) <> []) by (rewrite Hgs; discriminate).
  destruct (composed env req db qr) as [body|] eqn:Hbody.
  2:{ cbn [fst snd]. apply (Unsent env req db qr); auto. }
  assert (Hb : bodyOf env req db qr = body) by (unfold bodyOf; rewrite Hbody; reflexivity).
  subst body.
  destruct (hasNul (bodyOf env req db qr)) eqn:Hnul.
  { cbn [fst snd]. apply (Unsent env req db qr); auto. }
  unfold sendAndLog. rewrite sendSmsMany_nonempty by discriminate.
  cbn [fst snd]. rewrite <- Hgs.
  apply (Sent env req db qr); assumption.
Qed.

(** The stored status of a recipient is FAILED exactly when the gateway
    status is not SUCCESS, and SENT otherwise. *)
Lemma recipientDetail_status messages g :
  (nonSuccess (recipientDetail messages g) = true
   <-> rd_status (recipientDetail messages g) = "FAILED")
  /\ (nonSuccess (recipientDetail messages g) = false
      <-> rd_status (recipientDetail messages g) = "SENT").
Proof.
  unfold nonSuccess, recipientDetail. cbn [rd_gateway_status rd_status].
  destruct (String.eqb _ "SUCCESS"); cbn [negb]; split; split;
    try reflexivity; discriminate.
Qed.

(** X1.  Whatever the request, [handleScan] leaves the tables [qr_code],
    [student], [guardian], [student_guardian], [message_template] and the
    settings as they were; it only appends to [scan_event], [message_log] and
    [message_recipient], at most one scan event and one message log, and it
    calls the SMS gateway at most once. *)
Theorem handleScan_frame (env : ScanEnv) (req : ScanRequest) (db : Db) :
  let db' := snd (fst (handleScan env req db)) in
  qr_code db' = qr_code db /\ student db' = student db
  /\ guardian db' = guardian db /\ student_guardian db' = student_guardian db
  /\ message_template db' = message_template db
  /\ setting_center_profile db' = setting_center_profile db
  /\ setting_sms_policy db' = setting_sms_policy db
  /\ (exists new, scan_event db' = scan_event db ++ new /\ (length new <= 1)%nat)
  /\ (exists logs, message_log db' = message_log db ++ logs /\ (length logs <= 1)%nat)
  /\ (exists rows, message_recipient db' = message_recipient db ++ rows)
  /\ (length (snd (handleScan env req db)) <= 1)%nat.
Proof.
  pose proof (handleScan_outcome env req db) as H.
  destruct (handleScan env req db) as [[res db'] calls]. cbn [fst snd] in *.
  assert (Hsame : forall l : list ScanEventRow, exists new, l = l ++ new /\ (length new <= 1)%nat).
  { intros l. exists []. rewrite app_nil_r. cbn. auto. }
  assert (Hsame2 : forall l : list MessageLogRow,
             exists new, l = l ++ new /\ (length new <= 1)%nat).
  { intros l. exists []. rewrite app_nil_r. cbn. auto. }
  assert (Hsame3 : forall l : list MessageRecipientRow, exists new, l = l ++ new).
  { intros l. exists []. rewrite app_nil_r. reflexivity. }
  inversion H; subst; cbn;
    repeat (split; [first [reflexivity | apply Hsame | apply Hsame2 | apply Hsame3
                          | (eexists; split; [reflexivity | cbn; lia])
                          | (eexists; reflexivity) | lia]|]);
    lia.
Qed.

(** X2.  A request either leaves the message tables alone and calls no
    gateway, or it appends exactly one message log row that refers to the scan
    event appended by the same request (which is no duplicate) and to its
    student, one recipient row per SMS item, each referring to that log row,
    and makes one gateway call whose items all carry the logged body. *)
Theorem handleScan_message_integrity (env : ScanEnv) (req : ScanRequest) (db : Db) :
  let res := fst (fst (handleScan env req db)) in
  let db' := snd (fst (handleScan env req db)) in
  let calls := snd (handleScan env req db) in
  (message_log db' = message_log db /\ message_recipient db' = message_recipient db
   /\ calls = [])
  \/ (exists scan log rows items,
        scan_event db' = scan_event db ++ [scan]
        /\ se_was_duplicate scan = false
        /\ message_log db' = message_log db ++ [log]
        /\ ml_scan_event_id log = se_id scan
        /\ ml_student_id log = se_student_id scan
        /\ message_recipient db' = message_recipient db ++ rows
        /\ rows <> []
        /\ Forall (fun r => mr_message_log_id r = ml_id log) rows
        /\ calls = [items]
        /\ map item_to items = map mr_phone_e164 rows
        /\ Forall (fun i => item_body i = ml_body_rendered log) items
        /\ recipientsOf res = Some (map item_to items)).
Proof.
  pose proof (handleScan_outcome env req db) as H.
  destruct (handleScan env req db) as [[res db'] calls]. cbn [fst snd] in *.
  inversion H; subst; try (left; repeat split; reflexivity).
  right.
  exists (newScanEvent env db req qr), (logRow env req db qr),
    (recipientRows env req db qr),
    (smsItems (bodyOf env req db qr) (guardiansOf db (m_student_id qr))).
  match goal with Hd : isDuplicate _ _ _ _ = false |- _ => rename Hd into Hdup end.
  match goal with Hg : guardiansOf _ _ <> [] |- _ => rename Hg into Hgs end.
  unfold notified, recipientRows, smsItems.
  cbn [scan_event message_log message_recipient withMessages withScanEvent recorded
       recipientsOf newScanEvent se_was_duplicate se_id se_student_id logRow
       ml_scan_event_id ml_student_id ml_id ml_body_rendered].
  repeat split; try reflexivity; try exact Hdup.
  - destruct (guardiansOf db (m_student_id qr)); [congruence|discriminate].
  - apply Forall_forall. intros r (g & <- & _)%list_elem_of_In%in_map_iff. reflexivity.
  - rewrite !map_map. reflexivity.
  - apply Forall_forall. intros i (g & <- & _)%list_elem_of_In%in_map_iff. reflexivity.
  - rewrite map_map. reflexivity.
Qed.

(** X4.  A message override that is a string with something other than
    white space in it is sent as it stands, trimmed and without token
    expansion, and logged with no template key; without such an override the
    body is the rendered template of the scan type, logged under that key. *)
Theorem handleScan_override_verbatim (env : ScanEnv) (req : ScanRequest) (db : Db)
    (log : MessageLogRow) :
  In log (message_log (snd (fst (handleScan env req db)))) ->
  ~ In log (message_log db) ->
  (forall text, messageOverride req = JStr text -> trim text <> "" ->
     ml_body_rendered log = trim text /\ ml_template_key log = None
     /\ Forall (Forall (fun i => item_body i = trim text)) (snd (handleScan env req db)))
  /\ (overrideOf req = None ->
      ml_template_key log = Some (typeOf req)
      /\ exists qr,
           resolveQr db (toStringV (qrCode req)) = Normal (Some qr)
           /\ SmsRenderer.renderSmsTemplate (renderEnv env) (templateText db (typeOf req))
                 {| SmsRenderer.arg_student :=
                      {| SmsRenderer.student_id := Some (m_student_id qr);
                         SmsRenderer.student_first_name := m_first_name qr;
                         SmsRenderer.student_firstName := None;
                         SmsRenderer.student_last_name := m_last_name qr;
                         SmsRenderer.student_lastName := None |};
                    SmsRenderer.arg_type := Some (typeOf req);
                    SmsRenderer.arg_now := Some (scanNow env);
                    SmsRenderer.arg_centerName := Some (centerName (getOrgSettings env db));
                    SmsRenderer.arg_centreName := None;
                    SmsRenderer.arg_tz := None;
                    SmsRenderer.arg_timezone := Some (timezone (getOrgSettings env db)) |}
              = Normal (ml_body_rendered log)).
Proof.
  pose proof (handleScan_outcome env req db) as H.
  destruct (handleScan env req db) as [[res db'] calls]. cbn [fst snd] in *.
  intros Hin Hnew.
  inversion H; subst;
    cbn [message_log notified recorded withMessages withScanEvent] in Hin;
    try contradiction.
  apply in_app_or in Hin as [Hin | [<- | []]]; [contradiction|].
  match goal with Hr : resolved _ _ _ |- _ => destruct Hr as (_ & Hres & _) end.
  match goal with Hc : composed _ _ _ _ = Normal _ |- _ => rename Hc into Hbody end.
  split.
  - intros text Hover Hne.
    assert (Ho : overrideOf req = Some (trim text)).
    { unfold overrideOf. rewrite Hover. destruct (trim text); [congruence|reflexivity]. }
    assert (Hb : bodyOf env req db qr = trim text).
    { unfold bodyOf, composed, composeBody. rewrite Ho. reflexivity. }
    unfold logRow. cbn [ml_body_rendered ml_template_key].
    rewrite Ho, Hb. repeat split.
    constructor; [|constructor]. unfold smsItems.
    apply Forall_forall. intros i (g & <- & _)%list_elem_of_In%in_map_iff. reflexivity.
  - intros Ho. unfold logRow. cbn [ml_body_rendered ml_template_key].
    rewrite Ho. split; [reflexivity|]. exists qr. split; [exact Hres|].
    unfold composed, composeBody in Hbody. rewrite Ho in Hbody. exact Hbody.
Qed.

(** The theorem on a check-in with the override " Pick up at 5 ". *)
Lemma handleScan_override_verbatim_witness :
  let req := {| qrCode := JStr adaToken; type := JStr "CHECK_IN";
                messageOverride := JStr " Pick up at 5 "; recheck := JUndefined;
                headcountOnly := JUndefined; user_id := Some 3 |} in
  snd (handleScan sampleEnv req sampleDb)
  = [[ {| item_to := "+61400000005"; item_body := "Pick up at 5" |} ]]
  /\ Forall (Forall (fun i => item_body i = trim " Pick up at 5 "))
       (snd (handleScan sampleEnv req sampleDb)).
Proof.
  cbv zeta. split; [reflexivity|].
  eapply (handleScan_override_verbatim sampleEnv _ sampleDb
            {| ml_id := 201; ml_student_id := 1; ml_trigger_type := "SCAN";
               ml_scan_event_id := 101; ml_template_key := None;
               ml_body_rendered := "Pick up at 5"; ml_created_by := Some 3 |}).
  - left. reflexivity.
  - intros [].
  - reflexivity.
  - discriminate.
Defined.

(** X5.  In the answer to a scan that notified guardians, [gatewayFailure]
    is true exactly when some recipient is reported FAILED and false exactly
    when all are reported SENT; [overallGatewayStatus] and
    [gatewayFailureReason] agree with it; and the statuses reported are the
    statuses stored in [message_recipient], one per recipient. *)
Theorem handleScan_gateway_summary (env : ScanEnv) (req : ScanRequest) (db : Db)
    scan logId recipients details sent allowed headcount overall failure reason hint :
  fst (fst (handleScan env req db))
  = Notified scan logId recipients details sent allowed headcount overall failure
      reason hint ->
  length details = length recipients
  /\ (failure = true <-> exists d, In d details /\ rd_status d = "FAILED")
  /\ (failure = false <-> Forall (fun d => rd_status d = "SENT") details)
  /\ overall = (if failure then "FAILURE" else "SUCCESS")
  /\ (reason = None <-> failure = false)
  /\ (hint = None <-> failure = false)
  /\ exists rows,
       message_recipient (snd (fst (handleScan env req db)))
       = message_recipient db ++ rows
       /\ map mr_status rows = map rd_status details
       /\ map mr_gateway_status rows = map rd_gateway_status details
       /\ map mr_phone_e164 rows = recipients.
Proof.
  pose proof (handleScan_outcome env req db) as H.
  destruct (handleScan env req db) as [[res db'] calls]. cbn [fst snd] in *.
  intros ->. inversion H; subst. clear H.
  set (gs := guardiansOf db (m_student_id qr)) in *.
  set (msgs := answerOf env req db qr) in *.
  unfold recipientDetails. fold gs msgs.
  split; [rewrite !length_map; reflexivity|].
  assert (Hex : anyFailure (map (recipientDetail msgs) gs) = true
                <-> exists d, In d (map (recipientDetail msgs) gs) /\ rd_status d = "FAILED").
  { unfold anyFailure. rewrite existsb_exists. split.
    - intros (d & Hd & Hn). exists d. split; [exact Hd|].
      apply in_map_iff in Hd as (g & <- & _). apply recipientDetail_status, Hn.
    - intros (d & Hd & Hf). exists d. split; [exact Hd|].
      apply in_map_iff in Hd as (g & <- & _). apply recipientDetail_status, Hf. }
  assert (Hall : anyFailure (map (recipientDetail msgs) gs) = false
                 <-> Forall (fun d => rd_status d = "SENT") (map (recipientDetail msgs) gs)).
  { rewrite Forall_forall. split.
    - intros Hf d (g & <- & Hg)%list_elem_of_In%in_map_iff.
      apply recipientDetail_status.
      destruct (nonSuccess (recipientDetail msgs g)) eqn:Hn; [|reflexivity].
      assert (anyFailure (map (recipientDetail msgs) gs) = true); [|congruence].
      unfold anyFailure. apply existsb_exists. exists (recipientDetail msgs g).
      split; [apply in_map, Hg | exact Hn].
    - intros Hs. destruct (anyFailure _) eqn:Ha; [|reflexivity].
      destruct (proj1 Hex eq_refl) as (d & Hd & Hf).
      rewrite (Hs d) in Hf by (apply list_elem_of_In, Hd). discriminate Hf. }
  split; [exact Hex|]. split; [exact Hall|]. split; [reflexivity|].
  split; [unfold failureReason; destruct (anyFailure _); split; congruence|].
  split; [unfold failureHint; destruct (anyFailure _); split; congruence|].
  exists (recipientRows env req db qr). unfold recipientRows. fold gs msgs.
  cbn [message_recipient notified withMessages].
  split; [reflexivity|]. rewrite !map_map. repeat split.
Qed.

(** The theorem on Ada's check-in with a gateway that accepts everything. *)
Lemma handleScan_gateway_summary_witness :
  exists details failure,
    (failure = false <-> Forall (fun d => rd_status d = "SENT") details)
    /\ details = [ {| rd_phone := "+61400000005"; rd_status := "SENT";
                      rd_gateway_status := "SUCCESS";
                      rd_gateway_message_id := Some "M-1" |} ].
Proof.
  eexists. eexists. split.
  - eapply (handleScan_gateway_summary sampleEnv (scanOf adaToken "CHECK_IN") sampleDb).
    reflexivity.
  - reflexivity.
Defined.

(** X6.  When the call to the gateway fails, the scan is still answered with
    200 and the message is still logged; nothing counts as sent, every
    recipient is stored and reported as FAILED with gateway status FAILED and
    no gateway message id, and the failure reason is FAILED. *)
Theorem handleScan_gateway_down (env : ScanEnv) (req : ScanRequest) (db : Db)
    scan logId recipients details sent allowed headcount overall failure reason hint :
  (forall items, clickSend env items = None) ->
  fst (fst (handleScan env req db))
  = Notified scan logId recipients details sent allowed headcount overall failure
      reason hint ->
  sent = 0%nat /\ failure = true /\ overall = "FAILURE" /\ reason = Some "FAILED"
  /\ details <> []
  /\ Forall (fun d => rd_status d = "FAILED" /\ rd_gateway_status d = "FAILED"
                      /\ rd_gateway_message_id d = None) details
  /\ exists log,
       message_log (snd (fst (handleScan env req db))) = message_log db ++ [log]
       /\ ml_id log = logId.
Proof.
  intros Hdown.
  pose proof (handleScan_outcome env req db) as H.
  destruct (handleScan env req db) as [[res db'] calls]. cbn [fst snd] in *.
  intros ->. inversion H; subst. clear H.
  assert (Hmsgs : answerOf env req db qr = []).
  { unfold answerOf, gatewayAnswer. rewrite Hdown. reflexivity. }
  unfold recipientDetails, failureReason, anyFailure, insufficientCredit, failingStatuses.
  rewrite Hmsgs.
  destruct (guardiansOf db (m_student_id qr)) as [|g gs] eqn:Hgs; [congruence|].
  assert (Hd : forall g', recipientDetail [] g'
                = {| rd_phone := g_phone_e164 g'; rd_status := "FAILED";
                     rd_gateway_status := "FAILED"; rd_gateway_message_id := None |})
    by reflexivity.
  assert (Hcredit : forall l,
            existsb (fun d => String.eqb (rd_gateway_status d) "INSUFFICIENT_CREDIT")
              (map (recipientDetail []) l) = false).
  { induction l as [|x l IH]; [reflexivity|]. cbn [map existsb]. rewrite IH, Hd.
    reflexivity. }
  rewrite Hcredit. cbn [map existsb List.filter]. rewrite !Hd.
  cbn [nonSuccess rd_gateway_status String.eqb Ascii.eqb Bool.eqb negb orb andb
       distinct head map List.filter SmsRenderer.orElse truthy length].
  repeat split; try discriminate.
  - constructor; [repeat split|]. apply Forall_forall.
    intros d (g' & <- & _)%list_elem_of_In%in_map_iff. repeat split.
  - exists (logRow env req db qr). split; reflexivity.
Qed.

(** A centre whose gateway is down. *)
Definition gatewayDownEnv : ScanEnv := {|
  renderEnv := SmsRenderer.sampleEnv;
  zoneInDb := sampleZone;
  localDate := fun _ t => t / day;
  formatInZone := fun _ t => SmsRenderer.stringOfZ t;
  guardNow := 20000 * day + 36000000;
  scanNow := 20000 * day + 36000100;
  insertNow := 20000 * day + 36000200;
  scanEventId := 101;
  messageLogId := 201;
  clickSend := fun _ => None;
|}.

(** The theorem on Ada's check-in while the gateway is down. *)
Lemma handleScan_gateway_down_witness :
  exists details,
    Forall (fun d => rd_status d = "FAILED" /\ rd_gateway_status d = "FAILED"
                     /\ rd_gateway_message_id d = None) details
    /\ length details = 1%nat.
Proof.
  eexists. split.
  - eapply (handleScan_gateway_down gatewayDownEnv (scanOf adaToken "CHECK_IN") sampleDb).
    + reflexivity.
    + reflexivity.
  - reflexivity.
Defined.

Lemma timezone_of_settings env1 env2 db1 db2 :
  setting_center_profile db1 = setting_center_profile db2 ->
  timezone (getOrgSettings env1 db1) = timezone (getOrgSettings env2 db2).
Proof.
  intros H. unfold getOrgSettings. cbn [timezone]. rewrite H.
  destruct (setting_center_profile db2); reflexivity.
Qed.

Lemma app_one_not_self {A} (l : list A) (x : A) : l <> l ++ [x].
Proof.
  intros H. apply (f_equal (@length A)) in H. rewrite length_app in H. cbn in H. lia.
Qed.

(** X7.  Once a request has recorded a scan event, a later request with the
    same token and type that is no recheck, and whose same-day query runs (in
    a zone that the database knows) on the local date of that event, is
    answered 409 and changes nothing. *)
Theorem handleScan_second_scan_blocked (env1 env2 : ScanEnv) (req1 req2 : ScanRequest)
    (db : Db) (scan : ScanEventRow) :
  let db1 := snd (fst (handleScan env1 req1 db)) in
  scan_event db1 = scan_event db ++ [scan] ->
  qrCode req2 = qrCode req1 ->
  type req2 = type req1 ->
  wantRecheck req2 = false ->
  zoneInDb env2 (timezone (getOrgSettings env1 db)) = true ->
  localDate env2 (timezone (getOrgSettings env1 db)) (insertNow env1)
  = localDate env2 (timezone (getOrgSettings env1 db)) (guardNow env2) ->
  exists error lastAt,
    handleScan env2 req2 db1 = (AlreadyToday error lastAt, db1, []).
Proof.
  cbv zeta.
  pose proof (handleScan_outcome env1 req1 db) as H.
  destruct (handleScan env1 req1 db) as [[res db1] calls]. cbn [fst snd] in *.
  intros Hscan Hq Ht Hre Hzone Hday.
  assert (Hshape : exists qr, resolved req1 db qr
                     /\ scan_event db1 = scan_event db ++ [newScanEvent env1 db req1 qr]
                     /\ qr_code db1 = qr_code db /\ student db1 = student db
                     /\ setting_center_profile db1 = setting_center_profile db).
  { inversion H; subst; try (exfalso; exact (app_one_not_self _ _ Hscan));
      exists qr; (split; [assumption|]); repeat split. }
  destruct Hshape as (qr & (Hwf & Hres & Hact) & Hse & Hqr & Hst & Hset).
  assert (Htype : typeOf req2 = typeOf req1) by (unfold typeOf; rewrite Ht; reflexivity).
  assert (Hwf2 : wellFormed req2).
  { unfold wellFormed. rewrite Hq, Ht, Htype. exact Hwf. }
  assert (Hres2 : resolveQr db1 (toStringV (qrCode req2)) = Normal (Some qr)).
  { unfold resolveQr, qrRows in *. rewrite Hqr, Hst, Hq. exact Hres. }
  rewrite (handleScan_resolved env2 req2 db1 qr Hwf2 Hres2 Hact).
  unfold afterResolve, sameDayGuard, getTodayOfType. rewrite Hre.
  rewrite (timezone_of_settings env2 env1 db1 db Hset).
  set (tz := timezone (getOrgSettings env1 db)) in *. rewrite Hzone.
  assert (Hin : In (newScanEvent env1 db req1 qr)
                  (scansToday env2 db1 (m_student_id qr) (typeOf req2) tz)).
  { apply filter_In. split.
    - rewrite Hse. apply in_or_app. right. left. reflexivity.
    - unfold ofStudentAndType, newScanEvent. cbn [se_student_id se_type se_scanned_at].
      rewrite Htype, Z.eqb_refl, String.eqb_refl, Hday, Z.eqb_refl. reflexivity. }
  destruct (latestScan_exists _ _ Hin) as [last ->].
  eexists. eexists. reflexivity.
Qed.

(** The theorem on two check-ins of Ada on the same day. *)
Lemma handleScan_second_scan_blocked_witness :
  exists error lastAt,
    handleScan sampleEnv (scanOf adaToken "check_in")
      (snd (fst (handleScan sampleEnv (scanOf adaToken "check_in") sampleDb)))
    = (AlreadyToday error lastAt,
       snd (fst (handleScan sampleEnv (scanOf adaToken "check_in") sampleDb)), []).
Proof.
  eapply (handleScan_second_scan_blocked sampleEnv sampleEnv
            (scanOf adaToken "check_in") (scanOf adaToken "check_in") sampleDb).
  - reflexivity.
  - reflexivity.
  - reflexivity.
  - reflexivity.
  - reflexivity.
  - reflexivity.
Defined.

(** *** previewScan *)

(** The JSON body of a preview. *)
Record Preview := {
  pv_student_id : Z;
  pv_firstName : option string;
  pv_lastName : option string;
  pv_body : string;
  pv_smsAllowed : bool;
  pv_headcountOnly : bool;
  pv_alreadyCheckedInToday : bool;
  pv_lastCheckInAt : option string;
  pv_alreadyCheckedOutToday : bool;
  pv_lastCheckOutAt : option string;
  pv_alreadyDoneToday : bool;
  pv_lastActionAt : option string;
}.

Inductive PreviewResponse :=
| PreviewFailure (status : Z) (error : string)
| PreviewError
| PreviewOk (body : Preview).

(** [tRows[0]?.text || '...'] of [previewScan]. *)
Definition previewTemplateText (db : Db) (TYPE : string) : string :=
  SmsRenderer.orElse
    (match List.filter (fun kv => String.eqb (fst kv) TYPE) (message_template db) with
     | kv :: _ => Some (snd kv)
     | [] => None
     end)
    "{student.fullName} has checked in at {time} on {date}.".

(** The body rendered by [previewScan]. *)
Definition previewBody (env : ScanEnv) (req : ScanRequest) (db : Db) (qr : QrMatch)
  : Completion string :=
  let settings := getOrgSettings env db in
  SmsRenderer.renderSmsTemplate (renderEnv env)
    (previewTemplateText db (typeOf req))
    {| SmsRenderer.arg_student :=
         {| SmsRenderer.student_id := Some (m_student_id qr);
            SmsRenderer.student_first_name := m_first_name qr;
            SmsRenderer.student_firstName := None;
            SmsRenderer.student_last_name := m_last_name qr;
            SmsRenderer.student_lastName := None |};
       SmsRenderer.arg_type := Some (typeOf req);
       SmsRenderer.arg_now := Some (scanNow env);
       SmsRenderer.arg_centerName := Some (centerName settings);
       SmsRenderer.arg_centreName := None;
       SmsRenderer.arg_tz := None;
       SmsRenderer.arg_timezone := Some (timezone settings) |}.

(** [previewScan(req, res, next)]: it reads [qrCode], [type] and
    [headcountOnly] of the body and writes nothing.  [PreviewError] is the
    500 of the error handler, when a query fails or the renderer throws. *)
Definition previewScan (env : ScanEnv) (req : ScanRequest) (db : Db) : PreviewResponse :=
  if negb (truthyV (qrCode req)) || negb (truthyV (type req)) then
    PreviewFailure 400 "qrCode and type are required"
  else if negb (isScanType (typeOf req)) then
    PreviewFailure 400 "type must be CHECK_IN or CHECK_OUT"
  else
    let settings := getOrgSettings env db in
    match resolveQr db (toStringV (qrCode req)) with
    | Throw => PreviewError
    | Normal None => PreviewFailure 404 "QR code not found or inactive"
    | Normal (Some qr) =>
        if negb (String.eqb (m_status qr) "ACTIVE") then
          PreviewFailure 400 "Student is inactive"
        else
          match previewBody env req db qr with
          | Throw => PreviewError
          | Normal body =>
              match getTodayOfType env db (m_student_id qr) (typeOf req)
                      (timezone settings) with
              | Throw => PreviewError
              | Normal lastToday =>
                  let lastAt :=
                    match lastToday with
                    | Some e =>
                        Some (formatInZone env (timezone settings) (se_scanned_at e))
                    | None => None
                    end in
                  let isIn := String.eqb (typeOf req) "CHECK_IN" in
                  let done := match lastToday with Some _ => true | None => false end in
                  PreviewOk
                    {| pv_student_id := m_student_id qr;
                       pv_firstName := m_first_name qr;
                       pv_lastName := m_last_name qr;
                       pv_body := body;
                       pv_smsAllowed := smsAllowed env db req;
                       pv_headcountOnly := suppressByHeadcount req;
                       pv_alreadyCheckedInToday := isIn && done;
                       pv_lastCheckInAt := if isIn then lastAt else None;
                       pv_alreadyCheckedOutToday := negb isIn && done;
                       pv_lastCheckOutAt := if isIn then None else lastAt;
                       pv_alreadyDoneToday := done;
                       pv_lastActionAt := lastAt |}
              end
          end
    end.

Example preview_sample :
  match previewScan sampleEnv (scanOf adaToken "check_out")
          (withScanEvent sampleDb [earlierScan 1 "CHECK_OUT" (20000 * day + 1000)]) with
  | PreviewOk b =>
      pv_body b = "Ada Lovelace has checked in at 7:04 pm AEST on Fri, 15 Aug 2025."
      /\ pv_alreadyCheckedOutToday b = true /\ pv_alreadyCheckedInToday b = false
      /\ pv_lastCheckOutAt b = Some "1728000001000"
  | _ => False
  end.
Proof. vm_compute. repeat split. Qed.

(** Under a zone that [Intl] does not know the preview fails, while a
    headcount-only recheck is recorded and answered 200. *)
Example preview_unknown_zone :
  previewScan sampleEnv (recheckOf adaToken "CHECK_IN") marsDb = PreviewError
  /\ statusOf (fst (fst (handleScan sampleEnv
                           {| qrCode := JStr adaToken; type := JStr "CHECK_IN";
                              messageOverride := JUndefined; recheck := JBool true;
                              headcountOnly := JBool true; user_id := Some 3 |}
                           marsDb))) = 200.
Proof. vm_compute. split; reflexivity. Qed.

Lemma afterResolve_status env req db qr :
  statusOf (fst (fst (afterResolve env req db qr)))
  = match sameDayGuard env db req qr with
    | Throw => 500
    | Normal (Some _) => 409
    | Normal None =>
        if isDuplicate env db req qr then 200
        else if messageFails env req db qr then 500 else 200
    end.
Proof.
  unfold afterResolve. destruct (sameDayGuard env db req qr) as [[last|]|];
    [reflexivity| |reflexivity].
  cbv zeta. destruct (isDuplicate env db req qr); [reflexivity|].
  apply notifyGuardians_status.
Qed.

(** After the checks [handleScan] answers no 4xx but the 409 of the guard. *)
Lemma afterResolve_not_failure env req db qr status error :
  fst (fst (afterResolve env req db qr)) <> Failure status error.
Proof.
  unfold afterResolve. destruct (sameDayGuard env db req qr) as [[last|]|];
    [discriminate| |discriminate].
  cbv zeta. destruct (isDuplicate env db req qr); [discriminate|].
  unfold notifyGuardians.
  destruct (negb (smsAllowed env db req) || _); [discriminate|].
  destruct (composeBody _ _ _ _ _ _ _) as [body|]; [|discriminate].
  destruct (hasNul body); [discriminate|].
  unfold sendAndLog. destruct (sendSmsMany env _); discriminate.
Qed.

(** X8.  [previewScan] answers 400 or 404 exactly for the requests that
    [handleScan] answers so, with the same status and error.  It fails (500)
    exactly when the request passes the input checks and either the token
    holds code unit 0 or the token resolves to an ACTIVE student and the
    renderer throws or the database does not know the configured zone.  When
    it accepts, it reports the value of [smsAllowed] that [handleScan] uses;
    for a request that is no recheck [alreadyDoneToday] is true exactly when
    [handleScan] answers 409, [lastActionAt] being the time given in that
    answer; and when [alreadyDoneToday] is false or the request is a recheck,
    [handleScan] answers 200, or 500 when the message to the guardians cannot
    be composed or logged. *)
Theorem previewScan_predicts_handleScan (env : ScanEnv) (req : ScanRequest) (db : Db) :
  (forall status error,
     previewScan env req db = PreviewFailure status error
     <-> fst (fst (handleScan env req db)) = Failure status error)
  /\ (previewScan env req db = PreviewError
      <-> wellFormed req
          /\ (hasNul (toStringV (qrCode req)) = true
              \/ exists qr,
                   resolved req db qr
                   /\ (previewBody env req db qr = Throw
                       \/ zoneInDb env (timezone (getOrgSettings env db)) = false)))
  /\ (forall b, previewScan env req db = PreviewOk b ->
        pv_smsAllowed b = smsAllowed env db req
        /\ zoneInDb env (timezone (getOrgSettings env db)) = true
        /\ (pv_alreadyDoneToday b = false \/ wantRecheck req = true ->
            statusOf (fst (fst (handleScan env req db))) = 200
            \/ (statusOf (fst (fst (handleScan env req db))) = 500
                /\ exists qr, resolved req db qr /\ messageFails env req db qr = true))
        /\ (wantRecheck req = false ->
            (pv_alreadyDoneToday b = true
             <-> statusOf (fst (fst (handleScan env req db))) = 409)
            /\ forall error lastAt,
                 fst (fst (handleScan env req db)) = AlreadyToday error lastAt ->
                 pv_lastActionAt b = Some lastAt)).
Proof.
  unfold previewScan, handleScan, resolved, wellFormed.
  destruct (negb (truthyV (qrCode req)) || negb (truthyV (type req))) eqn:Hfields.
  { split; [intros st e; cbn; split; intros [= <- <-]; reflexivity|].
    split; [|discriminate]. split; [discriminate|].
    intros ((Hq & Ht & _) & _). rewrite Hq, Ht in Hfields. discriminate Hfields. }
  destruct (negb (isScanType (typeOf req))) eqn:Htype.
  { split; [intros st e; cbn; split; intros [= <- <-]; reflexivity|].
    split; [|discriminate]. split; [discriminate|].
    intros ((_ & _ & Hty) & _). rewrite Hty in Htype. discriminate Htype. }
  apply orb_false_elim in Hfields as [Hq Ht].
  apply negb_false_iff in Hq, Ht, Htype.
  unfold resolveQr.
  destruct (hasNul (toStringV (qrCode req))) eqn:Hnul.
  { split; [intros st e; cbn; split; discriminate|].
    split; [|discriminate]. split; [|reflexivity]. intros _. auto. }
  destruct (qrRows db (toStringV (qrCode req))) as [|qr others] eqn:Hrows.
  { split; [intros st e; cbn; split; intros [= <- <-]; reflexivity|].
    split; [|discriminate]. split; [discriminate|].
    intros (_ & [Hn | (qr & (_ & Hres & _) & _)]); discriminate. }
  destruct (negb (String.eqb (m_status qr) "ACTIVE")) eqn:Hact.
  { split; [intros st e; cbn; split; intros [= <- <-]; reflexivity|].
    split; [|discriminate]. split; [discriminate|].
    intros (_ & [Hn | (qr' & (_ & [= <-] & Hst) & _)]); [discriminate|].
    rewrite Hst in Hact. discriminate Hact. }
  apply negb_false_iff, String.eqb_eq in Hact.
  fold (afterResolve env req db qr).
  pose proof (afterResolve_status env req db qr) as Hstatus.
  pose proof (afterResolve_not_failure env req db qr) as Hnot.
  unfold sameDayGuard in Hstatus. unfold getTodayOfType in *.
  assert (Hresolved : wellFormed req
                      /\ Normal (match qrRows db (toStringV (qrCode req)) with
                                 | m :: _ => Some m
                                 | [] => None
                                 end) = Normal (Some qr)
                      /\ m_status qr = "ACTIVE").
  { rewrite Hrows. repeat split; assumption. }
  unfold wellFormed in Hresolved. rewrite Hrows in Hresolved.
  destruct (previewBody env req db qr) as [body|] eqn:Hbody.
  2:{ split; [intros st e; split; [discriminate|]; intros Hf; exfalso;
              exact (Hnot st e Hf)|].
      split; [|discriminate]. split; [|reflexivity]. intros _.
      split; [auto|]. right. exists qr. split; [exact Hresolved|]. left.
      first [reflexivity | exact Hbody]. }
  destruct (zoneInDb env (timezone (getOrgSettings env db))) eqn:Hzone.
  2:{ split; [intros st e; split; [discriminate|]; intros Hf; exfalso;
              exact (Hnot st e Hf)|].
      split; [|discriminate]. split; [|reflexivity]. intros _.
      split; [auto|]. right. exists qr. split; [exact Hresolved|]. right.
      first [reflexivity | exact Hzone]. }
  remember (latestScan (scansToday env db (m_student_id qr) (typeOf req)
                          (timezone (getOrgSettings env db)))) as today eqn:Htoday.
  split; [intros st e; split; [discriminate|]; intros Hf; exfalso; exact (Hnot st e Hf)|].
  split.
  { split; [discriminate|].
    intros (_ & [Hn | (qr' & (_ & [= <-] & _) & [Hthrow | Hz])]);
      [discriminate Hn | rewrite Hbody in Hthrow; discriminate Hthrow | discriminate Hz]. }
  intros b [= <-]. cbn [pv_smsAllowed pv_alreadyDoneToday pv_lastActionAt].
  split; [reflexivity|]. split; [reflexivity|].
  assert (Hfails : forall st : Z,
            st = (if isDuplicate env db req qr then 200
                  else if messageFails env req db qr then 500 else 200) ->
            st = 200
            \/ (st = 500
                /\ exists qr0,
                     ((truthyV (qrCode req) = true /\ truthyV (type req) = true
                       /\ isScanType (typeOf req) = true)
                      /\ Normal (Some qr) = Normal (Some qr0)
                      /\ m_status qr0 = "ACTIVE")
                     /\ messageFails env req db qr0 = true)).
  { intros st ->. destruct (isDuplicate env db req qr); [left; reflexivity|].
    destruct (messageFails env req db qr) eqn:Hmf; [|left; reflexivity].
    right. split; [reflexivity|]. exists qr. split; [exact Hresolved|exact Hmf]. }
  destruct (wantRecheck req) eqn:Hre.
  - split; [intros _; apply Hfails, Hstatus|]. discriminate.
  - split; [|intros _; split].
    + intros [Hdone | Hr]; [|discriminate Hr].
      destruct today; [discriminate Hdone|]. apply Hfails, Hstatus.
    + rewrite Hstatus. destruct today; [split; reflexivity|].
      split; [discriminate|].
      destruct (isDuplicate env db req qr); [discriminate|].
      destruct (messageFails env req db qr); discriminate.
    + intros error lastAt Hf. unfold afterResolve, sameDayGuard, getTodayOfType in Hf.
      rewrite Hre, Hzone, <- Htoday in Hf.
      destruct today.
      * injection Hf as _ <-. reflexivity.
      * cbv zeta in Hf. destruct (isDuplicate env db req qr); [discriminate Hf|].
        unfold notifyGuardians in Hf.
        destruct (negb (smsAllowed env db req) || _); [discriminate Hf|].
        destruct (composeBody _ _ _ _ _ _ _) as [body'|]; [|discriminate Hf].
        destruct (hasNul body'); [discriminate Hf|].
        unfold sendAndLog in Hf. destruct (sendSmsMany env _); discriminate Hf.
Qed.

(** The theorem on a second check-out of the day. *)
Lemma previewScan_predicts_handleScan_witness :
  let db := withScanEvent sampleDb [earlierScan 1 "CHECK_OUT" (20000 * day + 1000)] in
  let req := scanOf adaToken "check_out" in
  exists b,
    previewScan sampleEnv req db = PreviewOk b
    /\ pv_alreadyDoneToday b = true
    /\ statusOf (fst (fst (handleScan sampleEnv req db))) = 409.
Proof.
  cbv zeta.
  destruct (previewScan sampleEnv (scanOf adaToken "check_out")
              (withScanEvent sampleDb [earlierScan 1 "CHECK_OUT" (20000 * day + 1000)]))
    as [st e| |b] eqn:Hp; [discriminate Hp|discriminate Hp|].
  exists b.
  destruct (previewScan_predicts_handleScan sampleEnv (scanOf adaToken "check_out")
              (withScanEvent sampleDb [earlierScan 1 "CHECK_OUT" (20000 * day + 1000)]))
    as (_ & _ & Hok).
  destruct (Hok b Hp) as (_ & _ & _ & Hguard).
  destruct (Hguard eq_refl) as [Hiff _].
  assert (Hdone : pv_alreadyDoneToday b = true) by (injection Hp as <-; reflexivity).
  split; [reflexivity|]. split; [exact Hdone | apply Hiff, Hdone].
Defined.

(** X9.  When a template text is stored for the scan type, the body shown by
    the preview is the body that [handleScan] logs and sends for the same
    request without an override (both read the same clock). *)
Theorem previewScan_body_is_sent_body (env : ScanEnv) (req : ScanRequest) (db : Db)
    (b : Preview) (log : MessageLogRow) (text : string) (others : list (string * string)) :
  previewScan env req db = PreviewOk b ->
  overrideOf req = None ->
  List.filter (fun kv => String.eqb (fst kv) (typeOf req)) (message_template db)
  = (typeOf req, text) :: others ->
  text <> "" ->
  In log (message_log (snd (fst (handleScan env req db)))) ->
  ~ In log (message_log db) ->
  ml_body_rendered log = pv_body b
  /\ Forall (Forall (fun i => item_body i = pv_body b)) (snd (handleScan env req db)).
Proof.
  intros Hp Ho Htpl Hne Hin Hnew.
  pose proof (handleScan_outcome env req db) as H.
  destruct (handleScan env req db) as [[res db'] calls]. cbn [fst snd] in *.
  inversion H; subst;
    cbn [message_log notified recorded withMessages withScanEvent] in Hin;
    try contradiction.
  apply in_app_or in Hin as [Hin | [<- | []]]; [contradiction|].
  match goal with Hr : resolved _ _ _ |- _ => destruct Hr as ((Hq & Ht & Hty) & Hres & Hact) end.
  match goal with Hc : composed _ _ _ _ = Normal _ |- _ => rename Hc into Hbody end.
  unfold previewScan in Hp. rewrite Hq, Ht, Hty, Hres, Hact in Hp. cbn [negb orb] in Hp.
  assert (Hsame : previewTemplateText db (typeOf req) = templateText db (typeOf req)).
  { unfold previewTemplateText, templateText. rewrite Htpl. cbn [snd SmsRenderer.orElse].
    destruct text; [congruence|reflexivity]. }
  assert (Hpreview : previewBody env req db qr = Normal (bodyOf env req db qr)).
  { rewrite <- Hbody. unfold previewBody, composed, composeBody. rewrite Ho, Hsame.
    reflexivity. }
  rewrite Hpreview in Hp.
  destruct (getTodayOfType env db (m_student_id qr) (typeOf req)
              (timezone (getOrgSettings env db))) as [lastToday|]; [|discriminate Hp].
  injection Hp as <-. cbn [pv_body ml_body_rendered logRow].
  split; [reflexivity|]. constructor; [|constructor]. unfold smsItems.
  apply Forall_forall.
  intros i (g & <- & _)%list_elem_of_In%in_map_iff. reflexivity.
Qed.

(** A centre with a stored check-in template. *)
Definition templateDb : Db :=
  {| qr_code := qr_code sampleDb; student := student sampleDb;
     scan_event := []; guardian := guardian sampleDb;
     student_guardian := student_guardian sampleDb;
     message_template := [("CHECK_IN", "{student.firstName} arrived at {time}.")];
     message_log := []; message_recipient := [];
     setting_center_profile := None; setting_sms_policy := None |}.

(** The theorem on Ada's check-in at that centre. *)
Lemma previewScan_body_is_sent_body_witness :
  exists b,
    previewScan sampleEnv (scanOf adaToken "CHECK_IN") templateDb = PreviewOk b
    /\ Forall (Forall (fun i => item_body i = pv_body b))
         (snd (handleScan sampleEnv (scanOf adaToken "CHECK_IN") templateDb))
    /\ pv_body b = "Ada arrived at 7:04 pm AEST.".
Proof.
  destruct (previewScan sampleEnv (scanOf adaToken "CHECK_IN") templateDb)
    as [st e| |b] eqn:Hp; [discriminate Hp|discriminate Hp|].
  exists b. split; [reflexivity|]. split.
  - eapply (previewScan_body_is_sent_body sampleEnv (scanOf adaToken "CHECK_IN") templateDb b
              {| ml_id := 201; ml_student_id := 1; ml_trigger_type := "SCAN";
                 ml_scan_event_id := 101; ml_template_key := Some "CHECK_IN";
                 ml_body_rendered := "Ada arrived at 7:04 pm AEST.";
                 ml_created_by := Some 3 |}).
    + exact Hp.
    + reflexivity.
    + reflexivity.
    + discriminate.
    + left. reflexivity.
    + intros [].
  - injection Hp as <-. reflexivity.
Defined.

End ScanFlow.

(** ** Today's statistics: what the counters and the map hold *)

Module StatsFacts.
Import Js Stats.

(** The map the loop of [getTodayStats] ends with. *)
Definition latestAfter (rows : list StatRow) : gmap Z (Z * string) :=
  latestByStudent (fold_left step rows initial).

Lemma fold_step_snoc rows r c :
  fold_left step (rows ++ [r]) c = step (fold_left step rows c) r.
Proof. rewrite fold_left_app. reflexivity. Qed.

Lemma counters_bounded rows :
  let c := fold_left step rows initial in
  (nonSmsIn c <= todayIn c)%nat /\ (nonSmsOut c <= todayOut c)%nat
  /\ (todayIn c + todayOut c <= length rows)%nat.
Proof.
  cbv zeta. induction rows as [|r rows IH] using rev_ind; [cbn; lia|].
  rewrite fold_step_snoc, length_app. cbn [length].
  destruct IH as (H1 & H2 & H3).
  set (c := fold_left step rows initial) in *. unfold step.
  cbn [todayIn todayOut nonSmsIn nonSmsOut].
  destruct (String.eqb (toUpperCase (row_type r)) "CHECK_IN");
    destruct (String.eqb (toUpperCase (row_type r)) "CHECK_OUT");
    destruct (row_has_message r); cbn [negb andb]; lia.
Qed.

(** X10.  In the response of [getTodayStats] the scans without a message are
    counted among the scans of their type ([nonSmsIn <= todayIn],
    [nonSmsOut <= todayOut]), and check-ins and check-outs together are at most
    the rows read, so [nonSmsTotal] is at most the number of rows. *)
Theorem getTodayStats_counts (rows : list StatRow) :
  let s := getTodayStats rows in
  (res_nonSmsIn s <= res_todayIn s)%nat
  /\ (res_nonSmsOut s <= res_todayOut s)%nat
  /\ (res_todayIn s + res_todayOut s <= length rows)%nat
  /\ (res_nonSmsTotal s <= length rows)%nat.
Proof.
  cbv zeta. unfold getTodayStats.
  cbn [res_nonSmsIn res_todayIn res_nonSmsOut res_todayOut res_nonSmsTotal].
  pose proof (counters_bounded rows) as H. cbv zeta in H. lia.
Qed.

(** X11.  After the loop of [getTodayStats] the map holds an entry exactly
    for the students that have a row; the entry's time is the greatest
    [scanned_at] among the student's rows, whatever the order of the rows, and
    its type is the upper-cased type of a row of the student with that time.
    [onCampusToday] is the number of entries of type CHECK_IN. *)
Theorem getTodayStats_latest (rows : list StatRow) :
  (forall sid, latestAfter rows !! sid = None
               <-> forall r, In r rows -> row_student_id r <> sid)
  /\ (forall sid ts type, latestAfter rows !! sid = Some (ts, type) ->
        (exists r, In r rows /\ row_student_id r = sid /\ row_scanned_at r = ts
                   /\ toUpperCase (row_type r) = type)
        /\ forall r, In r rows -> row_student_id r = sid -> row_scanned_at r <= ts)
  /\ res_onCampusToday (getTodayStats rows)
     = size (filter (fun kv : Z * (Z * string) => snd (snd kv) = "CHECK_IN")
               (latestAfter rows)).
Proof.
  split; [|split].
  - unfold latestAfter. induction rows as [|r rows IH] using rev_ind.
    + intros sid. cbn. rewrite lookup_empty. split; [intros _ r []|reflexivity].
    + intros sid. rewrite fold_step_snoc. unfold step at 1. cbn [latestByStudent].
      set (m := latestByStudent (fold_left step rows initial)) in *.
      assert (Hstep : (if match m !! row_student_id r with
                          | Some (prevTs, _) => prevTs <? row_scanned_at r
                          | None => true
                          end
                       then <[row_student_id r := (row_scanned_at r,
                                                    toUpperCase (row_type r))]> m
                       else m) !! sid = None
                      <-> m !! sid = None /\ row_student_id r <> sid).
      { destruct (decide (row_student_id r = sid)) as [<-|Hne].
        - destruct (m !! row_student_id r) as [[p t]|] eqn:Hm.
          + destruct (p <? row_scanned_at r).
            * rewrite lookup_insert_eq. split; [discriminate|intros [_ []]; reflexivity].
            * rewrite Hm. split; [discriminate|intros [_ []]; reflexivity].
          + rewrite lookup_insert_eq. split; [discriminate|intros [_ []]; reflexivity].
        - destruct (match m !! row_student_id r with
                    | Some (prevTs, _) => prevTs <? row_scanned_at r
                    | None => true
                    end).
          + rewrite lookup_insert_ne by exact Hne. tauto.
          + tauto. }
      rewrite Hstep, IH. split.
      * intros [Hall Hne] x [Hx | [<- | []]]%in_app_or; auto.
      * intros Hall. split; [intros x Hx|]; apply Hall, in_or_app; [left|right; left];
          auto.
  - unfold latestAfter. induction rows as [|r rows IH] using rev_ind.
    + intros sid ts type. cbn. rewrite lookup_empty. discriminate.
    + intros sid ts type. rewrite fold_step_snoc. unfold step at 1. cbn [latestByStudent].
      set (m := latestByStudent (fold_left step rows initial)) in *.
      assert (Hold : m !! sid = Some (ts, type) ->
                (row_student_id r = sid -> row_scanned_at r <= ts) ->
                (exists x, In x (rows ++ [r]) /\ row_student_id x = sid
                           /\ row_scanned_at x = ts /\ toUpperCase (row_type x) = type)
                /\ forall x, In x (rows ++ [r]) -> row_student_id x = sid ->
                             row_scanned_at x <= ts).
      { intros Hm Hr. destruct (IH sid ts type Hm) as [(x & Hx & Hxs) Hmax]. split.
        - exists x. split; [apply in_or_app; left; exact Hx | exact Hxs].
        - intros y [Hy | [<- | []]]%in_app_or; auto. }
      destruct (decide (row_student_id r = sid)) as [Hsid|Hne].
      * destruct (m !! row_student_id r) as [[p t]|] eqn:Hm.
        -- destruct (p <? row_scanned_at r) eqn:Hlt.
           ++ rewrite Hsid, lookup_insert_eq. intros [= <- <-].
              apply Z.ltb_lt in Hlt. rewrite Hsid in Hm.
              destruct (IH sid p t Hm) as [_ Hmax]. split.
              ** exists r. split; [apply in_or_app; right; left; reflexivity|auto].
              ** intros y [Hy | [<- | []]]%in_app_or Hys; [|lia].
                 specialize (Hmax y Hy Hys). lia.
           ++ apply Z.ltb_ge in Hlt. intros Hl. apply Hold; [exact Hl|].
              intros _. rewrite Hsid, Hl in Hm. injection Hm as <- _. exact Hlt.
        -- rewrite Hsid, lookup_insert_eq. intros [= <- <-].
           assert (Hnone : forall y, In y rows -> row_student_id y <> sid).
           { clear - Hm Hsid. subst sid. revert Hm. subst m.
             induction rows as [|y rows IH] using rev_ind; [intros _ z []|].
             rewrite fold_step_snoc. unfold step at 1. cbn [latestByStudent].
             set (m := latestByStudent (fold_left step rows initial)) in *.
             intros Hm z [Hz | [<- | []]]%in_app_or.
             - apply IH; [|exact Hz].
               destruct (match m !! row_student_id y with
                         | Some (prevTs, _) => prevTs <? row_scanned_at y
                         | None => true
                         end); [|exact Hm].
               destruct (decide (row_student_id y = row_student_id r)) as [He|Hne].
               + rewrite He, lookup_insert_eq in Hm. discriminate Hm.
               + rewrite lookup_insert_ne in Hm by exact Hne. exact Hm.
             - intros He.
               destruct (m !! row_student_id y) as [[p t]|] eqn:Hz.
               + destruct (p <? row_scanned_at y).
                 * rewrite He, lookup_insert_eq in Hm. discriminate Hm.
                 * rewrite <- He, Hz in Hm. discriminate Hm.
               + rewrite He, lookup_insert_eq in Hm. discriminate Hm. }
           split.
           ++ exists r. split; [apply in_or_app; right; left; reflexivity|auto].
           ++ intros y [Hy | [<- | []]]%in_app_or Hys; [|lia].
              exfalso. exact (Hnone y Hy Hys).
      * intros Hl. apply Hold; [|intros He; contradiction].
        destruct (match m !! row_student_id r with
                  | Some (prevTs, _) => prevTs <? row_scanned_at r
                  | None => true
                  end); [|exact Hl].
        rewrite lookup_insert_ne in Hl by exact Hne. exact Hl.
  - unfold getTodayStats, latestAfter. cbn [res_onCampusToday].
    apply countOnCampus_size.
Qed.

End StatsFacts.

(** ** Recent scans (scanController.js, getRecentScans) *)

Module Recent.
Import Js Scan.

(** Longest prefix of decimal digits. *)
Fixpoint digitsPrefix (s : string) : list ascii :=
  match s with
  | String c r => if isDigit c then c :: digitsPrefix r else []
  | EmptyString => []
  end.

Definition digitsValue (ds : list ascii) : Z :=
  fold_left (fun n c => 10 * n + (Z.of_nat (code c) - 48)) ds 0.

(** [parseInt(text, 10)] as an integer; [None] is NaN.  Leading white space
    is skipped, a sign is read, then the longest run of digits. *)
Definition parseInt10 (text : string) : option Z :=
  let s := trimStart text in
  let '(negative, rest) :=
    match s with
    | String c r =>
        if Ascii.eqb c "-"%char then (true, r)
        else if Ascii.eqb c "+"%char then (false, r)
        else (false, s)
    | EmptyString => (false, s)
    end in
  match digitsPrefix rest with
  | [] => None
  | ds => Some (if negative then - digitsValue ds else digitsValue ds)
  end.

(** The limit of [getRecentScans]:
    [parseInt(String(req.query.limit || 40), 10)], then
    [Number.isFinite(raw) ? Math.max(1, Math.min(100, raw)) : 40].
    [finite n] says whether the number that [parseInt] gives for the integer
    [n] is finite (it is not when [n] lies beyond the range of doubles). *)
Definition limitOf (finite : Z -> bool) (limit : option string) : Z :=
  let text := SmsRenderer.orElse limit "40" in
  match parseInt10 text with
  | Some raw => if finite raw then Z.max 1 (Z.min 100 raw) else 40
  | None => 40
  end.

(** A row of the answer (the student's date of birth left out). *)
Record RecentItem := {
  ri_id : Z;
  ri_student_id : Z;
  ri_type : string;
  ri_scanned_at : Z;
  ri_was_duplicate : bool;
  ri_headcountOnly : bool;
  ri_has_message : bool;
  ri_student_first : option string;
  ri_student_last : option string;
}.

Definition recentItem (e : ScanEventRow) (s : StudentRow) (hasMessage : bool) : RecentItem :=
  {| ri_id := se_id e; ri_student_id := se_student_id e; ri_type := se_type e;
     ri_scanned_at := se_scanned_at e; ri_was_duplicate := se_was_duplicate e;
     ri_headcountOnly := meta_headcountOnly (se_meta e);
     ri_has_message := hasMessage;
     ri_student_first := st_first_name s; ri_student_last := st_last_name s |}.

(** [scan_event se JOIN student s ON s.id = se.student_id
     LEFT JOIN message_log ml ON ml.scan_event_id = se.id] *)
Definition joinedScans (db : Db) : list RecentItem :=
  flat_map
    (fun e =>
       flat_map
         (fun s =>
            match List.filter (fun ml => ml_scan_event_id ml =? se_id e) (message_log db) with
            | [] => [recentItem e s false]
            | logs => map (fun _ => recentItem e s true) logs
            end)
         (List.filter (fun s => st_id s =? se_student_id e) (student db)))
    (scan_event db).

(** [ORDER BY se.scanned_at DESC]: later scans first. *)
Definition laterFirst (a b : RecentItem) : Prop := ri_scanned_at b <= ri_scanned_at a.

Local Instance laterFirst_dec a b : Decision (laterFirst a b).
Proof. unfold laterFirst. apply _. Defined.

(** [getRecentScans]: the items of the answer. *)
Definition getRecentScans (finite : Z -> bool) (limit : option string) (db : Db)
  : list RecentItem :=
  take (Z.to_nat (limitOf finite limit)) (merge_sort laterFirst (joinedScans db)).

Example limit_samples :
  limitOf (fun _ => true) None = 40 /\ limitOf (fun _ => true) (Some "") = 40
  /\ limitOf (fun _ => true) (Some "abc") = 40
  /\ limitOf (fun _ => true) (Some " 7 rows") = 7
  /\ limitOf (fun _ => true) (Some "0") = 1
  /\ limitOf (fun _ => true) (Some "-5") = 1
  /\ limitOf (fun _ => true) (Some "1000") = 100
  /\ limitOf (fun _ => false) (Some "1000") = 40.
Proof. repeat split. Qed.

Local Instance laterFirst_total : Total laterFirst.
Proof. intros a b. unfold laterFirst. lia. Qed.

Local Instance laterFirst_trans : Transitive laterFirst.
Proof. intros a b c. unfold laterFirst. lia. Qed.

Lemma limitOf_range finite limit : 1 <= limitOf finite limit <= 100.
Proof.
  unfold limitOf. destruct (parseInt10 _) as [raw|]; [|lia].
  destruct (finite raw); lia.
Qed.

Lemma joinedScans_spec db it :
  In it (joinedScans db) ->
  exists e s,
    In e (scan_event db) /\ In s (student db) /\ st_id s = se_student_id e
    /\ it = recentItem e s (ri_has_message it)
    /\ (ri_has_message it = true
        <-> exists ml, In ml (message_log db) /\ ml_scan_event_id ml = se_id e).
Proof.
  unfold joinedScans. intros (e & He & Hit)%in_flat_map.
  apply in_flat_map in Hit as (s & Hs & Hit).
  apply filter_In in Hs as [Hs Hid]. apply Z.eqb_eq in Hid.
  exists e, s. split; [exact He|]. split; [exact Hs|]. split; [exact Hid|].
  destruct (List.filter (fun ml => ml_scan_event_id ml =? se_id e) (message_log db))
    as [|ml logs] eqn:Hf.
  - destruct Hit as [<- | []]. split; [reflexivity|]. cbn [ri_has_message recentItem].
    split; [discriminate|]. intros (ml & Hml & Hid').
    assert (Hin : In ml (List.filter (fun ml => ml_scan_event_id ml =? se_id e)
                           (message_log db))).
    { apply filter_In. split; [exact Hml|]. apply Z.eqb_eq, Hid'. }
    rewrite Hf in Hin. destruct Hin.
  - apply in_map_iff in Hit as (x & <- & _). split; [reflexivity|].
    cbn [ri_has_message recentItem]. split; [|reflexivity]. intros _.
    assert (Hin : In ml (List.filter (fun ml => ml_scan_event_id ml =? se_id e)
                           (message_log db))) by (rewrite Hf; left; reflexivity).
    apply filter_In in Hin as [Hin Hid']. apply Z.eqb_eq in Hid'. eauto.
Qed.

(** X12.  The limit of [getRecentScans] always lies between 1 and 100 (40
    when the parameter is absent, empty or no number): the answer holds at
    most that many items, later scans first; every item is a scan event of
    the table joined with its student, and its [has_message] flag is true
    exactly when a message log refers to the scan. *)
Theorem getRecentScans_bounded (finite : Z -> bool) (limit : option string) (db : Db) :
  1 <= limitOf finite limit <= 100
  /\ Z.of_nat (length (getRecentScans finite limit db)) <= limitOf finite limit
  /\ (length (getRecentScans finite limit db) <= length (joinedScans db))%nat
  /\ StronglySorted laterFirst (getRecentScans finite limit db)
  /\ (forall it, In it (getRecentScans finite limit db) ->
        exists e s,
          In e (scan_event db) /\ In s (student db) /\ st_id s = se_student_id e
          /\ it = recentItem e s (ri_has_message it)
          /\ (ri_has_message it = true
              <-> exists ml, In ml (message_log db) /\ ml_scan_event_id ml = se_id e))
  /\ (limit = None \/ limit = Some "" \/ (exists s, limit = Some s /\ parseInt10 s = None)
      -> limitOf finite limit = 40).
Proof.
  pose proof (limitOf_range finite limit) as Hr. unfold getRecentScans.
  split; [exact Hr|]. split; [rewrite length_take; lia|].
  split.
  { rewrite length_take, (Permutation_length (merge_sort_Permutation laterFirst _)). lia. }
  split.
  { pose proof (StronglySorted_merge_sort laterFirst (joinedScans db)) as Hs.
    rewrite <- (take_drop (Z.to_nat (limitOf finite limit))
                  (merge_sort laterFirst (joinedScans db))) in Hs.
    apply StronglySorted_app in Hs. apply Hs. }
  split.
  { intros it Hin. apply joinedScans_spec.
    apply list_elem_of_In.
    rewrite <- (merge_sort_Permutation laterFirst (joinedScans db)).
    apply list_elem_of_In in Hin. apply elem_of_take in Hin as (i & Hi & _).
    eapply list_elem_of_lookup_2, Hi. }
  assert (Hdefault : match parseInt10 "40" with
                     | Some raw => if finite raw then Z.max 1 (Z.min 100 raw) else 40
                     | None => 40
                     end = 40).
  { change (parseInt10 "40") with (Some 40). cbv beta iota.
    destruct (finite 40); reflexivity. }
  intros [-> | [-> | (s & -> & Hs)]]; try exact Hdefault.
  unfold limitOf. destruct s; [exact Hdefault|].
  cbn [SmsRenderer.orElse truthy]. rewrite Hs. reflexivity.
Qed.

End Recent.

(** ** Unlinking and deleting (studentController.js, guardianController.js) *)

Module People.
Import Schema Links Scan.

(** The answers of [unlinkGuardian]: 200, 400, 404 and, when the statement
    fails, the 500 of the error handler. *)
Inductive UnlinkResponse := UnlinkOk | UnlinkInvalidIds | UnlinkNotFound | UnlinkError.

(** [unlinkGuardian]: [DELETE FROM student_guardian WHERE student_id = $1 AND
    guardian_id = $2], 404 when no row was deleted.  [id] and [gid] are
    [Number(req.params.id)] and [Number(req.params.gid)], [None] for NaN.
    The statement fails for a number that the id columns do not hold. *)
Definition unlinkGuardian `{IdColumn} (table : list LinkRow) (id gid : option Z)
  : UnlinkResponse * list LinkRow :=
  match id, gid with
  | Some s, Some g =>
      if (s =? 0) || (g =? 0) then (UnlinkInvalidIds, table)
      else if negb (holds s && holds g) then (UnlinkError, table)
      else
        let table' := otherRows s g table in
        if (length (rowsOf s g table) =? 0)%nat then (UnlinkNotFound, table')
        else (UnlinkOk, table')
  | _, _ => (UnlinkInvalidIds, table)
  end.

(** The tables of a database with the three tables of people replaced. *)
Definition withPeople (db : Db) (students : list StudentRow) (guardians : list GuardianRow)
    (links : list LinkRow) : Db :=
  {| qr_code := qr_code db; student := students; scan_event := scan_event db;
     guardian := guardians; student_guardian := links;
     message_template := message_template db; message_log := message_log db;
     message_recipient := message_recipient db;
     setting_center_profile := setting_center_profile db;
     setting_sms_policy := setting_sms_policy db |}.

(** [[...new Set(ids)]] *)
Fixpoint distinctIds (l : list Z) : list Z :=
  match l with
  | [] => []
  | x :: r => x :: List.filter (fun y => negb (x =? y)) (distinctIds r)
  end.

Inductive DeleteResponse :=
| DeleteInvalidId
| DeleteNotFound
| DeleteError
| Deleted (deletedStudentId : Z) (deletedGuardianIds : list Z).

(** One round of the loop of [deleteStudent] over the guardian ids: the
    guardian is deleted when no link of the table refers to it any more. *)
Definition dropOrphan (links : list LinkRow) (acc : list GuardianRow * list Z) (gid : Z)
  : list GuardianRow * list Z :=
  let '(guardians, deleted) := acc in
  if Nat.eqb (length (List.filter (fun sg => sg_guardian_id sg =? gid) links)) 0
  then (List.filter (fun g => negb (g_id g =? gid)) guardians, deleted ++ [gid])
  else (guardians, deleted).

(** [deleteStudent].  The first statement fails for a number that the id
    columns do not hold, before anything is written, and the error handler
    answers 500; otherwise the statements are taken to succeed and to change
    the table they name only; the audit log is left out.  BEGIN and ROLLBACK
    go through the pool like every statement: [atomic] says whether they
    bracketed the others in one transaction, so that ROLLBACK undoes them. *)
Definition deleteStudent `{IdColumn} (atomic : bool) (db : Db) (id : option Z)
  : DeleteResponse * Db :=
  match id with
  | None => (DeleteInvalidId, db)
  | Some id =>
      if id =? 0 then (DeleteInvalidId, db)
      else if negb (holds id) then (DeleteError, db)
      else
        let guardianIds :=
          distinctIds
            (map sg_guardian_id
               (List.filter (fun sg => sg_student_id sg =? id) (student_guardian db))) in
        let links := List.filter (fun sg => negb (sg_student_id sg =? id))
                       (student_guardian db) in
        let found := existsb (fun s => st_id s =? id) (student db) in
        let students := List.filter (fun s => negb (st_id s =? id)) (student db) in
        if negb found then
          (DeleteNotFound,
           if atomic then db else withPeople db students (guardian db) links)
        else
          let '(guardians, deleted) :=
            fold_left (dropOrphan links) guardianIds (guardian db, []) in
          (Deleted id deleted, withPeople db students guardians links)
  end.

Inductive DeleteGuardianResponse :=
| GuardianInvalidId
| GuardianNotFound
| GuardianError
| GuardianDeleted.

(** [deleteGuardian]; [id] is [Number(req.params.id)], [None] when it is no
    integer.  The first statement fails for a number that the id columns do
    not hold, and the error handler answers 500. *)
Definition deleteGuardian `{IdColumn} (db : Db) (id : option Z)
  : DeleteGuardianResponse * Db :=
  match id with
  | None => (GuardianInvalidId, db)
  | Some id =>
      if id <=? 0 then (GuardianInvalidId, db)
      else if negb (holds id) then (GuardianError, db)
      else if negb (existsb (fun g => g_id g =? id) (guardian db)) then
        (GuardianNotFound, db)
      else
        (GuardianDeleted,
         withPeople db (student db)
           (List.filter (fun g => negb (g_id g =? id)) (guardian db))
           (List.filter (fun sg => negb (sg_guardian_id sg =? id)) (student_guardian db)))
  end.

(** Every link refers to a student and to a guardian of the tables. *)
Definition linksResolve (db : Db) : Prop :=
  forall sg, In sg (student_guardian db) ->
    (exists s, In s (student db) /\ st_id s = sg_student_id sg)
    /\ (exists g, In g (guardian db) /\ g_id g = sg_guardian_id sg).

Example delete_sample :
  fst (@deleteStudent int4 true sampleDb (Some 1)) = Deleted 1 [5; 6; 7]
  /\ map g_id (guardian (snd (@deleteStudent int4 true sampleDb (Some 1)))) = [8]
  /\ map sg_student_id
       (student_guardian (snd (@deleteStudent int4 true sampleDb (Some 1)))) = [2].
Proof. repeat split. Qed.

(** Ids that no four-byte column holds: the handlers answer 500 and change
    nothing. *)
Example out_of_range_ids :
  @unlinkGuardian int4 (student_guardian sampleDb) (Some 1) (Some 4294967296)
  = (UnlinkError, student_guardian sampleDb)
  /\ @deleteStudent int4 false sampleDb (Some 2147483648) = (DeleteError, sampleDb)
  /\ @deleteGuardian int4 sampleDb (Some (2 ^ 63)) = (GuardianError, sampleDb).
Proof. repeat split. Qed.

Lemma rowsOf_otherRows_same s g table : rowsOf s g (otherRows s g table) = [].
Proof.
  unfold rowsOf, otherRows. induction table as [|r t IH]; [reflexivity|].
  cbn [List.filter]. destruct (sameLink s g r) eqn:Hr; cbn [negb]; [exact IH|].
  cbn [List.filter]. rewrite Hr. exact IH.
Qed.

Lemma rowsOf_otherRows_other s g s' g' table :
  (s', g') <> (s, g) -> rowsOf s' g' (otherRows s g table) = rowsOf s' g' table.
Proof.
  intros Hne. unfold rowsOf, otherRows. induction table as [|r t IH]; [reflexivity|].
  cbn [List.filter]. destruct (sameLink s g r) eqn:Hr; cbn [negb].
  - rewrite IH. destruct (sameLink s' g' r) eqn:Hr'; [|reflexivity].
    apply sameLink_key in Hr, Hr'. congruence.
  - cbn [List.filter]. rewrite IH. reflexivity.
Qed.

Lemma otherRows_absent s g table : rowsOf s g table = [] -> otherRows s g table = table.
Proof.
  unfold rowsOf, otherRows. induction table as [|r t IH]; [reflexivity|].
  cbn [List.filter]. destruct (sameLink s g r); [discriminate|].
  cbn [negb]. intros H. rewrite (IH H). reflexivity.
Qed.



Lemma guardiansOf_withPeople db students guardians links sid :
  guardiansOf (withPeople db students guardians links) sid
  = flat_map
      (fun g => if g_active g && g_phone_valid g
                then map (fun _ => g) (rowsOf sid (g_id g) links) else [])
      guardians.
Proof. reflexivity. Qed.

(** X14.  After a guardian has been unlinked from a student, scans of that
    student no longer select the guardian as a recipient, while the
    recipients of every other student are as before.  (The ids of the stored
    links are numbers that the id columns hold; the request may be one that
    the statement fails on.) *)
Theorem unlinked_guardian_not_notified `{IdColumn} (db : Db) (s g : Z) :
  let db' := withPeople db (student db) (guardian db)
               (snd (unlinkGuardian (student_guardian db) (Some s) (Some g))) in
  s <> 0 -> g <> 0 ->
  (forall sg, In sg (student_guardian db) ->
     holds (sg_student_id sg) = true /\ holds (sg_guardian_id sg) = true) ->
  (forall x, In x (guardiansOf db' s) -> g_id x <> g)
  /\ (forall x, g_id x <> g -> In x (guardiansOf db s) -> In x (guardiansOf db' s))
  /\ (forall s', s' <> s -> guardiansOf db' s' = guardiansOf db s').
Proof.
  cbv zeta. intros Hs Hg Hheld. unfold unlinkGuardian.
  apply Z.eqb_neq in Hs as Hs', Hg as Hg'. rewrite Hs', Hg'. cbn [orb].
  assert (Htable : snd (if negb (holds s && holds g)
                        then (UnlinkError, student_guardian db)
                        else if (length (rowsOf s g (student_guardian db)) =? 0)%nat
                             then (UnlinkNotFound, otherRows s g (student_guardian db))
                             else (UnlinkOk, otherRows s g (student_guardian db)))
                   = otherRows s g (student_guardian db)).
  { destruct (holds s && holds g) eqn:Hh; cbn [negb].
    - destruct (length _ =? 0)%nat; reflexivity.
    - cbn [snd]. symmetry. apply otherRows_absent.
      destruct (rowsOf s g (student_guardian db)) as [|sg l] eqn:Hrows; [reflexivity|].
      assert (Hin : In sg (rowsOf s g (student_guardian db)))
        by (rewrite Hrows; left; reflexivity).
      apply filter_In in Hin as [Hin Hkey]. apply sameLink_key in Hkey.
      injection Hkey as <- <-. destruct (Hheld sg Hin) as [H1 H2].
      rewrite H1, H2 in Hh. discriminate Hh. }
  rewrite Htable, !guardiansOf_withPeople. unfold guardiansOf.
  split; [|split].
  - intros x (y & Hy & Hx)%in_flat_map Heq.
    destruct (g_active y && g_phone_valid y); [|destruct Hx].
    apply in_map_iff in Hx as (sg & <- & Hsg). rewrite Heq in Hsg.
    rewrite rowsOf_otherRows_same in Hsg. destruct Hsg.
  - intros x Hne (y & Hy & Hx)%in_flat_map. apply in_flat_map. exists y.
    split; [exact Hy|]. destruct (g_active y && g_phone_valid y); [|destruct Hx].
    apply in_map_iff in Hx as (sg & <- & Hsg).
    rewrite rowsOf_otherRows_other by congruence.
    apply in_map_iff. eauto.
  - intros s' Hne. cbn [guardian student_guardian withPeople].
    generalize (guardian db). intros l. induction l as [|y l IH]; [reflexivity|].
    cbn [flat_map]. rewrite IH, rowsOf_otherRows_other by congruence. reflexivity.
Qed.

(** The theorem on the unlinking of Ada and guardian 5: the recipients of Bob stay. *)
Lemma unlinked_guardian_not_notified_witness :
  guardiansOf
    (withPeople sampleDb (student sampleDb) (guardian sampleDb)
       (snd (@unlinkGuardian int4 (student_guardian sampleDb) (Some 1) (Some 5)))) 2
  = guardiansOf sampleDb 2.
Proof.
  apply (@unlinked_guardian_not_notified int4 sampleDb 1 5); try discriminate.
  intros sg [<- | [<- | [<- | [<- | []]]]]; split; reflexivity.
Defined.

Lemma distinctIds_In l x : In x (distinctIds l) <-> In x l.
Proof.
  induction l as [|y r IH]; [reflexivity|]. cbn [distinctIds]. split.
  - intros [<- | Hin]; [left; reflexivity|].
    apply filter_In in Hin as [Hin _]. right. apply IH, Hin.
  - intros [<- | Hin]; [left; reflexivity|].
    destruct (Z.eq_dec y x) as [->|Hne]; [left; reflexivity|].
    right. apply filter_In. split; [apply IH, Hin|].
    apply negb_true_iff, Z.eqb_neq, Hne.
Qed.

Lemma NoDup_filter_list {A} (f : A -> bool) (l : list A) :
  List.NoDup l -> List.NoDup (List.filter f l).
Proof.
  induction 1 as [|x l Hx Hnd IH]; cbn [List.filter]; [constructor|].
  destruct (f x); [|exact IH]. constructor; [|exact IH].
  intros Hin. apply Hx. apply filter_In in Hin. apply Hin.
Qed.

Lemma distinctIds_NoDup l : List.NoDup (distinctIds l).
Proof.
  induction l as [|y r IH]; cbn [distinctIds]; [constructor|].
  constructor; [|apply NoDup_filter_list, IH].
  intros Hin. apply filter_In in Hin as [_ Hne].
  rewrite Z.eqb_refl in Hne. discriminate Hne.
Qed.

(** The guardian has no link in [links]. *)
Definition orphan (links : list LinkRow) (gid : Z) : bool :=
  Nat.eqb (length (List.filter (fun sg => sg_guardian_id sg =? gid) links)) 0.

Lemma orphan_spec links gid :
  orphan links gid = true <-> forall sg, In sg links -> sg_guardian_id sg <> gid.
Proof.
  unfold orphan. rewrite Nat.eqb_eq. split.
  - intros Hlen sg Hin Heq.
    assert (Hf : In sg (List.filter (fun sg => sg_guardian_id sg =? gid) links)).
    { apply filter_In. split; [exact Hin|]. apply Z.eqb_eq, Heq. }
    destruct (List.filter _ links); [destruct Hf|discriminate Hlen].
  - intros Hall. destruct (List.filter _ links) as [|sg l] eqn:Hf; [reflexivity|].
    assert (Hin : In sg (List.filter (fun sg => sg_guardian_id sg =? gid) links))
      by (rewrite Hf; left; reflexivity).
    apply filter_In in Hin as [Hin Heq]. apply Z.eqb_eq in Heq.
    exfalso. exact (Hall sg Hin Heq).
Qed.

(** The loop over the guardian ids, as a whole. *)
Lemma fold_dropOrphan links gids : forall guardians deleted,
  fold_left (dropOrphan links) gids (guardians, deleted)
  = (List.filter
       (fun g => negb (existsb (fun gid => orphan links gid && (g_id g =? gid)) gids))
       guardians,
     deleted ++ List.filter (orphan links) gids).
Proof.
  induction gids as [|gid gids IH]; intros guardians deleted.
  - cbn. rewrite app_nil_r. f_equal. induction guardians as [|g l IHl]; [reflexivity|].
    cbn [List.filter]. rewrite <- IHl. reflexivity.
  - cbn [fold_left dropOrphan List.filter existsb]. fold (orphan links gid).
    destruct (orphan links gid) eqn:Ho.
    + rewrite IH, <- app_assoc. f_equal.
      induction guardians as [|g l IHl]; [reflexivity|].
      cbn [List.filter andb]. destruct (g_id g =? gid) eqn:Hg; cbn [negb orb].
      * exact IHl.
      * cbn [List.filter]. rewrite IHl. reflexivity.
    + rewrite IH. reflexivity.
Qed.

(** X15.  Deleting a student that exists removes the student and every link of
    the student, and leaves the other students and their links alone.  The
    guardians deleted with it are exactly those that were linked to the
    student and to no other student; all other guardians stay.  If every link
    referred to a student and a guardian of the tables before, that is still
    so afterwards.  (The ids of the stored students are numbers that the id
    columns hold.) *)
Theorem deleteStudent_removes `{IdColumn} (atomic : bool) (db : Db) (id : Z) :
  id <> 0 ->
  (forall s, In s (student db) -> holds (st_id s) = true) ->
  (exists s, In s (student db) /\ st_id s = id) ->
  exists deleted,
    let db' := snd (deleteStudent atomic db (Some id)) in
    fst (deleteStudent atomic db (Some id)) = Deleted id deleted
    /\ student db' = List.filter (fun s => negb (st_id s =? id)) (student db)
    /\ student_guardian db'
       = List.filter (fun sg => negb (sg_student_id sg =? id)) (student_guardian db)
    /\ List.NoDup deleted
    /\ (forall gid, In gid deleted
          <-> (exists sg, In sg (student_guardian db)
                          /\ sg_student_id sg = id /\ sg_guardian_id sg = gid)
              /\ forall sg, In sg (student_guardian db) -> sg_guardian_id sg = gid ->
                            sg_student_id sg = id)
    /\ (forall g, In g (guardian db')
          <-> In g (guardian db) /\ ~ In (g_id g) deleted)
    /\ (linksResolve db -> linksResolve db').
Proof.
  intros Hid Hheld (s0 & Hs0 & Hs0id). unfold deleteStudent.
  apply Z.eqb_neq in Hid as Hid'. rewrite Hid'.
  assert (Hh : holds id = true) by (rewrite <- Hs0id; apply Hheld, Hs0).
  rewrite Hh. cbn [negb].
  assert (Hfound : existsb (fun s => st_id s =? id) (student db) = true).
  { apply existsb_exists. exists s0. split; [exact Hs0|]. apply Z.eqb_eq, Hs0id. }
  rewrite Hfound. cbn [negb].
  set (links := List.filter (fun sg => negb (sg_student_id sg =? id)) (student_guardian db)).
  set (gids := distinctIds (map sg_guardian_id
                 (List.filter (fun sg => sg_student_id sg =? id) (student_guardian db)))).
  rewrite fold_dropOrphan. cbn [app].
  exists (List.filter (orphan links) gids). cbv zeta.
  cbn [fst snd student student_guardian guardian withPeople scan_event qr_code
       message_log message_recipient message_template].
  assert (Hdel : forall gid, In gid (List.filter (orphan links) gids)
            <-> (exists sg, In sg (student_guardian db)
                            /\ sg_student_id sg = id /\ sg_guardian_id sg = gid)
                /\ forall sg, In sg (student_guardian db) -> sg_guardian_id sg = gid ->
                              sg_student_id sg = id).
  { intros gid. rewrite filter_In, orphan_spec. unfold gids.
    rewrite distinctIds_In, in_map_iff. split.
    - intros [(sg & Hg & Hin) Horph]. apply filter_In in Hin as [Hin Hsid].
      apply Z.eqb_eq in Hsid. split; [eauto|].
      intros sg' Hin' Hg'. destruct (Z.eq_dec (sg_student_id sg') id) as [He|Hne]; [exact He|].
      exfalso. apply (Horph sg'); [|exact Hg'].
      apply filter_In. split; [exact Hin'|]. apply negb_true_iff, Z.eqb_neq, Hne.
    - intros [(sg & Hin & Hsid & Hg) Honly]. split.
      + exists sg. split; [exact Hg|]. apply filter_In. split; [exact Hin|].
        apply Z.eqb_eq, Hsid.
      + intros sg' Hin' Hg'. apply filter_In in Hin' as [Hin' Hne].
        apply negb_true_iff, Z.eqb_neq in Hne. apply Hne, Honly; assumption. }
  assert (Hkept : forall g,
            In g (List.filter
                    (fun g => negb (existsb (fun gid => orphan links gid && (g_id g =? gid))
                                      gids)) (guardian db))
            <-> In g (guardian db) /\ ~ In (g_id g) (List.filter (orphan links) gids)).
  { intros g. rewrite filter_In, negb_true_iff, <- not_true_iff_false, existsb_exists.
    split; intros [Hg Hn]; (split; [exact Hg|]).
    - intros Hin. apply Hn. exists (g_id g). apply filter_In in Hin as [Hin Ho].
      split; [exact Hin|]. rewrite Ho, Z.eqb_refl. reflexivity.
    - intros (gid & Hin & [Ho He]%andb_prop). apply Z.eqb_eq in He. subst gid.
      apply Hn, filter_In. split; assumption. }
  split; [reflexivity|]. split; [reflexivity|]. split; [reflexivity|].
  split; [apply NoDup_filter_list, distinctIds_NoDup|].
  split; [exact Hdel|]. split; [exact Hkept|].
  intros Hres sg Hin. cbn [student student_guardian guardian withPeople] in *.
  apply filter_In in Hin as [Hin Hne].
  destruct (Hres sg Hin) as [(st & Hst & Hstid) (g & Hg & Hgid)]. split.
  - exists st. split; [|exact Hstid]. apply filter_In. split; [exact Hst|].
    rewrite Hstid. exact Hne.
  - exists g. split; [|exact Hgid]. apply Hkept. split; [exact Hg|].
    intros Hd. apply Hdel in Hd as [_ Honly].
    apply negb_true_iff, Z.eqb_neq in Hne. apply Hne, Honly; [exact Hin|].
    symmetry. exact Hgid.
Qed.

(** The theorem on the deletion of Ada, who has three guardians of her own. *)
Lemma deleteStudent_removes_witness :
  exists deleted,
    fst (@deleteStudent int4 false sampleDb (Some 1)) = Deleted 1 deleted
    /\ List.NoDup deleted.
Proof.
  destruct (@deleteStudent_removes int4 false sampleDb 1)
    as (deleted & Hres & _ & _ & Hnd & _).
  - discriminate.
  - intros s [<- | [<- | []]]; reflexivity.
  - eexists. split; [left; reflexivity | reflexivity].
  - exists deleted. split; assumption.
Defined.

(** X16.  For a non-zero id that no student has: when the id columns hold
    the number, deleting the student answers 404 and, when every link refers
    to a student of the table, leaves the database exactly as it was, whether
    or not the statements ran in one transaction; when the columns do not
    hold the number, the answer is 500 and nothing is changed. *)
Theorem deleteStudent_missing `{IdColumn} (atomic : bool) (db : Db) (id : Z) :
  id <> 0 ->
  (forall s, In s (student db) -> st_id s <> id) ->
  (forall sg, In sg (student_guardian db) ->
     exists s, In s (student db) /\ st_id s = sg_student_id sg) ->
  (holds id = true ->
   fst (deleteStudent atomic db (Some id)) = DeleteNotFound
   /\ student (snd (deleteStudent atomic db (Some id))) = student db
   /\ student_guardian (snd (deleteStudent atomic db (Some id))) = student_guardian db
   /\ guardian (snd (deleteStudent atomic db (Some id))) = guardian db)
  /\ (holds id = false -> deleteStudent atomic db (Some id) = (DeleteError, db)).
Proof.
  intros Hid Hnone Hres. unfold deleteStudent.
  apply Z.eqb_neq in Hid as Hid'. rewrite Hid'.
  split; [|intros ->; reflexivity]. intros ->. cbn [negb].
  assert (Hfound : existsb (fun s => st_id s =? id) (student db) = false).
  { apply not_true_iff_false. intros (s & Hs & He)%existsb_exists.
    apply Z.eqb_eq in He. exact (Hnone s Hs He). }
  rewrite Hfound. cbn [negb fst snd]. split; [reflexivity|].
  assert (Hst : List.filter (fun s => negb (st_id s =? id)) (student db) = student db).
  { clear - Hnone. induction (student db) as [|s l IH]; [reflexivity|].
    cbn [List.filter].
    assert (Hs : (st_id s =? id) = false) by (apply Z.eqb_neq, Hnone; left; reflexivity).
    rewrite Hs. cbn [negb]. rewrite IH; [reflexivity|].
    intros x Hx. apply Hnone. right. exact Hx. }
  assert (Hsg : List.filter (fun sg => negb (sg_student_id sg =? id)) (student_guardian db)
                = student_guardian db).
  { assert (Hall : forall sg, In sg (student_guardian db) -> sg_student_id sg <> id).
    { intros sg Hin He. destruct (Hres sg Hin) as (s & Hs & Hsid).
      apply (Hnone s Hs). congruence. }
    clear - Hall. induction (student_guardian db) as [|sg l IH]; [reflexivity|].
    cbn [List.filter].
    assert (Hs : (sg_student_id sg =? id) = false)
      by (apply Z.eqb_neq, Hall; left; reflexivity).
    rewrite Hs. cbn [negb]. rewrite IH; [reflexivity|].
    intros x Hx. apply Hall. right. exact Hx. }
  destruct atomic; cbn [student student_guardian guardian withPeople];
    rewrite ?Hst, ?Hsg; repeat split.
Qed.

(** The theorem on a student id that is not in the table, and on one that no
    four-byte column holds. *)
Lemma deleteStudent_missing_witness :
  fst (@deleteStudent int4 false sampleDb (Some 99)) = DeleteNotFound
  /\ @deleteStudent int4 false sampleDb (Some 2147483648) = (DeleteError, sampleDb).
Proof.
  split.
  - apply (@deleteStudent_missing int4 false sampleDb 99).
    + discriminate.
    + intros s [<- | [<- | []]]; discriminate.
    + intros sg [<- | [<- | [<- | [<- | []]]]]; eexists;
        first [ split; [left; reflexivity | reflexivity]
              | split; [right; left; reflexivity | reflexivity] ].
    + reflexivity.
  - apply (@deleteStudent_missing int4 false sampleDb 2147483648).
    + discriminate.
    + intros s [<- | [<- | []]]; discriminate.
    + intros sg [<- | [<- | [<- | [<- | []]]]]; eexists;
        first [ split; [left; reflexivity | reflexivity]
              | split; [right; left; reflexivity | reflexivity] ].
    + reflexivity.
Defined.

(** X17.  For a positive integer id: when the id columns hold the number,
    deleting a guardian that exists removes the guardian and every link to it
    and nothing else, and afterwards no link refers to the guardian and no
    scan selects it as a recipient, while deleting a guardian that does not
    exist answers 404 and changes nothing; when the columns do not hold the
    number, the answer is 500 and nothing is changed. *)
Theorem deleteGuardian_removes `{IdColumn} (db : Db) (id : Z) :
  0 < id ->
  let res := fst (deleteGuardian db (Some id)) in
  let db' := snd (deleteGuardian db (Some id)) in
  (holds id = true ->
   (res = GuardianDeleted <-> exists g, In g (guardian db) /\ g_id g = id)
   /\ (res = GuardianNotFound <-> forall g, In g (guardian db) -> g_id g <> id)
   /\ (res = GuardianNotFound -> db' = db)
   /\ (res = GuardianDeleted ->
       student db' = student db
       /\ (forall g, In g (guardian db') <-> In g (guardian db) /\ g_id g <> id)
       /\ (forall sg, In sg (student_guardian db')
             <-> In sg (student_guardian db) /\ sg_guardian_id sg <> id)
       /\ forall sid g, In g (guardiansOf db' sid) -> g_id g <> id))
  /\ (holds id = false -> res = GuardianError /\ db' = db).
Proof.
  intros Hpos. cbv zeta. unfold deleteGuardian.
  assert (Hle : (id <=? 0) = false) by (apply Z.leb_gt, Hpos). rewrite Hle.
  split; [|intros ->; split; reflexivity]. intros ->. cbn [negb].
  destruct (existsb (fun g => g_id g =? id) (guardian db)) eqn:Hex; cbn [negb fst snd].
  - apply existsb_exists in Hex as (g0 & Hg0 & He). apply Z.eqb_eq in He.
    split; [split; [eauto|reflexivity]|].
    split; [split; [discriminate|intros H'; exfalso; exact (H' g0 Hg0 He)]|].
    split; [discriminate|]. intros _.
    cbn [student guardian student_guardian withPeople].
    assert (Hg : forall g, In g (List.filter (fun g => negb (g_id g =? id)) (guardian db))
                  <-> In g (guardian db) /\ g_id g <> id).
    { intros g. rewrite filter_In, negb_true_iff, Z.eqb_neq. reflexivity. }
    split; [reflexivity|]. split; [exact Hg|]. split.
    + intros sg. rewrite filter_In, negb_true_iff, Z.eqb_neq. reflexivity.
    + intros sid g. rewrite guardiansOf_withPeople.
      intros (y & Hy & Hx)%in_flat_map.
      destruct (g_active y && g_phone_valid y); [|destruct Hx].
      apply in_map_iff in Hx as (sg & <- & _). apply Hg, Hy.
  - assert (Hnone : forall g, In g (guardian db) -> g_id g <> id).
    { intros g Hg He. apply not_true_iff_false in Hex. apply Hex, existsb_exists.
      exists g. split; [exact Hg|]. apply Z.eqb_eq, He. }
    split; [split; [discriminate|intros (g & Hg & He); exfalso; exact (Hnone g Hg He)]|].
    split; [split; [intros _; exact Hnone|reflexivity]|].
    split; [reflexivity|discriminate].
Qed.

(** The theorem on the deletion of guardian 5, and on an id that no
    four-byte column holds. *)
Lemma deleteGuardian_removes_witness :
  fst (@deleteGuardian int4 sampleDb (Some 5)) = GuardianDeleted
  /\ fst (@deleteGuardian int4 sampleDb (Some 2147483648)) = GuardianError.
Proof.
  split.
  - apply (@deleteGuardian_removes int4 sampleDb 5); [reflexivity|reflexivity|].
    eexists. split; [left; reflexivity | reflexivity].
  - apply (@deleteGuardian_removes int4 sampleDb 2147483648); reflexivity.
Defined.

End People.

(** * The sender of the messages (utils/sms.js, [getFrom]) *)

Module Sender.
Import Js JsFacts.

(** Character class [[A-Za-z0-9]]. *)
Definition isAlnum (c : ascii) : bool :=
  isDigit c || ((65 <=? code c)%nat && (code c <=? 90)%nat)
  || ((97 <=? code c)%nat && (code c <=? 122)%nat).

(** [/^\+?\d+$/.test(s)] *)
Definition isNumber (s : string) : bool :=
  let d := if startsWith "+" s then slice 1 s else s in
  truthy d && allS isDigit d.

(** [s.slice(0, n)] *)
Fixpoint takeS (n : nat) (s : string) : string :=
  match n, s with
  | S n', String c r => String c (takeS n' r)
  | _, _ => EmptyString
  end.

(** [getFrom()]; [setting] is [process.env.CLICK_SEND_FROM]. *)
Definition getFrom (setting : option string) : option string :=
  let raw := trim (match setting with Some s => s | None => "" end) in
  if negb (truthy raw) then None
  else if isNumber raw then Some raw
  else
    let cleaned := takeS 11 (filterS isAlnum raw) in
    if negb (truthy cleaned) then None else Some cleaned.

Example getFrom_samples :
  getFrom None = None
  /\ getFrom (Some "  +61400000000 ") = Some "+61400000000"
  /\ getFrom (Some "Kumon Centre - Hobart") = Some "KumonCentre"
  /\ getFrom (Some " -- ") = None.
Proof. repeat split. Qed.

Lemma alnum_no_space c : isAlnum c = true -> isSpace c = false.
Proof. destruct c as [[] [] [] [] [] [] [] []]; vm_compute; congruence. Qed.

Lemma space_not_alnum c : isSpace c = true -> isAlnum c = false.
Proof. destruct c as [[] [] [] [] [] [] [] []]; vm_compute; congruence. Qed.

Lemma digit_alnum c : isDigit c = true -> isAlnum c = true.
Proof. unfold isAlnum. intros ->. reflexivity. Qed.

Lemma startsWithSpace_all p s :
  (forall c, p c = true -> isSpace c = false) -> allS p s = true ->
  startsWithSpace s = false.
Proof.
  intros Hp. destruct s as [|c r]; [reflexivity|].
  intros [Hc _]%andb_prop. exact (Hp c Hc).
Qed.

Lemma endsWithSpace_all p s :
  (forall c, p c = true -> isSpace c = false) -> allS p s = true ->
  endsWithSpace s = false.
Proof.
  intros Hp. induction s as [|c r IH]; [reflexivity|].
  intros [Hc Hr]%andb_prop. destruct r as [|c' r']; [exact (Hp c Hc)|exact (IH Hr)].
Qed.

Lemma trim_all p s :
  (forall c, p c = true -> isSpace c = false) -> allS p s = true -> trim s = s.
Proof.
  intros Hp Hs. apply trim_id;
    [eapply startsWithSpace_all | eapply endsWithSpace_all]; eassumption.
Qed.

Lemma allS_takeS p n s : allS p s = true -> allS p (takeS n s) = true.
Proof.
  revert s. induction n as [|n IH]; intros [|c r]; cbn [takeS allS]; try reflexivity.
  intros [Hc Hr]%andb_prop. rewrite Hc. exact (IH r Hr).
Qed.

Lemma length_takeS n s : (String.length (takeS n s) <= n)%nat.
Proof.
  revert s. induction n as [|n IH]; intros [|c r]; cbn [takeS String.length]; try lia.
  specialize (IH r). lia.
Qed.

Lemma takeS_short n s : (String.length s <= n)%nat -> takeS n s = s.
Proof.
  revert s. induction n as [|n IH]; intros [|c r]; cbn [takeS String.length];
    try reflexivity; try lia.
  intros H. rewrite IH by lia. reflexivity.
Qed.

Lemma takeS_empty n s : takeS (S n) s = "" -> s = "".
Proof. destruct s; [reflexivity|discriminate]. Qed.

(** The characters of a number: digits and the plus sign. *)
Definition isNumberChar (c : ascii) : bool := isDigit c || Ascii.eqb c "+"%char.

Lemma numberChar_no_space c : isNumberChar c = true -> isSpace c = false.
Proof. destruct c as [[] [] [] [] [] [] [] []]; vm_compute; congruence. Qed.

Lemma isNumber_chars s : isNumber s = true -> allS isNumberChar s = true.
Proof.
  unfold isNumber. cbv zeta.
  assert (Hd : forall d, allS isDigit d = true -> allS isNumberChar d = true).
  { intros d. apply Phone.allS_weaken. intros c Hc. unfold isNumberChar.
    rewrite Hc. reflexivity. }
  destruct s as [|c r]; [discriminate|]. cbn [startsWith].
  destruct (Ascii.eqb "+" c) eqn:Hc; cbn [andb slice].
  - intros [_ Hr]%andb_prop. cbn [allS]. apply Ascii.eqb_eq in Hc as <-.
    rewrite (Hd r Hr). reflexivity.
  - intros [_ Hr]%andb_prop. exact (Hd _ Hr).
Qed.

Lemma filterS_empty keep s :
  filterS keep s = "" <-> allS (fun c => negb (keep c)) s = true.
Proof.
  induction s as [|c r IH]; cbn [filterS allS]; [split; reflexivity|].
  destruct (keep c); cbn [negb andb]; [split; discriminate|exact IH].
Qed.

Lemma isNumber_has_digit s : isNumber s = true -> filterS isAlnum s <> "".
Proof.
  unfold isNumber. cbv zeta. destruct s as [|c r]; [discriminate|]. cbn [startsWith].
  assert (Hd : forall d, truthy d && allS isDigit d = true -> filterS isAlnum d <> "").
  { intros [|x d]; [discriminate|]. cbn [truthy andb allS filterS].
    intros [Hx _]%andb_prop. rewrite (digit_alnum x Hx). discriminate. }
  destruct (Ascii.eqb "+" c) eqn:Hc; cbn [andb slice]; intros H.
  - cbn [filterS]. destruct (isAlnum c); [discriminate|]. exact (Hd r H).
  - exact (Hd _ H).
Qed.

(** X18.  Whatever the setting, the sender chosen by [getFrom] is absent
    exactly when the setting holds no letter or digit.  A sender that is
    chosen is not empty and is either a number (digits after an optional
    plus sign) or at most 11 letters and digits; and it is stable: set as the
    setting it is chosen as it stands. *)
Theorem getFrom_sender (setting : option string) :
  (getFrom setting = None
   <-> filterS isAlnum (match setting with Some s => s | None => "" end) = "")
  /\ forall sender, getFrom setting = Some sender ->
       sender <> ""
       /\ (isNumber sender = true
           \/ (allS isAlnum sender = true /\ (String.length sender <= 11)%nat))
       /\ getFrom (Some sender) = Some sender.
Proof.
  unfold getFrom at 1 2. cbv zeta.
  set (s := match setting with Some s => s | None => "" end).
  assert (Hf : filterS isAlnum (trim s) = filterS isAlnum s).
  { unfold trim. rewrite Phone.filterS_trimStart by apply space_not_alnum.
    apply Phone.filterS_trimEnd, space_not_alnum. }
  rewrite <- Hf. generalize (trim s) as raw. clear s Hf. intros raw.
  assert (Hal : allS isAlnum (takeS 11 (filterS isAlnum raw)) = true)
    by apply allS_takeS, Phone.allS_filterS.
  assert (Hlen : (String.length (takeS 11 (filterS isAlnum raw)) <= 11)%nat)
    by apply length_takeS.
  assert (Hempty : takeS 11 (filterS isAlnum raw) = "" -> filterS isAlnum raw = "")
    by apply takeS_empty.
  assert (Hfull : filterS isAlnum raw = "" -> takeS 11 (filterS isAlnum raw) = "")
    by (intros ->; reflexivity).
  generalize dependent (takeS 11 (filterS isAlnum raw)). intros c Hal Hlen Hempty Hfull.
  destruct (truthy raw) eqn:Hraw; cbn [negb].
  2: { destruct raw; [|discriminate Hraw]. split; [split; reflexivity|discriminate]. }
  destruct (isNumber raw) eqn:Hnum.
  - split.
    + split; [discriminate|]. intros He. exfalso. exact (isNumber_has_digit raw Hnum He).
    + intros sender [= <-]. split; [intros ->; discriminate Hraw|].
      split; [left; exact Hnum|]. unfold getFrom. cbv zeta.
      rewrite (trim_all isNumberChar raw numberChar_no_space (isNumber_chars raw Hnum)).
      rewrite Hraw, Hnum. reflexivity.
  - destruct (truthy c) eqn:Hc; cbn [negb].
    + split.
      * split; [discriminate|]. intros He.
        rewrite (Hfull He) in Hc. discriminate Hc.
      * intros sender [= <-].
        split; [intros He; rewrite He in Hc; discriminate Hc|].
        split; [right; split; assumption|]. unfold getFrom. cbv zeta.
        rewrite (trim_all isAlnum c alnum_no_space Hal), Hc. cbn [negb].
        destruct (isNumber c); [reflexivity|].
        rewrite (Phone.filterS_all isAlnum c Hal), (takeS_short 11 c Hlen), Hc.
        reflexivity.
    + split; [|discriminate]. split; [intros _|reflexivity].
      destruct c; [|discriminate Hc]. exact (Hempty eq_refl).
Qed.

End Sender.

(** * Phone numbers between the forms and the server
    (guardianController.js [isE164], the copies of [toE164AU]) *)

Module PhoneFacts.
Import Js JsFacts Phone.

(** [isE164(phone)] for a string: [/^\+[1-9][0-9]{1,14}$/.test(phone)]. *)
Definition isE164 (phone : string) : bool :=
  match phone with
  | String p (String c r) =>
      Ascii.eqb p "+"%char
      && ((49 <=? code c)%nat && (code c <=? 57)%nat)
      && ((1 <=? String.length r)%nat && (String.length r <=? 14)%nat)
      && allS isDigit r
  | _ => false
  end.

Example isE164_samples :
  isE164 "+61412345678" = true /\ isE164 "0412345678" = false
  /\ isE164 "+0412345678" = false /\ isE164 "+6" = false
  /\ isE164 "+6141234567890123" = false /\ isE164 "+61 412" = false.
Proof. repeat split. Qed.

(** The spellings of the mobile [m] ([4] and eight digits) on a form. *)
Definition spellings (m : string) : list string :=
  [ m; "0" +:+ m; "61" +:+ m; "+61" +:+ m ].

(** X19.  Every spelling of an Australian mobile number (the nine digits
    4xxxxxxxx bare, after 0, after 61 or after +61, with any characters other
    than digits and plus signs among them) is normalised by both copies of
    [toE164AU] to +61 and the nine digits, and [isE164] accepts the result. *)
Theorem mobile_spellings_normalise (input m : string) :
  isBareMobile m = true ->
  In (filterS keepDigitPlus input) (spellings m) ->
  Guardian.toE164AU input = "+61" +:+ m
  /\ Import_.toE164AU input = "+61" +:+ m
  /\ isE164 ("+61" +:+ m) = true.
Proof.
  intros Hm Hin.
  assert (Hn : normaliseStripped (filterS keepDigitPlus input) = "+61" +:+ m).
  { destruct m as [|c r]; [discriminate Hm|].
    pose proof Hm as Hm'. cbn [isBareMobile] in Hm'.
    apply andb_prop in Hm' as [[Hc _]%andb_prop _].
    apply Ascii.eqb_eq in Hc. subst c.
    unfold spellings in Hin. cbv [String.append] in Hin.
    destruct Hin as [<- | [<- | [<- | [<- | []]]]]; unfold normaliseStripped;
      cbn [truthy negb startsWith slice Ascii.eqb Bool.eqb andb]; cbv iota;
      try rewrite Hm; reflexivity. }
  split; [unfold Guardian.toE164AU; cbv zeta; rewrite filterS_trim; exact Hn|].
  split; [exact Hn|].
  destruct m as [|c r]; [discriminate Hm|]. cbn [isBareMobile] in Hm.
  apply andb_prop in Hm as [[Hc Hlen]%andb_prop Hr].
  apply Ascii.eqb_eq in Hc. subst c. apply Nat.eqb_eq in Hlen.
  cbv [String.append]. cbn [isE164 String.length allS]. rewrite Hlen, Hr.
  vm_compute. reflexivity.
Qed.

(** The theorem on a number typed with spaces. *)
Lemma mobile_spellings_normalise_witness :
  Guardian.toE164AU " 0436 536 668 " = "+61436536668"
  /\ Import_.toE164AU " 0436 536 668 " = "+61436536668"
  /\ isE164 "+61436536668" = true.
Proof.
  apply (mobile_spellings_normalise " 0436 536 668 " "436536668").
  - reflexivity.
  - right. left. reflexivity.
Defined.

End PhoneFacts.

(** * The scanner page and the requests it sends
    (Scan.jsx [parseToken], [onResult], [handleSend]; services/api.js
    [postScan]) *)

Module ScanPage.
Import Js JsFacts Json QrToken Scan.

(** The [mode] of the page: its state only ever holds one of the two texts. *)
Inductive Mode := CheckIn | CheckOut.

Definition modeText (mode : Mode) : string :=
  match mode with CheckIn => "CHECK_IN" | CheckOut => "CHECK_OUT" end.

(** [v || undefined] *)
Definition orUndefined (v : jsval) : jsval := if truthyV v then v else JUndefined.

(** The payload of [postScan] in its object style, as the server reads it
    from the body: a member the payload lacks is undefined there.  [user] is
    the id that the server's authentication attaches to the request. *)
Definition postScan (token type_ : string) (messageOverride recheck headcountOnly : jsval)
    (user : option Z) : ScanRequest :=
  {| qrCode := JStr token;
     type := JStr type_;
     messageOverride :=
       match messageOverride with
       | JStr m => if truthy (trim m) then JStr (trim m) else JUndefined
       | _ => JUndefined
       end;
     recheck := if isTrue recheck then JBool true else JUndefined;
     headcountOnly := JBool (truthyV headcountOnly);
     user_id := user |}.

(** [handleSend(messageOverride, recheck, headcountOnly)] with the pending
    token, when the page is not busy: the request sent, if any. *)
Definition handleSend (token : string) (mode : Mode)
    (messageOverride recheck headcountOnly : jsval) (user : option Z)
  : option ScanRequest :=
  if negb (truthy token) then None
  else Some (postScan token (modeText mode) (orUndefined messageOverride)
               (JBool (isTrue recheck)) (JBool (truthyV headcountOnly)) user).

Lemma startsWithSpace_trimStart s : startsWithSpace (trimStart s) = false.
Proof.
  induction s as [|c r IH]; [reflexivity|]. cbn [trimStart].
  destruct (isSpace c) eqn:Hc; [exact IH|]. cbn [startsWithSpace]. exact Hc.
Qed.

Lemma endsWithSpace_trimStart s :
  endsWithSpace s = false -> endsWithSpace (trimStart s) = false.
Proof.
  induction s as [|c r IH]; [reflexivity|]. intros H. cbn [trimStart].
  destruct (isSpace c) eqn:Hc; [|exact H]. apply IH.
  destruct r as [|c' r']; [reflexivity|exact H].
Qed.

Lemma endsWithSpace_trimEnd s : endsWithSpace (trimEnd s) = false.
Proof.
  induction s as [|c r IH]; [reflexivity|]. cbn [trimEnd].
  destruct (trimEnd r) as [|c' r'] eqn:Hr.
  - destruct (isSpace c) eqn:Hc; [reflexivity|]. cbn [endsWithSpace]. exact Hc.
  - exact IH.
Qed.

(** Trimming twice is trimming once. *)
Lemma trim_trim s : trim (trim s) = trim s.
Proof.
  apply trim_id; unfold trim.
  - apply startsWithSpace_trimStart.
  - apply endsWithSpace_trimStart, endsWithSpace_trimEnd.
Qed.

Lemma unitsOf_nil s : unitsOf s = [] -> s = "".
Proof. destruct s; [reflexivity|discriminate]. Qed.

(** The page never takes the empty text for a token. *)
Lemma parseToken_nonempty raw u : parseToken raw = Some u -> u <> [].
Proof.
  unfold parseToken.
  destruct (match JSON_parse raw with Some o => tokenOf o | None => None end)
    as [t|] eqn:Hj.
  - intros [= <-]. destruct (JSON_parse raw) as [o|]; [|discriminate Hj].
    unfold tokenOf in Hj.
    repeat match type of Hj with
           | match ?x with _ => _ end = _ => destruct x; try discriminate Hj
           end.
    injection Hj as <-. discriminate.
  - destruct (truthy raw && truthy (trim raw)) eqn:Ht; [|discriminate].
    intros [= <-] He. apply unitsOf_nil in He.
    apply andb_prop in Ht as [_ Ht]. rewrite He in Ht. discriminate Ht.
Qed.

(** The request built for a token that is not empty passes the input
    checks. *)
Lemma postScan_wellFormed token mode m r h user :
  truthy token = true ->
  wellFormed (postScan token (modeText mode) m r h user)
  /\ typeOf (postScan token (modeText mode) m r h user) = modeText mode.
Proof.
  intros Htok. assert (Hty : typeOf (postScan token (modeText mode) m r h user)
                             = modeText mode) by (destruct mode; reflexivity).
  split; [|exact Hty]. unfold wellFormed. rewrite Hty. cbn [qrCode type postScan truthyV].
  rewrite Htok. destruct mode; repeat split.
Qed.

(** X20.  Whatever text the camera reads: if the page takes a token from it,
    the request it sends for that token passes the input checks of
    [handleScan] (a token that is not empty, the type CHECK_IN or CHECK_OUT of
    the page's mode), so the only 400 answer it can get is that of an
    inactive student.  The server reads from it the trimmed override when the
    operator's text is not blank and none otherwise, a recheck exactly when
    the flag was [true], and head count only exactly when the page's flag was
    truthy. *)
Theorem page_request_passes_checks (raw token : string) (mode : Mode)
    (messageOverride recheck headcountOnly : jsval) (user : option Z) :
  parseToken raw = Some (unitsOf token) ->
  exists req,
    handleSend token mode messageOverride recheck headcountOnly user = Some req
    /\ wellFormed req
    /\ toStringV (qrCode req) = token
    /\ typeOf req = modeText mode
    /\ overrideOf req
       = match messageOverride with
         | JStr m => if truthy (trim m) then Some (trim m) else None
         | _ => None
         end
    /\ wantRecheck req = isTrue recheck
    /\ suppressByHeadcount req = truthyV headcountOnly
    /\ forall env db error,
         fst (fst (handleScan env req db)) = Failure 400 error ->
         error = "Student is inactive".
Proof.
  intros Hp. apply parseToken_nonempty in Hp.
  assert (Htok : truthy token = true).
  { destruct token; [exfalso; apply Hp; reflexivity|reflexivity]. }
  unfold handleSend. rewrite Htok. cbn [negb]. eexists. split; [reflexivity|].
  destruct (postScan_wellFormed token mode (orUndefined messageOverride)
              (JBool (isTrue recheck)) (JBool (truthyV headcountOnly)) user Htok)
    as [Hwf Hty].
  split; [exact Hwf|]. split; [reflexivity|]. split; [exact Hty|].
  split; [|split; [|split]].
  - unfold overrideOf. cbn [Scan.messageOverride postScan].
    destruct messageOverride as [| |b|n|m]; try reflexivity.
    + destruct b; reflexivity.
    + unfold orUndefined. cbn [truthyV]. destruct (negb (n =? 0)); reflexivity.
    + unfold orUndefined. cbn [truthyV]. destruct m as [|c r]; [reflexivity|].
      cbn [truthy]. destruct (truthy (trim (String c r))) eqn:Ht; [|reflexivity].
      rewrite trim_trim, Ht. reflexivity.
  - unfold wantRecheck. cbn [Scan.recheck postScan isTrue].
    destruct (isTrue recheck); reflexivity.
  - unfold suppressByHeadcount. cbn [Scan.headcountOnly postScan truthyV isTrue].
    destruct (truthyV headcountOnly); reflexivity.
  - intros env db error. destruct Hwf as (Hq & Ht & Hs). unfold handleScan.
    rewrite Hq, Ht, Hs. cbn [negb orb].
    destruct (resolveQr db _) as [[qr|]|]; [|discriminate|discriminate].
    destruct (String.eqb (m_status qr) "ACTIVE") eqn:Hact; cbn [negb];
      [|intros [= <-]; reflexivity].
    intros Hres. exfalso.
    exact (ScanFlow.afterResolve_not_failure env _ db qr 400 error Hres).
Qed.

(** The theorem on a scan of Ada's code with an operator's note. *)
Lemma page_request_passes_checks_witness :
  exists req,
    handleSend adaToken CheckIn (JStr "  Ada has arrived  ") (JBool false) (JNum 1 I) (Some 3)
    = Some req
    /\ wellFormed req
    /\ overrideOf req = Some "Ada has arrived"
    /\ suppressByHeadcount req = true.
Proof.
  destruct (page_request_passes_checks (" " +:+ adaToken) adaToken CheckIn
              (JStr "  Ada has arrived  ") (JBool false) (JNum 1 I) (Some 3))
    as (req & Hreq & Hwf & _ & _ & Ho & _ & Hh & _).
  - vm_compute. reflexivity.
  - exists req. repeat split; try assumption; apply Hwf.
Defined.

End ScanPage.

(** * From the issue of a QR code to its scan
    (qrController.js [ensureActiveToken], [generateQRCodes]; Scan.jsx;
    scanController.js [handleScan]) *)

Module Issue.
Import Js JsFacts Json QrToken Schema Scan ScanPage.

(** The database with the table of QR codes replaced. *)
Definition withQrCodes (db : Db) (rows : list QrCodeRow) : Db :=
  {| qr_code := rows; student := student db; scan_event := scan_event db;
     guardian := guardian db; student_guardian := student_guardian db;
     message_template := message_template db; message_log := message_log db;
     message_recipient := message_recipient db;
     setting_center_profile := setting_center_profile db;
     setting_sms_policy := setting_sms_policy db |}.

(** No token is active for two students. *)
Definition tokensDistinct (table : list QrCodeRow) : Prop :=
  forall q q', In q table -> In q' table ->
    qr_active q = true -> qr_active q' = true -> qr_token q = qr_token q' ->
    qr_student_id q = qr_student_id q'.

Lemma selectActiveToken_other table row sid :
  qr_student_id row <> sid ->
  selectActiveToken (table ++ [row]) sid = selectActiveToken table sid.
Proof.
  intros Hne. unfold selectActiveToken. rewrite List.filter_app. cbn [List.filter].
  apply Z.eqb_neq in Hne. rewrite Hne. cbn [andb]. rewrite app_nil_r. reflexivity.
Qed.

(** The two ways [ensureActiveToken] goes. *)
Lemma ensureActiveToken_cases uuid newId table studentId createdBy :
  (exists tok, selectActiveToken table studentId = Some tok /\ truthy tok = true
               /\ ensureActiveToken uuid newId table studentId createdBy = (tok, table))
  \/ ((selectActiveToken table studentId = None
       \/ selectActiveToken table studentId = Some "")
      /\ ensureActiveToken uuid newId table studentId createdBy
         = (uuid, table ++ [newQrCode uuid newId studentId createdBy])).
Proof.
  unfold ensureActiveToken.
  destruct (selectActiveToken table studentId) as [[|c r]|]; cbn [truthy].
  - right. split; [right; reflexivity|reflexivity].
  - left. exists (String c r). repeat split.
  - right. split; [left; reflexivity|reflexivity].
Qed.

Lemma selectActiveToken_not_empty table studentId :
  (forall q, In q table -> qr_token q <> "") ->
  selectActiveToken table studentId <> Some "".
Proof.
  intros Htokens Hsel. apply selectActiveToken_some in Hsel as (q & Hin & Htok & _).
  exact (Htokens q Hin Htok).
Qed.

(** X21.  For a student id that the id columns hold, when no token of the
    table is empty and the generator's UUID is not empty,
    [ensureActiveToken] is stable: the token it returns is the
    student's active token afterwards, a second call returns the same token
    and changes nothing, whatever UUID the generator would give then.  The
    first call changes nothing when the student has an active token, and
    otherwise adds one row: for that student, active, with the generated
    UUID, and created by the user of the request, or by nobody when the
    request names no user or user 0.  The active tokens of the other students
    stay as they were. *)
Theorem ensureActiveToken_stable `{IdColumn} (uuid uuid' : string) (newId newId' : Z)
    (table : list QrCodeRow) (studentId : Z) (createdBy createdBy' : option Z) :
  holds studentId = true ->
  uuid <> "" ->
  (forall q, In q table -> qr_token q <> "") ->
  let token := fst (ensureActiveToken uuid newId table studentId createdBy) in
  let table' := snd (ensureActiveToken uuid newId table studentId createdBy) in
  token <> ""
  /\ selectActiveToken table' studentId = Some token
  /\ ensureActiveToken uuid' newId' table' studentId createdBy' = (token, table')
  /\ (selectActiveToken table studentId <> None -> table' = table)
  /\ (selectActiveToken table studentId = None ->
      token = uuid
      /\ exists row,
           table' = table ++ [row]
           /\ qr_student_id row = studentId /\ qr_token row = uuid
           /\ qr_active row = true
           /\ qr_created_by row
              = match createdBy with
                | Some 0 => None
                | Some user => Some user
                | None => None
                end)
  /\ forall other, other <> studentId ->
       selectActiveToken table' other = selectActiveToken table other.
Proof.
  intros _ Huuid Htokens. cbv zeta.
  destruct (ensureActiveToken_cases uuid newId table studentId createdBy)
    as [(tok & Hsel & Ht & ->) | [[Hsel | Hsel] ->]]; cbn [fst snd].
  - split; [intros ->; discriminate Ht|]. split; [exact Hsel|].
    split; [unfold ensureActiveToken; rewrite Hsel, Ht; reflexivity|].
    split; [reflexivity|]. split; [congruence|]. reflexivity.
  - set (row := newQrCode uuid newId studentId createdBy).
    assert (Hnew : selectActiveToken (table ++ [row]) studentId = Some uuid).
    { apply selectActiveToken_append; [exact Hsel|reflexivity..]. }
    assert (Ht : truthy uuid = true) by (destruct uuid; [congruence|reflexivity]).
    split; [exact Huuid|]. split; [exact Hnew|].
    split; [unfold ensureActiveToken; rewrite Hnew, Ht; reflexivity|].
    split; [congruence|].
    split.
    + intros _. split; [reflexivity|]. exists row. split; [reflexivity|].
      repeat split. cbn [row newQrCode qr_created_by orNull].
      destruct createdBy as [[| |]|]; reflexivity.
    + intros other Hother. apply selectActiveToken_other. cbn [qr_student_id row newQrCode].
      congruence.
  - exfalso. exact (selectActiveToken_not_empty table studentId Htokens Hsel).
Qed.

(** The theorem on the first code of student 7, issued by user 0. *)
Lemma ensureActiveToken_stable_witness :
  ensureActiveToken bobToken 14
    (snd (ensureActiveToken sampleUuid 13 (qr_code sampleDb) 7 (Some 0))) 7 None
  = (fst (ensureActiveToken sampleUuid 13 (qr_code sampleDb) 7 (Some 0)),
     snd (ensureActiveToken sampleUuid 13 (qr_code sampleDb) 7 (Some 0)))
  /\ map qr_created_by (snd (ensureActiveToken sampleUuid 13 (qr_code sampleDb) 7 (Some 0)))
     = [None; None; None].
Proof.
  split; [|reflexivity].
  apply (@ensureActiveToken_stable int4 sampleUuid bobToken 13 14 (qr_code sampleDb) 7
           (Some 0) None).
  - reflexivity.
  - discriminate.
  - intros q [<- | [<- | []]]; discriminate.
Defined.

(** The rows of the join of step 1 for a token. *)
Lemma resolveQr_first db token sid :
  hasNul token = false ->
  (forall q, In q (qr_code db) -> qr_token q = token -> qr_active q = true ->
             qr_student_id q = sid) ->
  (exists q, In q (qr_code db) /\ qr_token q = token /\ qr_active q = true) ->
  (exists s, In s (student db) /\ st_id s = sid) ->
  exists qr, resolveQr db token = Normal (Some qr) /\ m_student_id qr = sid.
Proof.
  intros Hnul Hall (q & Hq & Htok & Hact) (s & Hs & Hsid).
  destruct (resolveQr db token) as [[qr|]|] eqn:Hres.
  - exists qr. split; [reflexivity|].
    apply resolveQr_some in Hres
      as (_ & q' & s' & Hq' & _ & Htok' & Hact' & Hst & _ & Hm & _).
    rewrite Hm, Hst. exact (Hall q' Hq' Htok' Hact').
  - exfalso. unfold resolveQr in Hres. rewrite Hnul in Hres.
    destruct (qrRows db token) as [|m rest] eqn:Hf; [|discriminate Hres].
    assert (Hin : In {| m_qr_id := qr_id q; m_student_id := qr_student_id q;
                        m_first_name := st_first_name s; m_last_name := st_last_name s;
                        m_status := st_status s |} []).
    { rewrite <- Hf. apply in_flat_map. exists q. split; [exact Hq|].
      rewrite Htok, String.eqb_refl, Hact. cbn [andb].
      apply in_map_iff. exists s. split; [reflexivity|].
      apply filter_In. split; [exact Hs|]. apply Z.eqb_eq.
      rewrite Hsid. symmetry. exact (Hall q Hq Htok Hact). }
    destruct Hin.
  - unfold resolveQr in Hres. rewrite Hnul in Hres. discriminate Hres.
Qed.

(** A text of the characters of a UUID holds no code unit 0. *)
Lemma uuidChars_hasNul token : allS isUuidChar token = true -> hasNul token = false.
Proof.
  intros Hplain. unfold hasNul. apply negb_false_iff.
  induction token as [|c r IH]; [reflexivity|].
  cbn [allS] in *. apply andb_prop in Hplain as [Hc Hr].
  rewrite (IH Hr), andb_true_r. apply negb_true_iff.
  destruct (code c =? 0)%nat eqn:H0; [|reflexivity].
  apply Nat.eqb_eq in H0. exfalso.
  assert (c = Ascii.zero) as -> by (apply code_inj; rewrite H0; reflexivity).
  vm_compute in Hc. discriminate Hc.
Qed.

(** X22.  A code issued for a student of the table scans as that student.
    When the tokens are UUIDs, no token is active for two students and the
    generator's UUID is new, the text of the code that [generateQRCodes]
    makes for the student is accepted by the scanner page, and the request
    the page sends for it is never answered 404: the token resolves to that
    student.  If the answer is 200, exactly one scan event was added, for that
    student and of the page's mode. *)
Theorem issued_code_scans (env : ScanEnv) (db : Db) (uuid : string) (newId : Z)
    (studentId : Z) (userId : option Z) (mode : Mode)
    (messageOverride recheck headcountOnly : jsval) (user : option Z) :
  isUuid uuid = true ->
  Forall (fun q => isUuid (qr_token q) = true) (qr_code db) ->
  (forall q, In q (qr_code db) -> qr_token q <> uuid) ->
  tokensDistinct (qr_code db) ->
  (exists s, In s (student db) /\ st_id s = studentId) ->
  let text := fst (generateQRCode uuid newId (qr_code db) studentId userId) in
  let db1 := withQrCodes db
               (snd (generateQRCode uuid newId (qr_code db) studentId userId)) in
  exists token req qr,
    parseToken text = Some (unitsOf token)
    /\ handleSend token mode messageOverride recheck headcountOnly user = Some req
    /\ resolveQr db1 token = Normal (Some qr) /\ m_student_id qr = studentId
    /\ statusOf (fst (fst (handleScan env req db1))) <> 404
    /\ (statusOf (fst (fst (handleScan env req db1))) = 200 ->
        exists e,
          scan_event (snd (fst (handleScan env req db1))) = scan_event db ++ [e]
          /\ se_student_id e = studentId /\ se_type e = modeText mode).
Proof.
  intros Huuid Hall Hfresh Hdistinct Hstudent. cbv zeta.
  assert (Htokens : forall q, In q (qr_code db) -> isUuid (qr_token q) = true).
  { intros q Hq. rewrite Forall_forall in Hall. apply Hall, list_elem_of_In, Hq. }
  unfold generateQRCode.
  assert (Hcases : exists token table,
            ensureActiveToken uuid newId (qr_code db) studentId userId = (token, table)
            /\ isUuid token = true
            /\ (exists q, In q table /\ qr_token q = token /\ qr_active q = true)
            /\ forall q, In q table -> qr_token q = token -> qr_active q = true ->
                         qr_student_id q = studentId).
  { destruct (ensureActiveToken_cases uuid newId (qr_code db) studentId userId)
      as [(tok & Hsel & Ht & ->) | [Hsel ->]].
    - apply selectActiveToken_some in Hsel as (q0 & Hq0 & Hq0tok & Hq0sid & Hq0act).
      exists tok, (qr_code db). split; [reflexivity|].
      split; [rewrite <- Hq0tok; apply Htokens, Hq0|]. split; [eauto|].
      intros q Hq Htok Hact. rewrite <- Hq0sid.
      apply Hdistinct; try assumption. congruence.
    - eexists _, _. split; [reflexivity|]. split; [exact Huuid|]. split.
      + eexists. split; [apply in_or_app; right; left; reflexivity|]. split; reflexivity.
      + intros q Hq Htok Hact. apply in_app_or in Hq as [Hq | [<- | []]]; [|reflexivity].
        exfalso. exact (Hfresh q Hq Htok). }
  destruct Hcases as (token & table & -> & Htoken & Hrow & Honly).
  cbn [fst snd]. unfold controllerQrText.
  destruct (isUuid_plain token Htoken) as [Hne Hplain].
  pose proof (parseToken_plain token Hne Hplain) as Hparse.
  assert (Htok : truthy token = true) by (destruct token; [congruence|reflexivity]).
  destruct (resolveQr_first (withQrCodes db table) token studentId
              (uuidChars_hasNul token Hplain) Honly Hrow Hstudent)
    as (qr & Hres & Hsid).
  set (req := postScan token (modeText mode) (orUndefined messageOverride)
                (JBool (isTrue recheck)) (JBool (truthyV headcountOnly)) user).
  destruct (postScan_wellFormed token mode (orUndefined messageOverride)
              (JBool (isTrue recheck)) (JBool (truthyV headcountOnly)) user Htok)
    as [Hwf Hty]. fold req in Hwf, Hty.
  exists token, req, qr. split; [exact Hparse|].
  split; [unfold handleSend; rewrite Htok; reflexivity|].
  split; [exact Hres|]. split; [exact Hsid|].
  assert (Hqr : toStringV (qrCode req) = token) by reflexivity.
  rewrite <- Hqr in Hres.
  pose proof (ScanFlow.handleScan_outcome env req (withQrCodes db table)) as Hout.
  assert (Hrun : handleScan env req (withQrCodes db table)
                 = (Failure 400 "Student is inactive", withQrCodes db table, [])
                 \/ handleScan env req (withQrCodes db table)
                    = afterResolve env req (withQrCodes db table) qr).
  { destruct (String.eqb (m_status qr) "ACTIVE") eqn:Hact.
    - right. apply handleScan_resolved; [exact Hwf|exact Hres|].
      apply String.eqb_eq, Hact.
    - left. destruct Hwf as (Hq & Ht & Hs). unfold handleScan.
      rewrite Hq, Ht, Hs, Hres, Hact. reflexivity. }
  destruct Hrun as [Hrun | Hrun].
  { rewrite Hrun. cbn [fst snd statusOf]. split; [discriminate|discriminate]. }
  pose proof (ScanFlow.afterResolve_status env req (withQrCodes db table) qr) as Hstatus.
  rewrite <- Hrun in Hstatus. split.
  { rewrite Hstatus. destruct (sameDayGuard env _ req qr) as [[last|]|];
      try discriminate.
    destruct (isDuplicate env _ req qr); [discriminate|].
    destruct (messageFails env req _ qr); discriminate. }
  intros H200.
  destruct (handleScan env req (withQrCodes db table)) as [[res db2] calls].
  cbn [fst snd] in *.
  assert (Hqr' : forall qr', ScanFlow.resolved req (withQrCodes db table) qr' -> qr' = qr).
  { intros qr' (_ & Hr' & _). congruence. }
  assert (Hev : se_student_id (newScanEvent env (withQrCodes db table) req qr) = studentId
                /\ se_type (newScanEvent env (withQrCodes db table) req qr)
                   = modeText mode) by (split; [exact Hsid|exact Hty]).
  pose proof (ScanFlow.afterResolve_not_failure env req (withQrCodes db table) qr) as Hnf.
  rewrite <- Hrun in Hnf. cbn [fst] in Hnf.
  inversion Hout; subst res db2 calls; try discriminate H200.
  - exfalso. eapply Hnf. reflexivity.
  - match goal with Hr : ScanFlow.resolved _ _ _ |- _ => rewrite (Hqr' _ Hr) end.
    eexists. split; [reflexivity|exact Hev].
  - match goal with Hr : ScanFlow.resolved _ _ _ |- _ => rewrite (Hqr' _ Hr) end.
    eexists. split; [reflexivity|exact Hev].
  - match goal with Hr : ScanFlow.resolved _ _ _ |- _ => rewrite (Hqr' _ Hr) end.
    eexists. split; [reflexivity|exact Hev].
Qed.

Definition newUuid : string := "9c0d1e2f-1111-4222-8333-444455556666".

(** The theorem on a new code for Ada, who has an active token already: the
    code carries that token. *)
Lemma issued_code_scans_witness :
  exists token req qr,
    parseToken (fst (generateQRCode newUuid 13 (qr_code sampleDb) 1 None))
    = Some (unitsOf token)
    /\ handleSend token CheckIn JUndefined (JBool false) (JBool false) (Some 3) = Some req
    /\ resolveQr (withQrCodes sampleDb
                    (snd (generateQRCode newUuid 13 (qr_code sampleDb) 1 None))) token
       = Normal (Some qr)
    /\ m_student_id qr = 1.
Proof.
  destruct (issued_code_scans sampleEnv sampleDb newUuid 13 1 None CheckIn JUndefined
              (JBool false) (JBool false) (Some 3))
    as (token & req & qr & H1 & H2 & H3 & H4 & _).
  - reflexivity.
  - repeat (constructor; [reflexivity|]). constructor.
  - intros q [<- | [<- | []]]; discriminate.
  - intros q q' [<- | [<- | []]] [<- | [<- | []]] _ _ Htok;
      first [reflexivity | discriminate Htok].
  - eexists. split; [left; reflexivity | reflexivity].
  - exists token, req, qr. auto.
Defined.

End Issue.

(** * What the renderer always gives (utils/smsRenderer.js) *)

Module RenderFacts.
Import Js JsFacts SmsRenderer.

Lemma replaceTokens_plain f s : lacks "{" s = true -> replaceTokens f None s = s.
Proof.
  induction s as [|c r IH]; [reflexivity|].
  intros [Hc Hr]%andb_prop. apply negb_true_iff in Hc.
  cbn [replaceTokens]. rewrite Hc, IH by exact Hr. reflexivity.
Qed.

(** X23.  [renderSmsTemplate] throws exactly when [Intl] does not know the
    zone it formats in (the argument [tz] when it is not empty, else
    [timezone], else APP_TZ, else Australia/Hobart), whatever the template.
    Otherwise the text it returns has no white space at either end, so
    trimming it again changes nothing, and a template without an opening
    brace is returned as it stands, trimmed. *)
Theorem renderSmsTemplate_trimmed (env : RenderEnv) (text : string) (a : RenderArg) :
  (renderSmsTemplate env text a = Throw <-> intlZone env (timeZoneOf env a) = false)
  /\ timeZoneOf env a
     = orElse (arg_tz a)
         (orElse (arg_timezone a) (orElse (env_APP_TZ env) "Australia/Hobart"))
  /\ (forall r, renderSmsTemplate env text a = Normal r ->
        intlZone env (timeZoneOf env a) = true
        /\ startsWithSpace r = false /\ endsWithSpace r = false /\ trim r = r)
  /\ (intlZone env (timeZoneOf env a) = true ->
      (exists r, renderSmsTemplate env text a = Normal r)
      /\ (lacks "{" text = true -> renderSmsTemplate env text a = Normal (trim text))).
Proof.
  unfold renderSmsTemplate. split; [|split; [reflexivity|split]].
  - destruct (intlZone env (timeZoneOf env a)); split; congruence.
  - destruct (intlZone env (timeZoneOf env a)); [|discriminate].
    intros r [= <-]. unfold renderedText. split; [reflexivity|]. split; [|split].
    + unfold trim. apply ScanPage.startsWithSpace_trimStart.
    + unfold trim. apply ScanPage.endsWithSpace_trimStart, ScanPage.endsWithSpace_trimEnd.
    + apply ScanPage.trim_trim.
  - intros ->. split; [eauto|]. intros Hplain. unfold renderedText.
    rewrite replaceTokens_plain by exact Hplain. reflexivity.
Qed.

(** The theorem on a template of plain text, in Hobart. *)
Lemma renderSmsTemplate_trimmed_witness :
  renderSmsTemplate SmsRenderer.sampleEnv "  See you soon.  " sampleArg
  = Normal "See you soon.".
Proof.
  apply (renderSmsTemplate_trimmed SmsRenderer.sampleEnv "  See you soon.  " sampleArg);
    reflexivity.
Defined.

(** X24.  In a zone that [Intl] knows, the token [{student.fullName}] never
    renders as the empty text: it gives the names joined and trimmed, and the
    word Student when the student has no name or only blank ones.  In a zone
    that [Intl] does not know nothing is rendered: the renderer throws. *)
Theorem fullName_never_empty (env : RenderEnv) (a : RenderArg) :
  let first := firstOf (arg_student a) in
  let last := lastOf (arg_student a) in
  (intlZone env (timeZoneOf env a) = true ->
   renderSmsTemplate env "{student.fullName}" a = Normal (fullName first last)
   /\ fullName first last <> ""
   /\ (trim (joinNames first last) = ""
       <-> renderSmsTemplate env "{student.fullName}" a = Normal "Student"
           /\ trim (joinNames first last) <> "Student"))
  /\ (intlZone env (timeZoneOf env a) = false ->
      renderSmsTemplate env "{student.fullName}" a = Throw).
Proof.
  cbv zeta. unfold renderSmsTemplate. split; [|intros ->; reflexivity]. intros ->.
  assert (Hr : renderedText env "{student.fullName}" a
               = fullName (firstOf (arg_student a)) (lastOf (arg_student a))).
  { unfold renderedText.
    change "{student.fullName}" with ("" +:+ "{" +:+ "student.fullName" +:+ "}" +:+ "").
    rewrite replaceTokens_token; [|reflexivity|discriminate|reflexivity].
    rewrite append_nil. cbn [replaceTokens]. rewrite append_empty_r.
    assert (Hk : replacer (tokenMap env a) "student.fullName"
                 = fullName (firstOf (arg_student a)) (lastOf (arg_student a)))
      by reflexivity.
    rewrite Hk. unfold fullName, orElse.
    destruct (truthy (trim (joinNames _ _))); [apply ScanPage.trim_trim|reflexivity]. }
  rewrite Hr. unfold fullName, orElse.
  destruct (trim (joinNames (firstOf (arg_student a)) (lastOf (arg_student a))))
    as [|c r] eqn:Ht; cbn [truthy].
  - split; [reflexivity|]. split; [discriminate|].
    split; [intros _; split; [reflexivity|discriminate]|reflexivity].
  - split; [reflexivity|]. split; [discriminate|].
    split; [discriminate|]. intros [[= H1] H2]. congruence.
Qed.

(** The theorem on a student without a name, in Hobart. *)
Lemma fullName_never_empty_witness :
  renderSmsTemplate SmsRenderer.sampleEnv "{student.fullName}"
    {| arg_student := {| student_id := Some 4; student_first_name := Some "  ";
                         student_firstName := None; student_last_name := None;
                         student_lastName := None |};
       arg_type := None; arg_now := None; arg_centerName := None;
       arg_centreName := None; arg_tz := None; arg_timezone := None |}
  = Normal "Student".
Proof.
  apply (fullName_never_empty SmsRenderer.sampleEnv
           {| arg_student := {| student_id := Some 4; student_first_name := Some "  ";
                                student_firstName := None; student_last_name := None;
                                student_lastName := None |};
              arg_type := None; arg_now := None; arg_centerName := None;
              arg_centreName := None; arg_tz := None; arg_timezone := None |});
    reflexivity.
Defined.

End RenderFacts.

(** * Guardians that come with an import
    (importController.js [maybeInsertGuardianLink]) *)

Module CsvImport.
Import Js JsFacts Links Scan People.

(** The guardian columns of a CSV row, as [importCsv] hands them over; [None]
    is a column the file lacks.  [gi_primary] is [toBool] of the flag. *)
Record GuardianInput := {
  gi_firstName : option string;
  gi_lastName : option string;
  gi_phone : option string;
  gi_email : option string;
  gi_relationship : option string;
  gi_primary : bool;
}.

(** [(v || '').toString().trim()] *)
Definition cell (v : option string) : string :=
  trim (match v with Some s => s | None => "" end).

Section Names.

(** [isValidName]: the check of a name against [NAME_REGEX], with its
    Unicode classes. *)
Variable isValidName : string -> bool.

(** The texts that the INSERT into [guardian] takes as parameters: the
    names, [g.relationship || 'GUARDIAN'], [g.email || null] and the phone as
    typed.  (The normalised phone holds a plus sign and digits only.) *)
Definition guardianTexts (g : GuardianInput) : list string :=
  [ cell (gi_firstName g); cell (gi_lastName g);
    SmsRenderer.orElse (gi_relationship g) "GUARDIAN";
    SmsRenderer.orElse (gi_email g) ""; cell (gi_phone g) ].

(** [maybeInsertGuardianLink(db, studentId, g)], on the columns of [guardian]
    that a scan reads.  [newId] is the id that the INSERT returns for the new
    guardian ([RETURNING id]).  The INSERT fails, and the function throws,
    when one of its text parameters holds code unit 0. *)
Definition maybeInsertGuardianLink (db : Db) (studentId newId : Z) (g : GuardianInput)
  : Completion Db :=
  let first := cell (gi_firstName g) in
  let last := cell (gi_lastName g) in
  let phone := cell (gi_phone g) in
  if negb (truthy first) || negb (truthy last) || negb (truthy phone) then Normal db
  else if negb (isValidName first) then Normal db
  else if negb (isValidName last) then Normal db
  else
    let e164 := Phone.Import_.toE164AU phone in
    if negb (truthy e164) then Normal db
    else if existsb hasNul (guardianTexts g) then Throw
    else
      let gid := newId in
      Normal
        (withPeople db (student db)
           (guardian db ++ [ {| g_id := gid; g_phone_e164 := e164; g_active := true;
                                g_phone_valid := true |} ])
           (upsertLink (student_guardian db) studentId gid (gi_primary g))).

(** The guardian of the row is imported: the three cells are filled, the
    names pass the check and the phone normalises. *)
Definition importable (g : GuardianInput) : bool :=
  truthy (cell (gi_firstName g)) && truthy (cell (gi_lastName g))
  && truthy (cell (gi_phone g))
  && isValidName (cell (gi_firstName g)) && isValidName (cell (gi_lastName g))
  && truthy (Phone.Import_.toE164AU (cell (gi_phone g))).

Lemma flat_map_snoc {A B} (f : A -> list B) l x :
  flat_map f (l ++ [x]) = flat_map f l ++ f x.
Proof. rewrite flat_map_app. cbn [flat_map]. rewrite app_nil_r. reflexivity. Qed.

Lemma flat_map_same {A B} (f g : A -> list B) l :
  (forall x, In x l -> f x = g x) -> flat_map f l = flat_map g l.
Proof.
  induction l as [|y l IH]; [reflexivity|]. intros H. cbn [flat_map].
  rewrite (H y (or_introl eq_refl)), IH; [reflexivity|].
  intros x Hx. apply H. right. exact Hx.
Qed.

Lemma rowsOf_snoc s g table row :
  rowsOf s g (table ++ [row])
  = rowsOf s g table ++ (if sameLink s g row then [row] else []).
Proof. unfold rowsOf. rewrite List.filter_app. reflexivity. Qed.

Lemma rowsOf_absent s g table :
  (forall sg, In sg table -> sg_guardian_id sg <> g) -> rowsOf s g table = [].
Proof.
  intros H. unfold rowsOf. induction table as [|r t IH]; [reflexivity|].
  cbn [List.filter]. unfold sameLink at 1.
  assert (Hr : (sg_guardian_id r =? g) = false)
    by (apply Z.eqb_neq, H; left; reflexivity).
  rewrite Hr, andb_false_r. apply IH. intros sg Hsg. apply H. right. exact Hsg.
Qed.

Lemma toE164AU_prefix s :
  truthy (Phone.Import_.toE164AU s) = true ->
  startsWith "+61" (Phone.Import_.toE164AU s) = true.
Proof.
  unfold Phone.Import_.toE164AU. cbv zeta.
  destruct (Phone.normaliseStripped_shape (filterS Phone.keepDigitPlus s)
              (Phone.allS_filterS _ _)) as [-> | (r & -> & _)]; [discriminate|].
  intros _. reflexivity.
Qed.

(** X25.  [maybeInsertGuardianLink] skips the guardian, leaving the database
    as it was, exactly when a name or the phone is missing, a name fails the
    check or the phone does not normalise.  Otherwise it fails when a text of
    the row holds code unit 0, and else adds one guardian under the id that
    the database returns (an id that no guardian of the table has), active,
    with a valid phone, whose number is the normalised phone column and
    starts with +61, and one link from the student to that guardian.  When
    every link of the table referred to a guardian of the table, the
    recipients of a scan of the student are then those it had before and the
    new guardian, and the recipients of the other students are unchanged. *)
Theorem imported_guardian_is_notified (db : Db) (studentId newId : Z)
    (g : GuardianInput) :
  (forall sg, In sg (student_guardian db) ->
     exists x, In x (guardian db) /\ g_id x = sg_guardian_id sg) ->
  (forall x, In x (guardian db) -> g_id x <> newId) ->
  (importable g = false <-> maybeInsertGuardianLink db studentId newId g = Normal db)
  /\ (importable g = true -> existsb hasNul (guardianTexts g) = true ->
      maybeInsertGuardianLink db studentId newId g = Throw)
  /\ (importable g = true -> existsb hasNul (guardianTexts g) = false ->
      exists row db',
        maybeInsertGuardianLink db studentId newId g = Normal db'
        /\ guardian db' = guardian db ++ [row]
        /\ student_guardian db'
           = student_guardian db
             ++ [ {| sg_student_id := studentId; sg_guardian_id := newId;
                     sg_is_primary := gi_primary g |} ]
        /\ student db' = student db
        /\ g_id row = newId
        /\ g_active row = true /\ g_phone_valid row = true
        /\ g_phone_e164 row = Phone.Import_.toE164AU (cell (gi_phone g))
        /\ startsWith "+61" (g_phone_e164 row) = true
        /\ (forall x, In x (guardiansOf db' studentId)
              <-> In x (guardiansOf db studentId) \/ x = row)
        /\ forall other x, other <> studentId ->
             (In x (guardiansOf db' other) <-> In x (guardiansOf db other))).
Proof.
  intros Hlinks Hfresh.
  set (row := {| g_id := newId; g_phone_e164 := Phone.Import_.toE164AU (cell (gi_phone g));
                 g_active := true; g_phone_valid := true |}).
  assert (Hnolink : forall sg, In sg (student_guardian db) -> sg_guardian_id sg <> newId).
  { intros sg Hsg. destruct (Hlinks sg Hsg) as (x & Hx & <-). exact (Hfresh x Hx). }
  assert (Hup : upsertLink (student_guardian db) studentId newId (gi_primary g)
                = student_guardian db
                  ++ [ {| sg_student_id := studentId; sg_guardian_id := newId;
                          sg_is_primary := gi_primary g |} ]).
  { unfold upsertLink.
    destruct (existsb (sameLink studentId newId) (student_guardian db)) eqn:Hex;
      [|reflexivity].
    apply existsb_exists in Hex as (sg & Hsg & Hsame).
    apply sameLink_key in Hsame. injection Hsame as _ Hg.
    exfalso. exact (Hnolink sg Hsg Hg). }
  assert (Hgrow : forall l : list GuardianRow, l <> l ++ [row]).
  { intros l H. apply (f_equal (@length GuardianRow)) in H.
    rewrite length_app in H. cbn in H. lia. }
  unfold importable, maybeInsertGuardianLink. cbv zeta.
  destruct (truthy (cell (gi_firstName g))), (truthy (cell (gi_lastName g))),
    (truthy (cell (gi_phone g))); cbn [negb orb andb];
    try (split; [split; reflexivity|split; discriminate]).
  destruct (isValidName (cell (gi_firstName g))); cbn [negb andb];
    [|split; [split; reflexivity|split; discriminate]].
  destruct (isValidName (cell (gi_lastName g))); cbn [negb andb];
    [|split; [split; reflexivity|split; discriminate]].
  destruct (truthy (Phone.Import_.toE164AU (cell (gi_phone g)))) eqn:He; cbn [negb];
    [|split; [split; reflexivity|split; discriminate]].
  destruct (existsb hasNul (guardianTexts g)).
  { split; [split; discriminate|]. split; [reflexivity|discriminate]. }
  rewrite Hup. split.
  { split; [discriminate|]. intros [= Hdb]. exfalso.
    apply (f_equal guardian) in Hdb. cbn [guardian withPeople] in Hdb.
    exact (Hgrow (guardian db) (eq_sym Hdb)). }
  split; [discriminate|]. intros _ _. exists row. eexists. split; [reflexivity|].
  cbn [guardian student_guardian student withPeople].
  split; [reflexivity|]. split; [reflexivity|]. split; [reflexivity|].
  split; [reflexivity|]. split; [reflexivity|]. split; [reflexivity|].
  split; [reflexivity|]. split; [exact (toE164AU_prefix _ He)|].
  assert (Hold : forall sid, flat_map
             (fun x => if g_active x && g_phone_valid x
                       then map (fun _ => x)
                              (rowsOf sid (g_id x)
                                 (student_guardian db
                                  ++ [ {| sg_student_id := studentId; sg_guardian_id := newId;
                                          sg_is_primary := gi_primary g |} ]))
                       else [])
             (guardian db)
           = guardiansOf db sid).
  { intros sid. unfold guardiansOf. apply flat_map_same. intros x Hx.
    rewrite rowsOf_snoc. unfold sameLink at 1. cbn [sg_student_id sg_guardian_id].
    assert (Hne : (newId =? g_id x) = false)
      by (apply Z.eqb_neq; intros Heq; apply (Hfresh x Hx); symmetry; exact Heq).
    rewrite Hne, andb_false_r, app_nil_r. reflexivity. }
  split.
  - intros x. rewrite guardiansOf_withPeople, flat_map_snoc, Hold.
    cbn [g_active g_phone_valid g_id row andb].
    rewrite rowsOf_snoc, (rowsOf_absent _ _ _ Hnolink). unfold sameLink.
    cbn [sg_student_id sg_guardian_id]. rewrite !Z.eqb_refl. cbn [andb app map].
    rewrite in_app_iff. cbn [In]. split; [intros [Hx | [<- | []]]; auto|].
    intros [Hx | ->]; auto.
  - intros other x Hother.
    rewrite guardiansOf_withPeople, flat_map_snoc, Hold.
    cbn [g_active g_phone_valid g_id row andb].
    rewrite rowsOf_snoc, (rowsOf_absent _ _ _ Hnolink). unfold sameLink.
    cbn [sg_student_id sg_guardian_id].
    assert (Hne : (studentId =? other) = false) by (apply Z.eqb_neq; congruence).
    rewrite Hne. cbn [andb app map]. rewrite app_nil_r. reflexivity.
Qed.

End Names.

(** The theorem on a second guardian imported for Bob, with a check of names
    that accepts every name: the guardian is added and selected. *)
Lemma imported_guardian_is_notified_witness :
  exists row db',
    maybeInsertGuardianLink (fun _ => true) sampleDb 2 21
      {| gi_firstName := Some "Grace"; gi_lastName := Some " Hopper ";
         gi_phone := Some "0436 536 668"; gi_email := None;
         gi_relationship := None; gi_primary := false |}
    = Normal db'
    /\ g_id row = 21
    /\ g_phone_e164 row = "+61436536668"
    /\ In row (guardiansOf db' 2).
Proof.
  destruct (imported_guardian_is_notified (fun _ => true) sampleDb 2 21
              {| gi_firstName := Some "Grace"; gi_lastName := Some " Hopper ";
                 gi_phone := Some "0436 536 668"; gi_email := None;
                 gi_relationship := None; gi_primary := false |})
    as (_ & _ & Hadd).
  - intros sg [<- | [<- | [<- | [<- | []]]]]; eexists;
      first [ split; [left; reflexivity | reflexivity]
            | split; [right; left; reflexivity | reflexivity]
            | split; [right; right; left; reflexivity | reflexivity]
            | split; [right; right; right; left; reflexivity | reflexivity] ].
  - intros x [<- | [<- | [<- | [<- | []]]]]; discriminate.
  - destruct Hadd as (row & db' & Hrun & _ & _ & _ & Hid & _ & _ & Hphone & _ & Hrec & _);
      [reflexivity | reflexivity |].
    exists row, db'. split; [exact Hrun|]. split; [exact Hid|].
    split; [exact Hphone|]. apply Hrec. right. reflexivity.
Defined.

End CsvImport.
